(** * CAPSEM proxy: the Gemini endpoints and the policy gates

    A shallow embedding of

    - [capsem_python/capsem/policies/debug_policy.py]  (module [DebugPolicy]),
    - [capsem_proxy/capsem_proxy/api/utils.py]         (module [Utils]),
    - [capsem_proxy/capsem_proxy/capsem_integration.py] (module [Integration]),
    - [capsem_proxy/capsem_proxy/api/gemini.py]        (module [Gemini]).

    Conventions of the embedding.

    - Python [str] is [string]; the text is taken to be ASCII, so that
      [str.lower] is the lower-casing of the letters A-Z.
    - A decoded JSON value is a [pyval]; a Python [dict] is an association
      list in insertion order ([items()] follows it).  Floats are left out.
    - The request body is taken after [request.json()], in the shape the
      handlers read it: absent keys are [None].
    - An [async] handler becomes a computation in the monad [M]: it records
      the calls made to the security manager and to the provider, in order,
      and ends in a value or in a raised exception.
    - Logging ([logger.*], [print]) is not recorded. *)

From Stdlib Require Import String Ascii List ZArith Bool Lia DecimalString.
Import ListNotations.
Open Scope list_scope.
Open Scope string_scope.

(** ** Python run-time notions used by the sources *)

Module Py.

(** [c.lower()] on one ASCII character. *)
Definition lower_ascii (c : ascii) : ascii :=
  let n := nat_of_ascii c in
  if (65 <=? n)%nat && (n <=? 90)%nat then ascii_of_nat (n + 32) else c.

(** [s.lower()] *)
Fixpoint lower (s : string) : string :=
  match s with
  | EmptyString => EmptyString
  | String c s' => String (lower_ascii c) (lower s')
  end.

(** [needle in hay] on strings. *)
Fixpoint contains (needle hay : string) : bool :=
  if prefix needle hay then true
  else match hay with
       | EmptyString => false
       | String _ hay' => contains needle hay'
       end.

(** [sep.join(parts)] *)
Definition join (sep : string) (parts : list string) : string :=
  String.concat sep parts.

Definition newline : string := String (ascii_of_nat 10) EmptyString.

(** Decoded JSON values. *)
#[local] Set Warnings "-register-all".
Inductive pyval : Type :=
| PyNone
| PyBool (b : bool)
| PyInt (z : Z)
| PyStr (s : string)
| PyList (l : list pyval)
| PyDict (d : list (string * pyval)).

Definition pydict : Type := list (string * pyval).

(** [d or {}] for an optional dict. *)
Definition dict_or_empty (d : option pydict) : pydict :=
  match d with
  | Some d' => d'
  | None => []
  end.

(** [d.get(key, default)], the key being absent when the field is [None]. *)
Definition get {A : Type} (field : option A) (default : A) : A :=
  match field with
  | Some a => a
  | None => default
  end.

(** [s or placeholder] for an optional string: [None] and [""] are falsy. *)
Definition str_or (s : option string) (placeholder : string) : string :=
  match s with
  | Some EmptyString | None => placeholder
  | Some s' => s'
  end.

(** Truthiness of an optional string, [if part.text:]. *)
Definition truthy_str (s : option string) : bool :=
  match s with
  | Some (String _ _) => true
  | _ => false
  end.

(** Truthiness of an optional bool, [if part.thought:]. *)
Definition truthy_bool (b : option bool) : bool :=
  match b with
  | Some true => true
  | _ => false
  end.

(** The text Python prints for a decoded JSON value.  [repr_str] quotes a
    string the way [repr] does for text without quotes, backslashes or
    control characters, which is all the examples below use. *)
Definition repr_str (s : string) : string := "'" ++ s ++ "'".

Definition str_of_Z (z : Z) : string :=
  DecimalString.NilZero.string_of_int (Z.to_int z).

Fixpoint py_repr (v : pyval) : string :=
  match v with
  | PyNone => "None"
  | PyBool true => "True"
  | PyBool false => "False"
  | PyInt z => str_of_Z z
  | PyStr s => repr_str s
  | PyList l => "[" ++ join ", " (map py_repr l) ++ "]"
  | PyDict d =>
      "{" ++ join ", "
               (map (fun kv => repr_str (fst kv) ++ ": " ++ py_repr (snd kv)) d)
          ++ "}"
  end.

(** [str(v)]: a string is itself, anything else prints as its [repr]. *)
Definition py_str (v : pyval) : string :=
  match v with
  | PyStr s => s
  | _ => py_repr v
  end.

End Py.
Import Py.

(** ** capsem.models and capsem.tools *)

Module Models.

(** Modelled from the spec: capsem/models.py is not among the sources.
    The spec (3) gives the three verdicts. *)
Inductive Verdict : Type := ALLOW | CONFIRM | BLOCK.

(** Modelled from the spec: capsem/models.py is not among the sources.
    The spec (3) names the reasons SAFE and POLICY_VIOLATION, the two the
    sources use. *)
Inductive Reason : Type := SAFE | POLICY_VIOLATION.

(** Modelled from the spec: capsem/models.py is not among the sources.
    A decision is the triple of the spec (3). *)
Record Decision : Type := mkDecision {
  verdict : Verdict;
  reason : Reason;
  details : string
}.

Definition Verdict_eqb (a b : Verdict) : bool :=
  match a, b with
  | ALLOW, ALLOW | CONFIRM, CONFIRM | BLOCK, BLOCK => true
  | _, _ => false
  end.

(** [r.name] of the enum member. *)
Definition Reason_name (r : Reason) : string :=
  match r with
  | SAFE => "SAFE"
  | POLICY_VIOLATION => "POLICY_VIOLATION"
  end.

(** Modelled from the spec: capsem/models.py is not among the sources.
    Its section 4.1 gives the safe default as verdict ALLOW, reason SAFE;
    its details text is not given and is left empty here. *)
Definition DEFAULT_SAFE_DECISION : Decision :=
  mkDecision ALLOW SAFE "".

(** Modelled from the spec: capsem/tools.py is not among the sources.  A
    tool has a name, a description and parameters (3), given as keyword
    arguments where the sources build one. *)
Record Tool : Type := mkTool {
  tool_name : string;
  description : string;
  parameters : pydict
}.

(** Modelled from the spec: capsem/models.py is not among the sources.
    A media item is an opaque reference (3); the handlers pass none. *)
Record Media : Type := mkMedia { media_ref : string }.

(** Modelled from the spec: capsem/models.py is not among the sources.
    An agent has a name, instructions and tools (3), the keyword arguments
    of [create_agent]. *)
Record Agent : Type := mkAgent {
  agent_name : string;
  instructions : string;
  tools : list Tool
}.

End Models.
Import Models.

(** ** capsem.policies.policy: the contract of a policy *)

Module Policy.

(** Modelled from the spec: capsem/policies/policy.py is not among the
    sources.  The eight interception points are those of the spec (4.1),
    with the arguments [DebugPolicy] declares for them. *)
Record t : Type := mk {
  name : string;
  on_workflow_start : string -> Agent -> string -> list Media -> Decision;
  on_workflow_end : string -> Agent -> Decision;
  on_agent_start : string -> Agent -> Decision;
  on_agent_end : string -> Agent -> Decision;
  on_tool_call : string -> Agent -> Tool -> pydict -> Decision;
  on_tool_response : string -> Agent -> Tool -> pydict -> Decision;
  on_model_call :
    string -> Agent -> string -> string -> string -> list Media -> Decision;
  on_model_response :
    string -> Agent -> string -> string -> list Media -> Decision
}.

End Policy.

(** ** capsem/policies/debug_policy.py *)

Module DebugPolicy.

Definition DEBUG_TRIGGER : string := "capsem_block".

Section Hooks.

(** Python's [str] on a decoded value; the hooks only pass it on. *)
Variable str : pyval -> string.

Definition on_workflow_start
  (invocation_id : string) (agent : Agent) (prompt : string)
  (media : list Media) : Decision :=
  DEFAULT_SAFE_DECISION.

Definition on_workflow_end (invocation_id : string) (agent : Agent)
  : Decision := DEFAULT_SAFE_DECISION.

Definition on_agent_start (invocation_id : string) (agent : Agent)
  : Decision := DEFAULT_SAFE_DECISION.

Definition on_agent_end (invocation_id : string) (agent : Agent)
  : Decision := DEFAULT_SAFE_DECISION.

(** [", ".join(f"{k}={v}" for k, v in args.items())] *)
Definition args_str (args : pydict) : string :=
  join ", " (map (fun kv => fst kv ++ "=" ++ str (snd kv)) args).

Definition on_tool_call
  (invocation_id : string) (agent : Agent) (tool : Tool) (args : pydict)
  : Decision :=
  if contains DEBUG_TRIGGER (lower (tool_name tool)) then
    mkDecision BLOCK POLICY_VIOLATION
      ("Detected '" ++ DEBUG_TRIGGER ++ "' in tool name")
  else if contains DEBUG_TRIGGER (lower (args_str args)) then
    mkDecision BLOCK POLICY_VIOLATION
      ("Detected '" ++ DEBUG_TRIGGER ++ "' in tool arguments")
  else DEFAULT_SAFE_DECISION.

Definition on_tool_response
  (invocation_id : string) (agent : Agent) (tool : Tool)
  (response : pydict) : Decision :=
  let response_str := str (PyDict response) in
  if contains "capsem_block" (lower response_str) then
    mkDecision BLOCK POLICY_VIOLATION
      ("Detected '" ++ DEBUG_TRIGGER ++ "' in tool response")
  else DEFAULT_SAFE_DECISION.

Definition on_model_call
  (invocation_id : string) (agent : Agent)
  (model_name system_instructions prompt : string) (media : list Media)
  : Decision :=
  if contains "capsem_block" (lower prompt) then
    mkDecision BLOCK POLICY_VIOLATION
      ("Detected '" ++ DEBUG_TRIGGER ++ "' in prompt")
  else DEFAULT_SAFE_DECISION.

Definition on_model_response
  (invocation_id : string) (agent : Agent)
  (response thoughts : string) (media : list Media) : Decision :=
  if contains "capsem_block" (lower response) then
    mkDecision BLOCK POLICY_VIOLATION
      ("Detected '" ++ DEBUG_TRIGGER ++ "' in model response")
  else DEFAULT_SAFE_DECISION.

(** [DebugPolicy()] *)
Definition new : Policy.t :=
  Policy.mk "Debug"
    on_workflow_start on_workflow_end on_agent_start on_agent_end
    on_tool_call on_tool_response on_model_call on_model_response.

(** [DebugPolicy.from_config(config)]; [enabled] is
    [config.get("enabled", True)] read as a truth value. *)
Definition from_config (enabled : option bool) : option Policy.t :=
  match enabled with
  | Some false => None
  | _ => Some new
  end.

End Hooks.

End DebugPolicy.

(** ** capsem.manager *)

Module SecurityManager.

(** Modelled from the spec: capsem/manager.py is not among the sources.
    The manager holds the ordered list of its policies (4.2), read as
    [security_manager.policies] by the tests. *)
Record t : Type := mk { policies : list Policy.t }.

(** Modelled from the spec: capsem/manager.py is not among the sources.
    [SecurityManager()] holds no policy. *)
Definition new : t := mk [].

(** Modelled from the spec: capsem/manager.py is not among the sources.
    [manager.add_policy(policy)] registers the policy after the others. *)
Definition add_policy (m : t) (p : Policy.t) : t := mk (policies m ++ [p])%list.

(** Modelled from the spec: the precedence BLOCK > CONFIRM > ALLOW of its
    section 4.2. *)
Definition precedence (v : Verdict) : nat :=
  match v with
  | ALLOW => 0
  | CONFIRM => 1
  | BLOCK => 2
  end.

(** Modelled from the spec: capsem/manager.py is not among the sources.
    Its section 4.2: the first policy producing the highest-precedence
    verdict determines the aggregated decision, so a later decision
    replaces the current one only when it is strictly worse. *)
Definition worse (acc d : Decision) : Decision :=
  if (precedence (verdict acc) <? precedence (verdict d))%nat then d else acc.

(** Modelled from the spec: capsem/manager.py is not among the sources.
    Its section 4.2: the decisions of the policies, in registration order,
    are aggregated with [worse]; with no policy the safe default is
    returned. *)
Definition aggregate (ds : list Decision) : Decision :=
  match ds with
  | [] => DEFAULT_SAFE_DECISION
  | d :: ds' => fold_left worse ds' d
  end.

(** Modelled from the spec: capsem/manager.py is not among the sources.
    Its section 4.2: every policy is invoked in registration order and the
    results are aggregated. *)
Definition on_tool_call (m : t) (invocation_id : string) (agent : Agent)
  (tool : Tool) (args : pydict) : Decision :=
  aggregate
    (map (fun p => Policy.on_tool_call p invocation_id agent tool args)
       (policies m)).

(** Modelled from the spec: capsem/manager.py is not among the sources.
    Its section 4.2: every policy is invoked in registration order and the
    results are aggregated. *)
Definition on_tool_response (m : t) (invocation_id : string)
  (agent : Agent) (tool : Tool) (response : pydict) : Decision :=
  aggregate
    (map (fun p => Policy.on_tool_response p invocation_id agent tool response)
       (policies m)).

(** Modelled from the spec: capsem/manager.py is not among the sources.
    Its section 4.2: every policy is invoked in registration order and the
    results are aggregated. *)
Definition on_model_call (m : t) (invocation_id : string) (agent : Agent)
  (model_name system_instructions prompt : string) (media : list Media)
  : Decision :=
  aggregate
    (map (fun p => Policy.on_model_call p invocation_id agent model_name
                     system_instructions prompt media)
       (policies m)).

(** Modelled from the spec: capsem/manager.py is not among the sources.
    Its section 4.2: every policy is invoked in registration order and the
    results are aggregated. *)
Definition on_model_response (m : t) (invocation_id : string)
  (agent : Agent) (response thoughts : string) (media : list Media)
  : Decision :=
  aggregate
    (map (fun p => Policy.on_model_response p invocation_id agent response
                     thoughts media)
       (policies m)).

End SecurityManager.

(** ** google.genai.types and the request body, as the handlers read them *)

Module Wire.

Record FunctionCall : Type := mkFunctionCall {
  fc_name : string;
  fc_args : option pydict
}.

Record FunctionResponse : Type := mkFunctionResponse {
  fr_name : string;
  fr_response : option pydict
}.

Record Part : Type := mkPart {
  text : option string;
  thought : option bool;
  function_call : option FunctionCall;
  function_response : option FunctionResponse
}.

Record Content : Type := mkContent {
  role : option string;
  parts : option (list Part)
}.

(** One element of [body["contents"]]: the fields a handler can read from
    it, and whether the [Content] constructor accepts it. *)
Record ContentEntry : Type := mkContentEntry {
  entry : Content;
  validates : bool
}.

(** A function declaration: [function] of an OpenAI-style tool, or one
    element of [functionDeclarations]. *)
Record FunctionDecl : Type := mkFunctionDecl {
  fd_name : option string;
  fd_description : option string;
  fd_parameters : option pydict
}.

Record ToolDef : Type := mkToolDef {
  td_type : option string;
  td_function : option FunctionDecl;
  td_functionDeclarations : option (list FunctionDecl)
}.

Record Body : Type := mkBody {
  body_contents : option (list ContentEntry);
  body_tools : option (list ToolDef)
}.

Record Candidate : Type := mkCandidate {
  content : option Content
}.

Record GenerateContentResponse : Type := mkGenerateContentResponse {
  candidates : option (list Candidate)
}.

(** What the handler receives: the header, the JSON body ([inl] carries
    the text of the decoding error), and the value [uuid.uuid4().hex]
    takes for this request. *)
Record Request : Type := mkRequest {
  x_goog_api_key : string;
  json : string + Body;
  uuid4_hex : string
}.

Record StreamingResponse (chunk : Type) : Type := mkStreamingResponse {
  stream : list chunk;
  media_type : string
}.
Arguments mkStreamingResponse {chunk} _ _.
Arguments stream {chunk} _.
Arguments media_type {chunk} _.

End Wire.
Import Wire.

(** ** Exceptions, recorded calls and the handler monad *)

Record HTTPException : Type := mkHTTPException {
  status_code : Z;
  detail : string
}.

Inductive exn : Type :=
| RaiseHTTP (e : HTTPException)
| ValueError (msg : string)
| HTTPStatusError (response_status_code : Z)
| HTTPError
| OtherException.

(** The calls a handler makes to its collaborators. *)
Inductive call : Type :=
| CallOnToolResponse (invocation_id : string) (agent : Agent) (tool : Tool)
    (response : pydict)
| CallOnModelCall (invocation_id : string) (agent : Agent)
    (model_name system_instructions prompt : string) (media : list Media)
| CallOnToolCall (invocation_id : string) (agent : Agent) (tool : Tool)
    (args : pydict)
| CallOnModelResponse (invocation_id : string) (agent : Agent)
    (response thoughts : string) (media : list Media)
| CallGenerateContent (model : string) (body : Body) (api_key : string)
| CallGenerateContentStream (model : string) (body : Body) (api_key : string).

Definition M (A : Type) : Type := (list call * (exn + A))%type.

Definition ret {A : Type} (a : A) : M A := ([], inr a).

Definition raise {A : Type} (e : exn) : M A := ([], inl e).

Definition bind {A B : Type} (m : M A) (f : A -> M B) : M B :=
  match m with
  | (t, inl e) => (t, inl e)
  | (t, inr a) => let (t', r) := f a in ((t ++ t')%list, r)
  end.

Definition emit (c : call) : M unit := ([c], inr tt).

Notation "x <- c1 ;; c2" := (bind c1 (fun x => c2))
  (at level 61, c1 at next level, right associativity).
Notation "c1 ;; c2" := (bind c1 (fun _ => c2))
  (at level 61, right associativity).

(** A [for] loop whose body may raise; the state is what the body updates. *)
Fixpoint for_each {A S : Type} (body : S -> A -> M S) (l : list A) (s : S)
  : M S :=
  match l with
  | [] => ret s
  | x :: l' => s' <- body s x ;; for_each body l' s'
  end.

Definition trace {A : Type} (m : list call * A) : list call := fst m.
Definition outcome {A : Type} (m : list call * A) : A := snd m.

(** ** capsem_proxy/api/utils.py *)

Module Utils.

Definition decide (step : string) (decision : Decision)
  (request_id : string) : M unit :=
  if Verdict_eqb (verdict decision) BLOCK then
    raise (RaiseHTTP (mkHTTPException 403
             ("Request blocked by security policy: " ++ details decision)))
  else ret tt.

End Utils.

(** ** capsem_proxy/capsem_integration.py *)

Module Integration.

Section Init.

Variable str : pyval -> string.

(** [SecurityManager()] followed by [add_policy(DebugPolicy())]. *)
Definition default_manager : SecurityManager.t :=
  SecurityManager.add_policy SecurityManager.new (DebugPolicy.new str).

(** The module's top-level code.  [config_dir] is
    [os.environ.get("PROXY_CONFIG_DIR")], [path_exists] is
    [Path(d).exists()], and [load_policies_from_directory] either
    raises or returns a manager. *)
Definition security_manager
  (config_dir : option string) (path_exists : string -> bool)
  (load_policies_from_directory : string -> exn + SecurityManager.t)
  : SecurityManager.t :=
  match config_dir with
  | Some (String _ _ as d) =>
      if path_exists d then
        match load_policies_from_directory d with
        | inr m => m
        | inl _ => default_manager
        end
      else default_manager
  | _ => default_manager
  end.

End Init.

Definition default_parameters : pydict :=
  [("type", PyStr "object"); ("properties", PyDict [])].

(** The body of the loop of [create_agent]. *)
Definition convert_tool (capsem_tools : list Tool) (tool_def : ToolDef)
  : list Tool :=
  match td_type tool_def with
  | Some "function" =>
      let func := get (td_function tool_def) (mkFunctionDecl None None None) in
      let description :=
        str_or (Some (get (fd_description func) "")) "No description provided" in
      let capsem_tool :=
        mkTool (get (fd_name func) "unknown") description
          (get (fd_parameters func) default_parameters) in
      (capsem_tools ++ [capsem_tool])%list
  | _ => capsem_tools
  end.

Definition create_agent (user_id : string) (tools : list ToolDef) : Agent :=
  let capsem_tools := fold_left convert_tool tools [] in
  mkAgent ("proxy-user-" ++ user_id) "OpenAI API proxy user" capsem_tools.

End Integration.

(** ** capsem_proxy.providers.gemini *)

Module GeminiProvider.

(** Modelled from the spec: capsem_proxy/providers/gemini.py is not among
    the sources; the provider is an external collaborator (1), taken as
    given.  [generate_content] raises or returns the raw response, which is
    [None] when the [GenerateContentResponse] constructor rejects it;
    [generate_content_stream] gives the chunks of the upstream stream. *)
Record t : Type := mk {
  generate_content :
    string -> Body -> string -> exn + option GenerateContentResponse;
  generate_content_stream : string -> Body -> string -> list string
}.

End GeminiProvider.

(** ** capsem_proxy/api/gemini.py *)

Module Gemini.

Definition extract_gemini_api_key (x_goog_api_key : string) : M string :=
  match x_goog_api_key with
  | EmptyString => raise (ValueError "Missing x-goog-api-key header")
  | _ => ret x_goog_api_key
  end.

Definition _decide (step : string) (decision : Decision)
  (request_id : string) : M unit :=
  if Verdict_eqb (verdict decision) BLOCK then
    raise (RaiseHTTP (mkHTTPException 403
             ("Request blocked by security policy: " ++ details decision)))
  else ret tt.

(** The local variables of the inbound loop of [generate_content]; [part]
    is the loop variable of the inner [for], unbound until it first runs. *)
Record locals : Type := mkLocals {
  prompt_parts : list string;
  thoughts_parts : list string;
  part : option Part
}.

Definition no_locals : locals := mkLocals [] [] None.

(** The body of [for part in content.parts] on the inbound side. *)
Definition scan_part (l : locals) (p : Part) : locals :=
  match text p with
  | Some (String _ _ as t) =>
      if truthy_bool (thought p) then
        mkLocals (prompt_parts l) (thoughts_parts l ++ [t])%list (Some p)
      else
        mkLocals (prompt_parts l ++ [t])%list (thoughts_parts l) (Some p)
  | _ => mkLocals (prompt_parts l) (thoughts_parts l) (Some p)
  end.

(** The [Tool] built from one function declaration in
    [stream_generate_content]. *)
Definition stream_tool (func_decl : FunctionDecl) : Tool :=
  mkTool (get (fd_name func_decl) "unknown")
    (str_or (Some (get (fd_description func_decl) ""))
       "No description provided")
    (get (fd_parameters func_decl) Integration.default_parameters).

Section Handlers.

Variable security_manager : SecurityManager.t.
Variable get_user_id_from_auth : string -> string.
Variable gemini_provider : GeminiProvider.t.

Definition call_on_tool_response (invocation_id : string) (agent : Agent)
  (tool : Tool) (response : pydict) : M Decision :=
  emit (CallOnToolResponse invocation_id agent tool response) ;;
  ret (SecurityManager.on_tool_response security_manager invocation_id
         agent tool response).

Definition call_on_model_call (invocation_id : string) (agent : Agent)
  (model_name system_instructions prompt : string) (media : list Media)
  : M Decision :=
  emit (CallOnModelCall invocation_id agent model_name
          system_instructions prompt media) ;;
  ret (SecurityManager.on_model_call security_manager invocation_id agent
         model_name system_instructions prompt media).

Definition call_on_tool_call (invocation_id : string) (agent : Agent)
  (tool : Tool) (args : pydict) : M Decision :=
  emit (CallOnToolCall invocation_id agent tool args) ;;
  ret (SecurityManager.on_tool_call security_manager invocation_id agent
         tool args).

Definition call_on_model_response (invocation_id : string)
  (agent : Agent) (response thoughts : string) (media : list Media)
  : M Decision :=
  emit (CallOnModelResponse invocation_id agent response thoughts media) ;;
  ret (SecurityManager.on_model_response security_manager invocation_id
         agent response thoughts media).

(** The body of [for content in contents] of [generate_content]. *)
Definition scan_content (request_id : string) (agent : Agent)
  (l : locals) (c : ContentEntry) : M locals :=
  if negb (validates c) then ret l
  else
    match parts (entry c) with
    | None | Some [] => ret l
    | Some ps =>
        let l' := fold_left scan_part ps l in
        match part l' with
        | None => raise OtherException
        | Some p =>
            match function_response p with
            | Some fr =>
                decision <-
                  call_on_tool_response request_id agent
                    (mkTool (fr_name fr) "Function response from model" [])
                    (dict_or_empty (fr_response fr)) ;;
                _decide "on_tool_response" decision request_id ;;
                ret l'
            | None => ret l'
            end
        end
    end.

(** The body of [for part in candidate.content.parts]; the state is
    [(response_parts, response_thoughts)]. *)
Definition scan_response_part (request_id : string) (agent : Agent)
  (st : list string * list string) (p : Part)
  : M (list string * list string) :=
  let st' :=
    match text p with
    | Some (String _ _ as t) =>
        if truthy_bool (thought p) then (fst st, (snd st ++ [t])%list)
        else ((fst st ++ [t])%list, snd st)
    | _ => st
    end in
  match function_call p with
  | Some fc =>
      tool_decision <-
        call_on_tool_call request_id agent
          (mkTool (fc_name fc) "Function call from model"
             (dict_or_empty (fc_args fc)))
          (dict_or_empty (fc_args fc)) ;;
      _decide "on_tool_call" tool_decision request_id ;;
      ret st'
  | None => ret st'
  end.

(** The body of [for candidate in response.candidates]. *)
Definition scan_candidate (request_id : string) (agent : Agent)
  (st : list string * list string) (candidate : Candidate)
  : M (list string * list string) :=
  match content candidate with
  | None => ret st
  | Some c =>
      match parts c with
      | None | Some [] => ret st
      | Some ps => for_each (scan_response_part request_id agent) ps st
      end
  end.

(** The [try] block of [generate_content]. *)
Definition generate_content_try (model : string) (request : Request)
  : M GenerateContentResponse :=
  api_key <- extract_gemini_api_key (x_goog_api_key request) ;;
  let user_id := get_user_id_from_auth ("Bearer " ++ api_key) in
  let request_id := uuid4_hex request in
  body <- match json request with
          | inl e => raise (ValueError ("Invalid JSON in request body: " ++ e))
          | inr b => ret b
          end ;;
  let agent := Integration.create_agent user_id (get (body_tools body) []) in
  let contents := get (body_contents body) [] in
  l <- for_each (scan_content request_id agent) contents no_locals ;;
  let prompt := join newline (prompt_parts l) in
  let thoughts := join newline (thoughts_parts l) in
  decision <- call_on_model_call request_id agent model "" prompt [] ;;
  _decide "on_model_call" decision request_id ;;
  emit (CallGenerateContent model body api_key) ;;
  raw_response <-
    match GeminiProvider.generate_content gemini_provider model body
            api_key with
    | inl e => raise e
    | inr raw => ret raw
    end ;;
  response <-
    match raw_response with
    | None =>
        raise (RaiseHTTP
                 (mkHTTPException 502 "Invalid response from provider"))
    | Some r => ret r
    end ;;
  match candidates response with
  | None | Some [] => ret response
  | Some cs =>
      st <- for_each (scan_candidate request_id agent) cs ([], []) ;;
      let response_text := join newline (fst st) in
      let response_thoughts := join newline (snd st) in
      response_decision <-
        call_on_model_response request_id agent response_text
          response_thoughts [] ;;
      _decide "on_model_response" response_decision request_id ;;
      ret response
  end.

(** The [except] clauses of [generate_content]. *)
Definition generate_content_except (e : exn) : HTTPException :=
  match e with
  | RaiseHTTP h => h
  | ValueError msg => mkHTTPException 400 msg
  | HTTPStatusError code => mkHTTPException code "Upstream provider error"
  | HTTPError => mkHTTPException 502 "Bad gateway"
  | OtherException => mkHTTPException 500 "Internal server error"
  end.

Definition generate_content (model : string) (request : Request)
  : list call * (HTTPException + GenerateContentResponse) :=
  match generate_content_try model request with
  | (t, inl e) => (t, inl (generate_content_except e))
  | (t, inr r) => (t, inr r)
  end.

(** The prompt loop of [stream_generate_content]: the entries are read
    as plain dicts, [role] defaulting to ["user"] and [parts] to []. *)
Definition stream_scan_part (role : string) (prompt_parts : list string)
  (p : Part) : list string :=
  match text p with
  | Some t => (prompt_parts ++ [(role ++ ": " ++ t)%string])%list
  | None => prompt_parts
  end.

Definition stream_scan_content (prompt_parts : list string)
  (c : ContentEntry) : list string :=
  let role := get (role (entry c)) "user" in
  let parts := get (parts (entry c)) [] in
  fold_left (stream_scan_part role) parts prompt_parts.

(** The body of [for func_decl in tool_def["functionDeclarations"]]. *)
Definition stream_check_decl (request_id : string) (agent : Agent)
  (_ : unit) (func_decl : FunctionDecl) : M unit :=
  let tool := stream_tool func_decl in
  tool_decision <- call_on_tool_call request_id agent tool [] ;;
  if Verdict_eqb (verdict tool_decision) BLOCK then
    raise (RaiseHTTP (mkHTTPException 403
             ("Tool blocked by security policy: "
                ++ details tool_decision)))
  else ret tt.

(** The body of [for tool_def in tools]. *)
Definition stream_check_tool (request_id : string) (agent : Agent)
  (_ : unit) (tool_def : ToolDef) : M unit :=
  match td_functionDeclarations tool_def with
  | Some decls => for_each (stream_check_decl request_id agent) decls tt
  | None => ret tt
  end.

(** The [try] block of [stream_generate_content]. *)
Definition stream_generate_content_try (model : string)
  (request : Request) : M (StreamingResponse string) :=
  api_key <- extract_gemini_api_key (x_goog_api_key request) ;;
  let user_id := get_user_id_from_auth ("Bearer " ++ api_key) in
  let request_id := uuid4_hex request in
  body <- match json request with
          | inl e => raise (ValueError e)
          | inr b => ret b
          end ;;
  let agent := Integration.create_agent user_id (get (body_tools body) []) in
  let contents := get (body_contents body) [] in
  let prompt_parts := fold_left stream_scan_content contents [] in
  let prompt := join newline prompt_parts in
  decision <- call_on_model_call request_id agent model "" prompt [] ;;
  (if Verdict_eqb (verdict decision) BLOCK then
     raise (RaiseHTTP (mkHTTPException 403
              ("Request blocked by security policy: " ++ details decision)))
   else ret tt) ;;
  let tools := get (body_tools body) [] in
  for_each (stream_check_tool request_id agent) tools tt ;;
  emit (CallGenerateContentStream model body api_key) ;;
  let stream :=
    GeminiProvider.generate_content_stream gemini_provider model body
      api_key in
  ret (mkStreamingResponse stream "text/event-stream").

(** The [except] clauses of [stream_generate_content]; an
    [HTTPStatusError] is an [HTTPError]. *)
Definition stream_generate_content_except (e : exn) : HTTPException :=
  match e with
  | RaiseHTTP h => h
  | ValueError msg => mkHTTPException 400 msg
  | HTTPStatusError _ | HTTPError => mkHTTPException 502 "Bad gateway"
  | OtherException => mkHTTPException 500 "Internal server error"
  end.

Definition stream_generate_content (model : string) (request : Request)
  : list call * (HTTPException + StreamingResponse string) :=
  match stream_generate_content_try model request with
  | (t, inl e) => (t, inl (stream_generate_content_except e))
  | (t, inr r) => (t, inr r)
  end.

End Handlers.

End Gemini.


(** ** Reading a run: kinds of calls, decisions, and what a request holds *)

Definition is_tool_response_call (c : call) : bool :=
  match c with CallOnToolResponse _ _ _ _ => true | _ => false end.

Definition is_model_call (c : call) : bool :=
  match c with CallOnModelCall _ _ _ _ _ _ => true | _ => false end.

Definition is_tool_call (c : call) : bool :=
  match c with CallOnToolCall _ _ _ _ => true | _ => false end.

Definition is_model_response_call (c : call) : bool :=
  match c with CallOnModelResponse _ _ _ _ _ => true | _ => false end.

Definition is_provider_call (c : call) : bool :=
  match c with
  | CallGenerateContent _ _ _ | CallGenerateContentStream _ _ _ => true
  | _ => false
  end.

(** The decision the security manager returns for a recorded gate call. *)
Definition decision_of (sm : SecurityManager.t) (c : call) : option Decision :=
  match c with
  | CallOnToolResponse i a t r =>
      Some (SecurityManager.on_tool_response sm i a t r)
  | CallOnModelCall i a m s p md =>
      Some (SecurityManager.on_model_call sm i a m s p md)
  | CallOnToolCall i a t args =>
      Some (SecurityManager.on_tool_call sm i a t args)
  | CallOnModelResponse i a r th md =>
      Some (SecurityManager.on_model_response sm i a r th md)
  | CallGenerateContent _ _ _ | CallGenerateContentStream _ _ _ => None
  end.

Definition blocks (sm : SecurityManager.t) (c : call) : bool :=
  match decision_of sm c with
  | Some d => Verdict_eqb (verdict d) BLOCK
  | None => false
  end.

(** The prompt handed to [on_model_call], if the call is one. *)
Definition prompt_of (c : call) : option string :=
  match c with
  | CallOnModelCall _ _ _ _ p _ => Some p
  | _ => None
  end.

(** Every [Tool] a recorded call hands to the policies: the tool argument
    and the tools of the agent. *)
Definition tools_of (c : call) : list Tool :=
  match c with
  | CallOnToolResponse _ a t _ | CallOnToolCall _ a t _ => t :: tools a
  | CallOnModelCall _ a _ _ _ _ | CallOnModelResponse _ a _ _ _ => tools a
  | CallGenerateContent _ _ _ | CallGenerateContentStream _ _ _ => []
  end.

Definition has_description (t : Tool) : bool :=
  match description t with
  | EmptyString => false
  | String _ _ => true
  end.

(** Every tool a call hands to the policies has a description. *)
Definition described (c : call) : bool := forallb has_description (tools_of c).

(** The parts of a content entry the non-streaming handler looks at. *)
Definition entry_parts (c : ContentEntry) : list Part :=
  if validates c then get (parts (entry c)) [] else [].

(** The text of a part that counts as visible, and as thought. *)
Definition visible_text (p : Part) : list string :=
  match text p with
  | Some (String _ _ as t) => if truthy_bool (thought p) then [] else [t]
  | _ => []
  end.

Definition thought_text (p : Part) : list string :=
  match text p with
  | Some (String _ _ as t) => if truthy_bool (thought p) then [t] else []
  | _ => []
  end.

(** The visible prompt of a body: the visible texts of the parts of its
    valid entries, one per line. *)
Definition visible_prompt (body : Body) : string :=
  join newline
    (flat_map visible_text
       (flat_map entry_parts (get (body_contents body) []))).

(** The prompt the non-streaming handler assembles for a request, when it
    gets as far as reading the body. *)
Definition assembled_prompt (request : Request) : option string :=
  match x_goog_api_key request, json request with
  | String _ _, inr body => Some (visible_prompt body)
  | _, _ => None
  end.

(** The agent both handlers build for a request body. *)
Definition request_agent (get_user_id_from_auth : string -> string)
  (api_key : string) (body : Body) : Agent :=
  Integration.create_agent (get_user_id_from_auth ("Bearer " ++ api_key))
    (get (body_tools body) []).

(** What the locals hold after one content entry, apart from the gate. *)
Definition scan_content_locals (l : Gemini.locals) (c : ContentEntry)
  : Gemini.locals :=
  match entry_parts c with
  | [] => l
  | ps => fold_left Gemini.scan_part ps l
  end.

(** The function declarations of a body, in the order the streaming
    handler checks them, and the gate calls it makes for a request. *)
Definition declared (tools : list ToolDef) : list FunctionDecl :=
  flat_map (fun td => get (td_functionDeclarations td) []) tools.

Definition stream_prompt (body : Body) : string :=
  join newline
    (fold_left Gemini.stream_scan_content (get (body_contents body) []) []).

Definition stream_gates_with (get_user_id_from_auth : string -> string)
  (model : string) (request : Request) (body : Body) (prompt : string)
  : list call :=
  let agent :=
    request_agent get_user_id_from_auth (x_goog_api_key request) body in
  CallOnModelCall (uuid4_hex request) agent model "" prompt []
  :: map (fun fd =>
            CallOnToolCall (uuid4_hex request) agent (Gemini.stream_tool fd) [])
       (declared (get (body_tools body) [])).

Definition stream_gates (get_user_id_from_auth : string -> string)
  (model : string) (request : Request) (body : Body) : list call :=
  stream_gates_with get_user_id_from_auth model request body
    (stream_prompt body).

(** A text behind a role, and the role of an entry, "user" when it names
    none. *)
Definition role_line (r t : string) : string := r ++ ": " ++ t.

Definition entry_role (c : ContentEntry) : string :=
  get (role (entry c)) "user".

(** The visible texts of the non-streaming path, each behind the role of
    its entry, in the order of the body. *)
Definition role_lines (body : Body) : list string :=
  flat_map
    (fun c =>
       map (role_line (entry_role c)) (flat_map visible_text (entry_parts c)))
    (get (body_contents body) []).

(** A part that is not flagged as a thought and whose text, if it has one,
    is not empty; a body whose entries are all valid content made of such
    parts. *)
Definition plain_part (p : Part) : bool :=
  negb (truthy_bool (thought p))
  && match text p with
     | Some EmptyString => false
     | _ => true
     end.

Definition plain_body (body : Body) : bool :=
  forallb
    (fun c => validates c && forallb plain_part (get (parts (entry c)) []))
    (get (body_contents body) []).

(** The text in front of the details in the 403 of a gate. *)
Definition request_blocked : string := "Request blocked by security policy: ".
Definition tool_blocked : string := "Tool blocked by security policy: ".

Definition stream_block_prefix (c : call) : string :=
  if is_tool_call c then tool_blocked else request_blocked.

(** The two halves of [generate_content] after the model-call gate: the
    checks on a response, and the call to the provider followed by them. *)
Definition check_response (sm : SecurityManager.t) (request_id : string)
  (agent : Agent) (response : GenerateContentResponse)
  : M GenerateContentResponse :=
  match candidates response with
  | None | Some [] => ret response
  | Some cs =>
      st <- for_each (Gemini.scan_candidate sm request_id agent) cs ([], []) ;;
      response_decision <-
        Gemini.call_on_model_response sm request_id agent
          (join newline (fst st)) (join newline (snd st)) [] ;;
      Gemini._decide "on_model_response" response_decision request_id ;;
      ret response
  end.

Definition forward (sm : SecurityManager.t) (provider : GeminiProvider.t)
  (model : string) (request_id : string) (agent : Agent) (body : Body)
  (api_key : string) : M GenerateContentResponse :=
  emit (CallGenerateContent model body api_key) ;;
  raw_response <-
    match GeminiProvider.generate_content provider model body api_key with
    | inl e => raise e
    | inr raw => ret raw
    end ;;
  response <-
    match raw_response with
    | None =>
        raise (RaiseHTTP (mkHTTPException 502 "Invalid response from provider"))
    | Some r => ret r
    end ;;
  check_response sm request_id agent response.

(** A run that ends because an on_tool_call gate raised: the blocking call
    is the last one made. *)
Definition tool_gate_raised (sm : SecurityManager.t) {A : Type} (m : M A)
  : Prop :=
  exists t c d,
    fst m = (t ++ [c])%list /\ is_tool_call c = true /\
    decision_of sm c = Some d /\ verdict d = BLOCK /\
    snd m = inl (RaiseHTTP (mkHTTPException 403 (request_blocked ++ details d))).

(** The on_tool_call gate the non-streaming handler runs for a function
    call found in a response. *)
Definition tool_call_gate (request_id : string) (agent : Agent)
  (fc : FunctionCall) : call :=
  CallOnToolCall request_id agent
    (mkTool (fc_name fc) "Function call from model"
       (dict_or_empty (fc_args fc)))
    (dict_or_empty (fc_args fc)).

(** The parts of a response the outbound loop looks at. *)
Definition candidate_parts (c : Candidate) : list Part :=
  match content c with
  | Some ct => get (parts ct) []
  | None => []
  end.

Definition response_parts (r : GenerateContentResponse) : list Part :=
  flat_map candidate_parts (get (candidates r) []).

(** The discipline of the gates in a run: a gate whose decision is BLOCK is
    the last call made, and the run ends in a 403 whose detail is [pre]
    followed by the details of that decision. *)
Definition gated (sm : SecurityManager.t) (pre : call -> string) {A : Type}
  (m : M A) : Prop :=
  forall t1 c t2 d,
    fst m = (t1 ++ c :: t2)%list ->
    decision_of sm c = Some d -> verdict d = BLOCK ->
    t2 = [] /\
    snd m = inl (RaiseHTTP (mkHTTPException 403 (pre c ++ details d))).

(** A run through a list of gates, in order: either every gate passes and
    all of them are called, or the run stops at the first gate that blocks,
    with a 403 whose detail is [pre] followed by the details. *)
Definition passes (sm : SecurityManager.t) (c : call) : bool :=
  negb (blocks sm c).

Definition gate_run (sm : SecurityManager.t) (pre : call -> string)
  (gates : list call) (m : M unit) : Prop :=
  (forallb (passes sm) gates = true /\ m = (gates, inr tt))
  \/ (exists g1 c g2 d,
        gates = (g1 ++ c :: g2)%list /\ forallb (passes sm) g1 = true /\
        decision_of sm c = Some d /\ verdict d = BLOCK /\
        m = ((g1 ++ [c])%list,
             inl (RaiseHTTP (mkHTTPException 403 (pre c ++ details d))))).

(** The prompts handed to on_model_call in a run. *)
Definition model_call_prompts (t : list call) : list string :=
  flat_map (fun c => match prompt_of c with Some p => [p] | None => [] end) t.

(** The payloads handed to on_tool_response in a run. *)
Definition tool_response_payloads (t : list call) : list pydict :=
  flat_map (fun c => match c with
                     | CallOnToolResponse _ _ _ r => [r]
                     | _ => []
                     end) t.

(** The payloads of the function responses carried by the parts of the
    valid entries of a body. *)
Definition carried_payloads (body : Body) : list pydict :=
  flat_map (fun p => match function_response p with
                     | Some fr => [dict_or_empty (fr_response fr)]
                     | None => []
                     end)
    (flat_map entry_parts (get (body_contents body) [])).

Definition is_stream_call (c : call) : bool :=
  match c with CallGenerateContentStream _ _ _ => true | _ => false end.

(** How a gate followed by [_decide] ends when it blocks. *)
Definition blocked_403 {A : Type} (pre : string) (r : exn + A) : Prop :=
  exists d, verdict d = BLOCK /\
            r = inl (RaiseHTTP (mkHTTPException 403 (pre ++ details d))).

(** Whether the body of an error names the reason of a decision. *)
Definition names_reason (e : HTTPException) (d : Decision) : bool :=
  contains (lower (Reason_name (reason d))) (lower (detail e)).

(** ** Sample requests *)

Module Examples.

(** A stand-in for the identity hash. *)
Definition uid (auth : string) : string := "3f2a9c0e51b7d488".

Definition text_part (t : string) : Part := mkPart (Some t) None None None.

Definition thought_part (t : string) : Part :=
  mkPart (Some t) (Some true) None None.

Definition call_part (name : string) (args : pydict) : Part :=
  mkPart None None (Some (mkFunctionCall name (Some args))) None.

Definition response_part (name : string) (response : pydict) : Part :=
  mkPart None None None (Some (mkFunctionResponse name (Some response))).

Definition turn (role : string) (ps : list Part) : ContentEntry :=
  mkContentEntry (mkContent (Some role) (Some ps)) true.

Definition request_of (contents : list ContentEntry) (tools : list ToolDef)
  : Request :=
  mkRequest "key-123" (inr (mkBody (Some contents) (Some tools)))
    "9b2e4c1d7a6f4e0c8d3b5a1f2e6c7d90".

Definition model_turn (ps : list Part) : GenerateContentResponse :=
  mkGenerateContentResponse
    (Some [mkCandidate (Some (mkContent (Some "model") (Some ps)))]).

(** A provider that answers every request with the same response. *)
Definition answering (r : GenerateContentResponse) : GeminiProvider.t :=
  GeminiProvider.mk (fun _ _ _ => inr (Some r)) (fun _ _ _ => ["data: {}"]).

Definition model : string := "gemini-2.5-flash".

(** Scenario A of the spec. *)
Definition request_A : Request :=
  request_of [turn "user" [text_part "what's the weather? capsem_block"]] [].

(** P6 of the spec: the upstream answers with a call to a function whose
    name holds the trigger. *)
Definition request_weather : Request :=
  request_of [turn "user" [text_part "what is the weather in paris?"]] [].

Definition response_trigger_call : GenerateContentResponse :=
  model_turn
    [call_part "weather_capsem_block_function" [("location", PyStr "paris")]].

(** A response without candidates. *)
Definition response_empty : GenerateContentResponse :=
  mkGenerateContentResponse (Some []).

(** A response whose only mention of the trigger is in a thought. *)
Definition response_thought_trigger : GenerateContentResponse :=
  model_turn [thought_part "capsem_block"; text_part "all good"].

(** A loader that fails. *)
Definition failing_loader (d : string) : exn + SecurityManager.t :=
  inl OtherException.

(** A turn with two function results, the first of which holds the
    trigger. *)
Definition request_two_results : Request :=
  request_of
    [turn "user" [text_part "what is the weather in paris?"];
     turn "user"
       [response_part "get_weather" [("location", PyStr "capsem_block")];
        response_part "get_time" [("time", PyStr "12:00")]]]
    [].

(** A turn of the model whose only text is a thought holding the trigger. *)
Definition request_thought : Request :=
  request_of [turn "model" [thought_part "capsem_block"]] [].

Definition request_hello : Request :=
  request_of [turn "user" [text_part "hello"]] [].

Definition block_in_prompt : Decision :=
  mkDecision BLOCK POLICY_VIOLATION "Detected 'capsem_block' in prompt".

(** A streaming request that declares one tool without a description. *)
Definition request_with_tool : Request :=
  request_of [turn "user" [text_part "what is the weather in paris?"]]
    [mkToolDef None None
       (Some [mkFunctionDecl (Some "get_weather") None None])].

End Examples.

(** ** Further observations on a run *)

(** Whether a character occurs in a string. *)
Fixpoint occurs (c : ascii) (s : string) : bool :=
  match s with
  | EmptyString => false
  | String d s' => Ascii.eqb c d || occurs c s'
  end.

(** No character of [sep] occurs in [n]. *)
Fixpoint apart (sep n : string) : bool :=
  match sep with
  | EmptyString => true
  | String c sep' => negb (occurs c n) && apart sep' n
  end.

(** The provider calls of a run. *)
Definition provider_calls (t : list call) : list call :=
  filter is_provider_call t.


(** A run through a list of gates that hands on a value: either every gate
    passes, all of them are called in order and the value is returned, or
    the run stops at the first gate that blocks, with the 403 of that
    gate. *)
Definition gate_run_to (sm : SecurityManager.t) (pre : call -> string)
  {A : Type} (gates : list call) (m : M A) (a : A) : Prop :=
  (forallb (passes sm) gates = true /\ m = (gates, inr a))
  \/ (exists g1 c g2 d,
        gates = (g1 ++ c :: g2)%list /\ forallb (passes sm) g1 = true /\
        decision_of sm c = Some d /\ verdict d = BLOCK /\
        m = ((g1 ++ [c])%list,
             inl (RaiseHTTP (mkHTTPException 403 (pre c ++ details d))))).

(** The detail of every 403 of the non-streaming handler starts the same. *)
Definition request_prefix (c : call) : string := request_blocked.

(** The gate the outbound loop runs for a part of a response. *)
Definition part_gates (request_id : string) (agent : Agent) (p : Part)
  : list call :=
  match function_call p with
  | Some fc => [tool_call_gate request_id agent fc]
  | None => []
  end.

(** The visible text and the thoughts of a response, one part per line. *)
Definition response_text (r : GenerateContentResponse) : string :=
  join newline (flat_map visible_text (response_parts r)).

Definition response_thoughts (r : GenerateContentResponse) : string :=
  join newline (flat_map thought_text (response_parts r)).

(** The gates a response goes through: on_tool_call for each of its
    function calls, in the order of the parts, then on_model_response; none
    when it has no candidates. *)
Definition outbound_gates (request_id : string) (agent : Agent)
  (r : GenerateContentResponse) : list call :=
  match candidates r with
  | None | Some [] => []
  | Some _ =>
      (flat_map (part_gates request_id agent) (response_parts r)
         ++ [CallOnModelResponse request_id agent (response_text r)
               (response_thoughts r) []])%list
  end.


(** The on_tool_response gate the inbound loop runs for a function
    response. *)
Definition response_gate (request_id : string) (agent : Agent)
  (fr : FunctionResponse) : call :=
  CallOnToolResponse request_id agent
    (mkTool (fr_name fr) "Function response from model" [])
    (dict_or_empty (fr_response fr)).

(** The call is the on_tool_response gate of a function response carried
    by one of the parts. *)
Definition carried_by (request_id : string) (agent : Agent) (ps : list Part)
  (c : call) : Prop :=
  exists p fr,
    In p ps /\ function_response p = Some fr /\
    c = response_gate request_id agent fr.

(** The parts of the valid entries of a body. *)
Definition body_parts (body : Body) : list Part :=
  flat_map entry_parts (get (body_contents body) []).

(** The on_model_call gate of the non-streaming handler for a request. *)
Definition model_gate (get_user_id_from_auth : string -> string)
  (model : string) (request : Request) (body : Body) : call :=
  CallOnModelCall (uuid4_hex request)
    (request_agent get_user_id_from_auth (x_goog_api_key request) body)
    model "" (visible_prompt body) [].


(** A provider that fails with a given exception. *)
Definition failing (e : exn) : GeminiProvider.t :=
  GeminiProvider.mk (fun _ _ _ => inl e) (fun _ _ _ => []).

(** A response with a visible text, a thought and a function call. *)
Definition response_mixed : GenerateContentResponse :=
  Examples.model_turn
    [Examples.thought_part "the user wants the weather";
     Examples.call_part "get_weather" [("location", PyStr "paris")];
     Examples.text_part "let me check"].


(** The text holds the trigger token of the debug policy, in any letter
    case. *)
Definition holds_trigger (t : string) : bool :=
  contains DebugPolicy.DEBUG_TRIGGER (lower t).


(** A policy that asks for confirmation at every interception point. *)
Definition confirm : Decision := mkDecision CONFIRM POLICY_VIOLATION "confirm".

Definition confirm_all : Policy.t :=
  Policy.mk "ConfirmAll"
    (fun _ _ _ _ => confirm) (fun _ _ => confirm) (fun _ _ => confirm)
    (fun _ _ => confirm) (fun _ _ _ _ => confirm) (fun _ _ _ _ => confirm)
    (fun _ _ _ _ _ _ => confirm) (fun _ _ _ _ _ => confirm).

Definition confirming_manager : SecurityManager.t :=
  SecurityManager.add_policy SecurityManager.new confirm_all.

(** No function response carried by the parts holds the trigger once
    printed. *)
Definition responses_clean (str : pyval -> string) (ps : list Part) : bool :=
  forallb
    (fun p =>
       match function_response p with
       | Some fr =>
           negb (holds_trigger (str (PyDict (dict_or_empty (fr_response fr)))))
       | None => true
       end) ps.

(** No function call among the parts holds the trigger in its name or in
    its printed arguments. *)
Definition calls_clean (str : pyval -> string) (ps : list Part) : bool :=
  forallb
    (fun p =>
       match function_call p with
       | Some fc =>
           negb (holds_trigger (fc_name fc))
           && negb (holds_trigger
                      (DebugPolicy.args_str str (dict_or_empty (fc_args fc))))
       | None => true
       end) ps.

(** No visible text among the parts holds the trigger. *)
Definition texts_clean (ps : list Part) : bool :=
  negb (existsb holds_trigger (flat_map visible_text ps)).


(** The tool definitions [create_agent] converts, and the tool it makes
    of one. *)
Definition is_function_tool (td : ToolDef) : bool :=
  match td_type td with
  | Some ty => String.eqb ty "function"
  | None => false
  end.

Definition function_tool (td : ToolDef) : Tool :=
  let func := get (td_function td) (mkFunctionDecl None None None) in
  mkTool (get (fd_name func) "unknown")
    (str_or (fd_description func) "No description provided")
    (get (fd_parameters func) Integration.default_parameters).

(** The name under which the streaming pre-check sees a declaration. *)
Definition declared_name (fd : FunctionDecl) : string :=
  get (fd_name fd) "unknown".

(** A request in the OpenAI style of tools, next to a Gemini one. *)
Definition mixed_tools : list ToolDef :=
  [mkToolDef (Some "function")
     (Some (mkFunctionDecl (Some "get_weather") (Some "") None)) None;
   mkToolDef None None
     (Some [mkFunctionDecl (Some "get_time") (Some "Tells the time") None]);
   mkToolDef (Some "retrieval") None None;
   mkToolDef (Some "function") None None].

Definition request_trigger_tool : Request :=
  Examples.request_of
    [Examples.turn "user" [Examples.text_part "what is the weather?"]]
    [mkToolDef None None
       (Some [mkFunctionDecl (Some "get_weather") None None;
              mkFunctionDecl (Some "weather_Capsem_Block") None None])].


(** A part with no field set. *)
Definition empty_part : Part := mkPart None None None None.

(** The body without the entries the [Content] constructor rejects. *)
Definition valid_entries (body : Body) : Body :=
  mkBody (Some (filter validates (get (body_contents body) [])))
    (body_tools body).

Definition with_body (request : Request) (body : Body) : Request :=
  mkRequest (x_goog_api_key request) (inr body) (uuid4_hex request).

(** The calls of a run other than those to the provider. *)
Definition gate_calls (t : list call) : list call :=
  filter (fun c => negb (is_provider_call c)) t.

(** A request with an entry the [Content] constructor rejects. *)
Definition request_malformed : Request :=
  Examples.request_of
    [mkContentEntry
       (mkContent (Some "user")
          (Some [Examples.text_part "capsem_block"])) false;
     Examples.turn "user" [Examples.text_part "what is the weather?"]]
    [].

(** A function result that holds the trigger, as the only part of its
    turn. *)
Definition request_result_trigger : Request :=
  Examples.request_of
    [Examples.turn "user" [Examples.text_part "what is the weather?"];
     Examples.turn "user"
       [Examples.response_part "get_weather"
          [("location", PyStr "capsem_block")]]]
    [].

Definition response_text_trigger : GenerateContentResponse :=
  Examples.model_turn [Examples.text_part "Sure: CAPSEM_BLOCK"].

(** * Properties *)

(** ** Strings *)

Lemma prefix_app (n b : string) : prefix n (n ++ b) = true.
Proof.
  induction n as [|c n IH]; simpl.
  - now destruct b.
  - destruct (ascii_dec c c) as [_|Hc]; [exact IH | now elim Hc].
Qed.

Lemma prefix_split (n h : string) :
  prefix n h = true -> exists b, h = n ++ b.
Proof.
  revert h; induction n as [|c n IH]; intros h H.
  - now exists h.
  - destruct h as [|c' h]; simpl in H; [discriminate|].
    destruct (ascii_dec c c') as [->|]; [|discriminate].
    destruct (IH _ H) as [b ->]. now exists b.
Qed.

Lemma contains_unfold (n h : string) :
  contains n h =
  if prefix n h then true
  else match h with
       | EmptyString => false
       | String _ h' => contains n h'
       end.
Proof. destruct h; reflexivity. Qed.

Lemma contains_app (n a b : string) : contains n (a ++ n ++ b) = true.
Proof.
  induction a as [|c a IH].
  - rewrite contains_unfold. simpl. now rewrite prefix_app.
  - change (String c a ++ n ++ b) with (String c (a ++ n ++ b)).
    rewrite contains_unfold, IH.
    now destruct (prefix n (String c (a ++ n ++ b))).
Qed.

Lemma contains_split (n h : string) :
  contains n h = true -> exists a b, h = a ++ n ++ b.
Proof.
  induction h as [|c h IH]; rewrite contains_unfold; intros H.
  - destruct (prefix n "") eqn:E; [|discriminate].
    destruct (prefix_split _ _ E) as [b Hb]. now exists "", b.
  - destruct (prefix n (String c h)) eqn:E.
    + destruct (prefix_split _ _ E) as [b Hb]. now exists "", b.
    + destruct (IH H) as (a & b & ->). now exists (String c a), b.
Qed.

Lemma lower_app (a b : string) : lower (a ++ b) = lower a ++ lower b.
Proof. induction a as [|c a IH]; simpl; [reflexivity | now rewrite IH]. Qed.

(** A text that holds the needle holds its lower-cased form once
    lower-cased. *)
Lemma contains_lower (n h : string) :
  contains n h = true -> contains (lower n) (lower h) = true.
Proof.
  intros H. destruct (contains_split _ _ H) as (a & b & ->).
  rewrite !lower_app. apply contains_app.
Qed.

Lemma lower_DEBUG_TRIGGER :
  lower DebugPolicy.DEBUG_TRIGGER = DebugPolicy.DEBUG_TRIGGER.
Proof. reflexivity. Qed.

Lemma Verdict_eqb_eq (a b : Verdict) : Verdict_eqb a b = true <-> a = b.
Proof. destruct a, b; simpl; split; congruence. Qed.

(** ** The handler monad *)

Lemma bind_val {A B : Type} t (a : A) (f : A -> M B) :
  bind (t, inr a) f = ((t ++ fst (f a))%list, snd (f a)).
Proof. unfold bind. now destruct (f a). Qed.

Lemma bind_err {A B : Type} t e (f : A -> M B) :
  bind (t, inl e) f = (t, inl e).
Proof. reflexivity. Qed.

Lemma bind_ret {A B : Type} (a : A) (f : A -> M B) : bind (ret a) f = f a.
Proof. unfold ret. rewrite bind_val. now destruct (f a). Qed.

Lemma bind_raise {A B : Type} e (f : A -> M B) : bind (raise e) f = raise e.
Proof. reflexivity. Qed.

Lemma bind_emit {B : Type} c (f : unit -> M B) :
  bind (emit c) f = (c :: fst (f tt), snd (f tt)).
Proof. unfold emit. now rewrite bind_val. Qed.

Lemma forallb_snoc {A : Type} (P : A -> bool) (l : list A) (x : A) :
  forallb P (l ++ [x]) = forallb P l && P x.
Proof. rewrite forallb_app. simpl. now rewrite andb_true_r. Qed.

(** ** The inbound loop of [generate_content] *)

Lemma last_cons {A : Type} (x : A) (l : list A) (d : A) :
  last (x :: l) d = last l x.
Proof.
  revert x d; induction l as [|y l IH]; intros x d; [reflexivity|].
  change (last (x :: y :: l) d) with (last (y :: l) d).
  now rewrite !IH.
Qed.

Lemma scan_part_fold (ps : list Part) (l : Gemini.locals) :
  fold_left Gemini.scan_part ps l =
  Gemini.mkLocals
    (Gemini.prompt_parts l ++ flat_map visible_text ps)
    (Gemini.thoughts_parts l ++ flat_map thought_text ps)
    (last (map Some ps) (Gemini.part l)).
Proof.
  revert l; induction ps as [|p ps IH]; intros l.
  - simpl. rewrite !app_nil_r. now destruct l.
  - cbn [fold_left]. rewrite IH. clear IH.
    unfold Gemini.scan_part, visible_text, thought_text.
    cbn [flat_map map].
    rewrite last_cons.
    destruct (text p) as [[|c t]|]; [| destruct (truthy_bool (thought p)) |];
      cbn [Gemini.prompt_parts Gemini.thoughts_parts Gemini.part app];
      rewrite <- ?app_assoc; reflexivity.
Qed.

Lemma last_map_Some {A : Type} (ps : list A) (o : option A) :
  ps <> [] -> exists p, last (map Some ps) o = Some p /\ In p ps.
Proof.
  induction ps as [|p ps IH]; [congruence|]. intros _.
  destruct ps as [|q ps].
  - exists p. simpl. auto.
  - destruct IH as (x & Hx & Hin); [discriminate|].
    exists x. split; [exact Hx | now right].
Qed.

Lemma scan_content_locals_prompt (cs : list ContentEntry) (l : Gemini.locals) :
  Gemini.prompt_parts (fold_left scan_content_locals cs l) =
  (Gemini.prompt_parts l ++ flat_map visible_text (flat_map entry_parts cs))%list.
Proof.
  revert l; induction cs as [|c cs IH]; intros l; simpl.
  - now rewrite app_nil_r.
  - rewrite IH, flat_map_app, app_assoc. f_equal.
    unfold scan_content_locals. destruct (entry_parts c) as [|p ps] eqn:E.
    + simpl. now rewrite app_nil_r.
    + now rewrite scan_part_fold.
Qed.

Section InboundLoop.

Variable sm : SecurityManager.t.
Variable request_id : string.
Variable agent : Agent.

Lemma scan_content_run (l : Gemini.locals) (c : ContentEntry) :
  let m := Gemini.scan_content sm request_id agent l c in
  forallb is_tool_response_call (fst m) = true /\
  (snd m = inr (scan_content_locals l c) \/ blocked_403 request_blocked (snd m)).
Proof.
  unfold Gemini.scan_content, scan_content_locals, entry_parts.
  destruct (validates c); simpl; [|auto].
  destruct (parts (entry c)) as [[|p ps]|]; simpl; auto.
  change (fold_left Gemini.scan_part ps (Gemini.scan_part l p))
    with (fold_left Gemini.scan_part (p :: ps) l).
  rewrite scan_part_fold. cbn [Gemini.part].
  destruct (last_map_Some (p :: ps) (Gemini.part l)) as (q & -> & _);
    [discriminate|].
  destruct (function_response q) as [fr|]; [|simpl; auto].
  unfold Gemini.call_on_tool_response, Gemini._decide. simpl.
  destruct (Verdict_eqb _ BLOCK) eqn:E; simpl; split; auto.
  right. eexists. split; [apply Verdict_eqb_eq; exact E | reflexivity].
Qed.

Lemma scan_contents_run (cs : list ContentEntry) (l : Gemini.locals) :
  let m := for_each (Gemini.scan_content sm request_id agent) cs l in
  forallb is_tool_response_call (fst m) = true /\
  (snd m = inr (fold_left scan_content_locals cs l)
   \/ blocked_403 request_blocked (snd m)).
Proof.
  revert l; induction cs as [|c cs IH]; intros l; simpl; [auto|].
  destruct (scan_content_run l c) as (Ht & Hr).
  destruct (Gemini.scan_content sm request_id agent l c) as [t [e|l']] eqn:E;
    simpl in *.
  - split; [exact Ht|]. right. destruct Hr as [Hr|Hr]; [discriminate|exact Hr].
  - destruct Hr as [Hr|(d & _ & Hr)]; [|discriminate].
    injection Hr as ->.
    destruct (IH (scan_content_locals l c)) as (Ht' & Hr').
    destruct (for_each _ cs _) as [t' r']. simpl in *.
    rewrite forallb_app, Ht, Ht'. auto.
Qed.

End InboundLoop.

(** ** The default manager *)

Lemma default_on_model_call str i a m s p md :
  SecurityManager.on_model_call (Integration.default_manager str) i a m s p md
  = DebugPolicy.on_model_call i a m s p md.
Proof. reflexivity. Qed.

Lemma default_on_tool_call str i a t args :
  SecurityManager.on_tool_call (Integration.default_manager str) i a t args
  = DebugPolicy.on_tool_call str i a t args.
Proof. reflexivity. Qed.

Lemma default_on_tool_response str i a t r :
  SecurityManager.on_tool_response (Integration.default_manager str) i a t r
  = DebugPolicy.on_tool_response str i a t r.
Proof. reflexivity. Qed.

Lemma default_on_model_response str i a r th md :
  SecurityManager.on_model_response (Integration.default_manager str) i a r th md
  = DebugPolicy.on_model_response i a r th md.
Proof. reflexivity. Qed.

(** ** The gates *)

Section Gates.

Variable sm : SecurityManager.t.

Lemma call_on_tool_response_eq i a t r :
  Gemini.call_on_tool_response sm i a t r =
  ([CallOnToolResponse i a t r],
   inr (SecurityManager.on_tool_response sm i a t r)).
Proof. reflexivity. Qed.

Lemma call_on_model_call_eq i a m s p md :
  Gemini.call_on_model_call sm i a m s p md =
  ([CallOnModelCall i a m s p md],
   inr (SecurityManager.on_model_call sm i a m s p md)).
Proof. reflexivity. Qed.

Lemma call_on_tool_call_eq i a t args :
  Gemini.call_on_tool_call sm i a t args =
  ([CallOnToolCall i a t args],
   inr (SecurityManager.on_tool_call sm i a t args)).
Proof. reflexivity. Qed.

Lemma call_on_model_response_eq i a r th md :
  Gemini.call_on_model_response sm i a r th md =
  ([CallOnModelResponse i a r th md],
   inr (SecurityManager.on_model_response sm i a r th md)).
Proof. reflexivity. Qed.

Lemma decide_block step d rid :
  Verdict_eqb (verdict d) BLOCK = true ->
  Gemini._decide step d rid =
  ([], inl (RaiseHTTP (mkHTTPException 403 (request_blocked ++ details d)))).
Proof. unfold Gemini._decide. now intros ->. Qed.

Lemma decide_pass step d rid :
  Verdict_eqb (verdict d) BLOCK = false -> Gemini._decide step d rid = ret tt.
Proof. unfold Gemini._decide. now intros ->. Qed.

End Gates.

Lemma generate_content_trace sm uid provider model request :
  trace (Gemini.generate_content sm uid provider model request) =
  fst (Gemini.generate_content_try sm uid provider model request).
Proof.
  unfold Gemini.generate_content.
  now destruct (Gemini.generate_content_try _ _ _ _ _) as [t [e|r]].
Qed.

Lemma generate_content_outcome sm uid provider model request :
  outcome (Gemini.generate_content sm uid provider model request) =
  match snd (Gemini.generate_content_try sm uid provider model request) with
  | inl e => inl (Gemini.generate_content_except e)
  | inr r => inr r
  end.
Proof.
  unfold Gemini.generate_content.
  now destruct (Gemini.generate_content_try _ _ _ _ _) as [t [e|r]].
Qed.

Lemma tool_response_not_provider (t : list call) :
  forallb is_tool_response_call t = true ->
  forallb (fun c => negb (is_provider_call c)) t = true.
Proof.
  induction t as [|c t IH]; [reflexivity|]. simpl.
  intros [Hc Ht]%andb_true_iff. rewrite (IH Ht). now destruct c.
Qed.

(** ** The pre-flight part of [generate_content] *)

(** Once the key and the body are read, a run of the handler is one of
    three: a tool-response gate raises; the model-call gate raises; or the
    request is forwarded. *)
Lemma preflight_cases
  (sm : SecurityManager.t) (uid : string -> string)
  (provider : GeminiProvider.t) (model : string) (request : Request)
  (body : Body) :
  x_goog_api_key request <> "" ->
  json request = inr body ->
  let rid := uuid4_hex request in
  let key := x_goog_api_key request in
  let agent := request_agent uid key body in
  let gate := CallOnModelCall rid agent model "" (visible_prompt body) [] in
  let m := Gemini.generate_content_try sm uid provider model request in
  exists t,
    forallb is_tool_response_call t = true /\
    ((fst m = t /\ blocked_403 request_blocked (snd m))
     \/ (blocks sm gate = true /\
         exists d, decision_of sm gate = Some d /\
           m = ((t ++ [gate])%list,
                inl (RaiseHTTP
                       (mkHTTPException 403 (request_blocked ++ details d)))))
     \/ (blocks sm gate = false /\
         let k := forward sm provider model rid agent body key in
         m = ((t ++ gate :: fst k)%list, snd k))).
Proof.
  intros Hkey Hjson rid key agent gate m. subst m key.
  unfold Gemini.generate_content_try, Gemini.extract_gemini_api_key.
  fold rid. destruct (x_goog_api_key request) as [|k0 k] eqn:Ek; [congruence|].
  rewrite bind_ret, Hjson, bind_ret.
  fold (request_agent uid (String k0 k) body). fold agent.
  destruct (scan_contents_run sm rid agent
              (get (body_contents body) []) Gemini.no_locals) as (Ht & Hr).
  destruct (for_each _ _ Gemini.no_locals) as [t [e|l]]; simpl in Ht, Hr;
    exists t; (split; [exact Ht|]).
  - left. rewrite bind_err. destruct Hr as [Hr|(d & Hd & Hr)]; [discriminate|].
    injection Hr as ->. split; [reflexivity|]. now exists d.
  - right. destruct Hr as [Hr|(d & _ & Hr)]; [|discriminate]. injection Hr as ->.
    rewrite bind_val. cbv beta.
    rewrite scan_content_locals_prompt.
    cbn [Gemini.prompt_parts Gemini.no_locals app]. fold (visible_prompt body).
    rewrite call_on_model_call_eq, bind_val. cbv beta. fold gate.
    destruct (blocks sm gate) eqn:Hb; unfold blocks in Hb; cbn in Hb.
    + left. split; [reflexivity|]. eexists. split; [reflexivity|].
      rewrite (decide_block _ _ _ Hb), bind_err. reflexivity.
    + right. split; [reflexivity|].
      rewrite (decide_pass _ _ _ Hb), bind_ret. cbn [app fst snd].
      reflexivity.
Qed.

(** A request whose model-call decision is BLOCK ends in a 403 and never
    reaches the provider, whatever the policies are: either the model-call
    gate raises, or a tool-response gate has raised before it. *)
Lemma model_call_block_stops
  (sm : SecurityManager.t) (uid : string -> string)
  (provider : GeminiProvider.t) (model : string) (request : Request)
  (body : Body) :
  x_goog_api_key request <> "" ->
  json request = inr body ->
  let agent := request_agent uid (x_goog_api_key request) body in
  let gate :=
    CallOnModelCall (uuid4_hex request) agent model "" (visible_prompt body) [] in
  blocks sm gate = true ->
  let r := Gemini.generate_content sm uid provider model request in
  forallb (fun c => negb (is_provider_call c)) (trace r) = true /\
  exists d, verdict d = BLOCK /\
    outcome r = inl (mkHTTPException 403 (request_blocked ++ details d)) /\
    (forallb is_tool_response_call (trace r) = true \/
     exists t, trace r = (t ++ [gate])%list /\ decision_of sm gate = Some d).
Proof.
  intros Hkey Hjson agent gate Hblock r. subst r agent gate.
  rewrite generate_content_trace, generate_content_outcome.
  pose proof (preflight_cases sm uid provider model request body Hkey Hjson)
    as H.
  cbv zeta in H.
  destruct H as (t & Ht & [(Hf & d & Hd & Hs) | [(_ & d & Hd & Hm) | (Hb & _)]]).
  - rewrite Hf, Hs. split; [now apply tool_response_not_provider|].
    exists d. auto.
  - rewrite Hm. cbn [fst snd Gemini.generate_content_except]. split.
    + rewrite forallb_snoc, (tool_response_not_provider _ Ht). reflexivity.
    + exists d. split; [|split; [reflexivity|]].
      * unfold blocks in Hblock. rewrite Hd in Hblock.
        now apply Verdict_eqb_eq.
      * right. now exists t.
  - congruence.
Qed.

(** ** C1 *)

(** C1: with the default DebugPolicy installed, a non-streaming request
    whose assembled visible prompt holds the trigger token, in any letter
    case, gets verdict BLOCK at the on_model_call gate, ends in an HTTP 403,
    and the provider's generate_content is never called for it. *)
Theorem C1_trigger_prompt_blocked
  (str : pyval -> string) (uid : string -> string)
  (provider : GeminiProvider.t) (model : string) (request : Request)
  (p : string) :
  assembled_prompt request = Some p ->
  contains DebugPolicy.DEBUG_TRIGGER (lower p) = true ->
  let sm := Integration.default_manager str in
  let r := Gemini.generate_content sm uid provider model request in
  (forall i a m s md,
     verdict (SecurityManager.on_model_call sm i a m s p md) = BLOCK) /\
  (exists d, outcome r = inl (mkHTTPException 403 d)) /\
  forallb (fun c => negb (is_provider_call c)) (trace r) = true.
Proof.
  intros Hp Htrig sm r.
  assert (Hgate : forall i a m s md,
             verdict (SecurityManager.on_model_call sm i a m s p md) = BLOCK).
  { intros. subst sm. rewrite default_on_model_call.
    unfold DebugPolicy.on_model_call.
    change "capsem_block" with DebugPolicy.DEBUG_TRIGGER at 1.
    now rewrite Htrig. }
  split; [exact Hgate|].
  unfold assembled_prompt in Hp.
  destruct (x_goog_api_key request) as [|k0 k] eqn:Ek; [discriminate|].
  destruct (json request) as [e|body] eqn:Ej; [discriminate|].
  injection Hp as <-.
  assert (Hkey : x_goog_api_key request <> "") by (rewrite Ek; discriminate).
  destruct (model_call_block_stops sm uid provider model request body Hkey Ej)
    as (Hprov & d & _ & Hout & _).
  - unfold blocks. cbn [decision_of]. now rewrite Hgate.
  - split; [|exact Hprov]. eexists. exact Hout.
Qed.

Lemma C1_witness :
  assembled_prompt Examples.request_A
    = Some "what's the weather? capsem_block" /\
  let r :=
    Gemini.generate_content (Integration.default_manager py_str) Examples.uid
      (Examples.answering (Examples.model_turn [])) Examples.model
      Examples.request_A in
  (exists d, outcome r = inl (mkHTTPException 403 d)) /\
  forallb (fun c => negb (is_provider_call c)) (trace r) = true.
Proof.
  split; [reflexivity|].
  apply (C1_trigger_prompt_blocked py_str Examples.uid
           (Examples.answering (Examples.model_turn [])) Examples.model
           Examples.request_A "what's the weather? capsem_block");
    reflexivity.
Defined.

(** ** The outbound loop of [generate_content] *)

Section OutboundLoop.

Variable sm : SecurityManager.t.
Variable request_id : string.
Variable agent : Agent.

Lemma tool_gate_raised_bind {A B : Type} (m : M A) (f : A -> M B) :
  tool_gate_raised sm m -> tool_gate_raised sm (bind m f).
Proof.
  intros (t & c & d & Ht & Hc & Hd & Hv & Hs).
  destruct m as [t0 r0]. simpl in Ht, Hs. subst. rewrite bind_err.
  now exists t, c, d.
Qed.

Lemma tool_gate_raised_after {A B : Type} t (a : A) (f : A -> M B) :
  tool_gate_raised sm (f a) -> tool_gate_raised sm (bind (t, inr a) f).
Proof.
  intros (t' & c & d & Ht & Hc & Hd & Hv & Hs). rewrite bind_val.
  exists (t ++ t')%list, c, d. cbn [fst snd]. rewrite Ht, app_assoc. auto.
Qed.

Lemma scan_response_part_run (st : list string * list string) (p : Part) :
  let m := Gemini.scan_response_part sm request_id agent st p in
  forallb is_tool_call (fst m) = true /\
  (tool_gate_raised sm m \/ exists st', snd m = inr st').
Proof.
  unfold Gemini.scan_response_part.
  destruct (function_call p) as [fc|]; [|simpl; eauto].
  rewrite call_on_tool_call_eq, bind_val. cbv beta.
  fold (tool_call_gate request_id agent fc).
  destruct (Verdict_eqb (verdict (SecurityManager.on_tool_call sm request_id
              agent (mkTool (fc_name fc) "Function call from model"
                       (dict_or_empty (fc_args fc)))
              (dict_or_empty (fc_args fc)))) BLOCK) eqn:Hb.
  - rewrite (decide_block _ _ _ Hb), bind_err. cbn [fst snd app].
    split; [reflexivity|]. left.
    exists [], (tool_call_gate request_id agent fc). eexists.
    cbn [fst snd app]. repeat split. now apply Verdict_eqb_eq.
  - rewrite (decide_pass _ _ _ Hb), bind_ret. cbn [fst snd app ret].
    split; [reflexivity|]. eauto.
Qed.

Lemma scan_response_part_blocks (st : list string * list string) (p : Part)
  (fc : FunctionCall) :
  function_call p = Some fc ->
  blocks sm (tool_call_gate request_id agent fc) = true ->
  tool_gate_raised sm (Gemini.scan_response_part sm request_id agent st p).
Proof.
  intros Hfc Hb. unfold Gemini.scan_response_part. rewrite Hfc.
  rewrite call_on_tool_call_eq, bind_val. cbv beta.
  unfold blocks in Hb. cbn [tool_call_gate decision_of] in Hb.
  rewrite (decide_block _ _ _ Hb), bind_err. cbn [fst snd app].
  exists [], (tool_call_gate request_id agent fc). eexists.
  cbn [fst snd app]. repeat split. now apply Verdict_eqb_eq.
Qed.

Lemma scan_response_parts_run (ps : list Part) (st : list string * list string) :
  let m := for_each (Gemini.scan_response_part sm request_id agent) ps st in
  forallb is_tool_call (fst m) = true /\
  (tool_gate_raised sm m \/ exists st', snd m = inr st').
Proof.
  revert st; induction ps as [|p ps IH]; intros st; [simpl; eauto|].
  cbn [for_each].
  destruct (scan_response_part_run st p) as (Ht & Hr).
  destruct (Gemini.scan_response_part sm request_id agent st p)
    as [t [e|st1]] eqn:E; cbn [fst snd] in Ht, Hr.
  - rewrite bind_err. cbn [fst snd]. split; [exact Ht|]. left.
    destruct Hr as [Hr|(st' & Hr)]; [|discriminate].
    destruct Hr as (t' & c & d & H1 & H2 & H3 & H4 & H5).
    exists t', c, d. auto.
  - rewrite bind_val. cbn [fst snd].
    destruct (IH st1) as (Ht' & Hr').
    rewrite forallb_app, Ht, Ht'. split; [reflexivity|].
    destruct Hr' as [Hr'|Hr']; [|now right].
    left. rewrite <- bind_val. now apply tool_gate_raised_after.
Qed.

Lemma scan_response_parts_blocks (ps : list Part)
  (st : list string * list string) (p : Part) (fc : FunctionCall) :
  In p ps ->
  function_call p = Some fc ->
  blocks sm (tool_call_gate request_id agent fc) = true ->
  tool_gate_raised sm
    (for_each (Gemini.scan_response_part sm request_id agent) ps st).
Proof.
  intros Hin Hfc Hb. revert st.
  induction ps as [|q ps IH]; intros st; [contradiction|].
  cbn [for_each].
  destruct (scan_response_part_run st q) as (Ht & Hr).
  destruct Hr as [Hr|(st' & Hr)]; [now apply tool_gate_raised_bind|].
  destruct Hin as [->|Hin].
  - now apply tool_gate_raised_bind, (scan_response_part_blocks st p fc).
  - destruct (Gemini.scan_response_part sm request_id agent st q)
      as [t r] eqn:E. cbn [snd] in Hr. subst r.
    apply tool_gate_raised_after. now apply IH.
Qed.

Lemma scan_candidate_eq (st : list string * list string) (c : Candidate) :
  Gemini.scan_candidate sm request_id agent st c =
  for_each (Gemini.scan_response_part sm request_id agent)
    (candidate_parts c) st.
Proof.
  unfold Gemini.scan_candidate, candidate_parts.
  destruct (content c) as [ct|]; [|reflexivity].
  now destruct (parts ct) as [[|p ps]|].
Qed.

Lemma scan_candidates_run (cs : list Candidate)
  (st : list string * list string) :
  let m := for_each (Gemini.scan_candidate sm request_id agent) cs st in
  forallb is_tool_call (fst m) = true /\
  (tool_gate_raised sm m \/ exists st', snd m = inr st').
Proof.
  revert st; induction cs as [|c cs IH]; intros st; [simpl; eauto|].
  cbn [for_each]. rewrite scan_candidate_eq.
  destruct (scan_response_parts_run (candidate_parts c) st) as (Ht & Hr).
  destruct (for_each _ (candidate_parts c) st) as [t [e|st1]] eqn:E;
    cbn [fst snd] in Ht, Hr.
  - rewrite bind_err. cbn [fst snd]. split; [exact Ht|]. left.
    destruct Hr as [Hr|(st' & Hr)]; [|discriminate].
    destruct Hr as (t' & c' & d & H1 & H2 & H3 & H4 & H5).
    exists t', c', d. auto.
  - rewrite bind_val. cbn [fst snd].
    destruct (IH st1) as (Ht' & Hr').
    rewrite forallb_app, Ht, Ht'. split; [reflexivity|].
    destruct Hr' as [Hr'|Hr']; [|now right].
    left. rewrite <- bind_val. now apply tool_gate_raised_after.
Qed.

Lemma scan_candidates_blocks (cs : list Candidate)
  (st : list string * list string) (p : Part) (fc : FunctionCall) :
  In p (flat_map candidate_parts cs) ->
  function_call p = Some fc ->
  blocks sm (tool_call_gate request_id agent fc) = true ->
  tool_gate_raised sm
    (for_each (Gemini.scan_candidate sm request_id agent) cs st).
Proof.
  intros Hin Hfc Hb. revert st.
  induction cs as [|c cs IH]; intros st; [contradiction|].
  cbn [for_each]. rewrite scan_candidate_eq.
  cbn [flat_map] in Hin. apply in_app_or in Hin.
  destruct (scan_response_parts_run (candidate_parts c) st) as (Ht & Hr).
  destruct Hr as [Hr|(st' & Hr)]; [now apply tool_gate_raised_bind|].
  destruct Hin as [Hin|Hin].
  - now apply tool_gate_raised_bind, (scan_response_parts_blocks _ st p fc).
  - destruct (for_each _ (candidate_parts c) st) as [t r] eqn:E.
    cbn [snd] in Hr. subst r.
    apply tool_gate_raised_after. now apply IH.
Qed.

End OutboundLoop.

(** ** Forwarding and the checks on the response *)

Section Forwarding.

Variable sm : SecurityManager.t.
Variable provider : GeminiProvider.t.
Variable model request_id : string.
Variable agent : Agent.

Lemma check_response_kinds (r : GenerateContentResponse) :
  forallb (fun c => is_tool_call c || is_model_response_call c)
    (fst (check_response sm request_id agent r)) = true.
Proof.
  assert (Hweak : forall t, forallb is_tool_call t = true ->
            forallb (fun c => is_tool_call c || is_model_response_call c) t
            = true).
  { induction t as [|c t IH]; [reflexivity|]. simpl.
    intros [-> Ht]%andb_true_iff. now rewrite (IH Ht). }
  unfold check_response.
  destruct (candidates r) as [[|c cs]|]; [reflexivity| |reflexivity].
  destruct (scan_candidates_run sm request_id agent (c :: cs) ([], []))
    as (Ht & _).
  destruct (for_each _ (c :: cs) _) as [t [e|st]]; cbn [fst] in Ht.
  - rewrite bind_err. now apply Hweak.
  - rewrite bind_val. cbv beta.
    rewrite call_on_model_response_eq, bind_val. cbn [fst].
    rewrite forallb_app, (Hweak _ Ht). cbn [forallb app andb].
    apply andb_true_iff. split; [reflexivity|].
    destruct (Gemini._decide _ _ _) as [t' [e'|u]] eqn:E;
      unfold Gemini._decide in E;
      destruct (Verdict_eqb _ BLOCK); inversion E; subst; reflexivity.
Qed.

Lemma check_response_blocks (r : GenerateContentResponse) (p : Part)
  (fc : FunctionCall) :
  In p (response_parts r) ->
  function_call p = Some fc ->
  blocks sm (tool_call_gate request_id agent fc) = true ->
  let m := check_response sm request_id agent r in
  tool_gate_raised sm m /\ forallb is_tool_call (fst m) = true.
Proof.
  unfold response_parts, check_response. intros Hin Hfc Hb.
  destruct (candidates r) as [[|c cs]|]; [contradiction| |contradiction].
  cbn [get] in Hin.
  pose proof (scan_candidates_blocks sm request_id agent (c :: cs) ([], [])
                p fc Hin Hfc Hb) as Hraised.
  destruct (scan_candidates_run sm request_id agent (c :: cs) ([], []))
    as (Ht & _).
  split; [now apply tool_gate_raised_bind|].
  destruct (for_each _ (c :: cs) _) as [t [e|st]].
  - now rewrite bind_err.
  - destruct Hraised as (? & ? & ? & _ & _ & _ & _ & Hs). discriminate.
Qed.

Lemma check_response_no_candidates (r : GenerateContentResponse) :
  candidates r = None \/ candidates r = Some [] ->
  check_response sm request_id agent r = ret r.
Proof. unfold check_response. now intros [->| ->]. Qed.

Lemma forward_trace (body : Body) (api_key : string) :
  exists t,
    fst (forward sm provider model request_id agent body api_key)
    = CallGenerateContent model body api_key :: t /\
    forallb (fun c => is_tool_call c || is_model_response_call c) t = true.
Proof.
  unfold forward. rewrite bind_emit. cbn [fst]. eexists. split; [reflexivity|].
  destruct (GeminiProvider.generate_content provider model body api_key)
    as [e|[r|]]; try reflexivity.
  rewrite !bind_ret. apply check_response_kinds.
Qed.

Lemma forward_returns (body : Body) (api_key : string)
  (r : GenerateContentResponse) :
  GeminiProvider.generate_content provider model body api_key = inr (Some r) ->
  let k := check_response sm request_id agent r in
  forward sm provider model request_id agent body api_key
  = (CallGenerateContent model body api_key :: fst k, snd k).
Proof.
  intros H. unfold forward. now rewrite bind_emit, H, !bind_ret.
Qed.

End Forwarding.

(** A request for which the provider was called has passed the pre-flight
    gates, and the call carries its model, body and key. *)
Lemma provider_called
  (sm : SecurityManager.t) (uid : string -> string)
  (provider : GeminiProvider.t) (model : string) (request : Request)
  (m : string) (b : Body) (k : string) :
  In (CallGenerateContent m b k)
    (trace (Gemini.generate_content sm uid provider model request)) ->
  m = model /\ json request = inr b /\ k = x_goog_api_key request /\
  let agent := request_agent uid k b in
  let gate :=
    CallOnModelCall (uuid4_hex request) agent model "" (visible_prompt b) [] in
  let fw := forward sm provider model (uuid4_hex request) agent b k in
  exists t,
    forallb is_tool_response_call t = true /\
    blocks sm gate = false /\
    Gemini.generate_content_try sm uid provider model request
    = ((t ++ gate :: fst fw)%list, snd fw).
Proof.
  rewrite generate_content_trace. intros Hin.
  assert (Hnone : forall t, forallb is_tool_response_call t = true ->
            ~ In (CallGenerateContent m b k) t).
  { intros t Ht Hc. rewrite forallb_forall in Ht. now apply Ht in Hc. }
  destruct (x_goog_api_key request) as [|k0 k1] eqn:Ek.
  { unfold Gemini.generate_content_try, Gemini.extract_gemini_api_key in Hin.
    rewrite Ek in Hin. contradiction. }
  destruct (json request) as [e|body] eqn:Ej.
  { unfold Gemini.generate_content_try, Gemini.extract_gemini_api_key in Hin.
    rewrite Ek, bind_ret, Ej in Hin. contradiction. }
  assert (Hkey : x_goog_api_key request <> "") by (rewrite Ek; discriminate).
  pose proof (preflight_cases sm uid provider model request body Hkey Ej) as H.
  cbv zeta in H. rewrite Ek in H.
  destruct H as (t & Ht & [(Hf & _) | [(_ & d & _ & Hm) | (Hb & Hm)]]).
  - rewrite Hf in Hin. now apply Hnone in Hin.
  - rewrite Hm in Hin. cbn [fst] in Hin.
    apply in_app_or in Hin as [Hin|[Hin|[]]]; [now apply Hnone in Hin|].
    discriminate.
  - rewrite Hm in Hin. cbn [fst] in Hin.
    destruct (forward_trace sm provider model (uuid4_hex request)
                (request_agent uid (String k0 k1) body) body (String k0 k1))
      as (t' & Hfw & Hkinds).
    rewrite Hfw in Hin.
    apply in_app_or in Hin as [Hin|[Hin|[Hin|Hin]]];
      [now apply Hnone in Hin | discriminate | |].
    + injection Hin as <- <- <-. repeat split. cbv zeta. now exists t.
    + rewrite forallb_forall in Hkinds. now apply Hkinds in Hin.
Qed.

(** ** C5 *)

Lemma debug_tool_call_details str i a t args :
  verdict (DebugPolicy.on_tool_call str i a t args) = BLOCK ->
  contains DebugPolicy.DEBUG_TRIGGER
    (details (DebugPolicy.on_tool_call str i a t args)) = true.
Proof.
  unfold DebugPolicy.on_tool_call.
  destruct (contains _ (lower (tool_name t))); [reflexivity|].
  destruct (contains _ (lower (DebugPolicy.args_str str args)));
    [reflexivity|discriminate].
Qed.

Lemma debug_tool_call_name str i a t args :
  contains DebugPolicy.DEBUG_TRIGGER (tool_name t) = true ->
  verdict (DebugPolicy.on_tool_call str i a t args) = BLOCK.
Proof.
  intros H%contains_lower. rewrite lower_DEBUG_TRIGGER in H.
  unfold DebugPolicy.on_tool_call. now rewrite H.
Qed.

(** C5: with the default DebugPolicy installed, a non-streaming request
    whose provider response holds a function-call part with the trigger
    token in its name is blocked at the on_tool_call gate: that gate is the
    last call made, on_model_response is never evaluated, and the client
    gets a 403 whose details hold the trigger token. *)
Theorem C5_trigger_tool_call_blocked
  (str : pyval -> string) (uid : string -> string)
  (provider : GeminiProvider.t) (model : string) (request : Request)
  (m : string) (b : Body) (k : string)
  (response : GenerateContentResponse) (p : Part) (fc : FunctionCall) :
  let sm := Integration.default_manager str in
  let r := Gemini.generate_content sm uid provider model request in
  In (CallGenerateContent m b k) (trace r) ->
  GeminiProvider.generate_content provider m b k = inr (Some response) ->
  In p (response_parts response) ->
  function_call p = Some fc ->
  contains DebugPolicy.DEBUG_TRIGGER (fc_name fc) = true ->
  exists t c d,
    trace r = (t ++ [c])%list /\ is_tool_call c = true /\
    decision_of sm c = Some d /\ verdict d = BLOCK /\
    outcome r = inl (mkHTTPException 403 (request_blocked ++ details d)) /\
    contains DebugPolicy.DEBUG_TRIGGER (details d) = true /\
    forallb (fun c => negb (is_model_response_call c)) (trace r) = true.
Proof.
  intros sm r Hcall Hresp Hin Hfc Hname. subst r.
  destruct (provider_called sm uid provider model request m b k Hcall)
    as (-> & Hj & Hk & H).
  cbv zeta in H. destruct H as (t & Ht & _ & Htry).
  rewrite generate_content_trace, generate_content_outcome, Htry.
  rewrite (forward_returns sm provider model (uuid4_hex request) _ b k
             response Hresp).
  cbv zeta. cbn [fst snd].
  set (agent := request_agent uid k b) in *.
  assert (Hb : blocks sm (tool_call_gate (uuid4_hex request) agent fc) = true).
  { unfold blocks. cbn [tool_call_gate decision_of]. subst sm.
    rewrite default_on_tool_call, debug_tool_call_name; [reflexivity|].
    exact Hname. }
  destruct (check_response_blocks sm (uuid4_hex request) agent response p fc
              Hin Hfc Hb) as ((t' & c & d & Hf & Hc & Hd & Hv & Hs) & Hkinds).
  rewrite Hs.
  exists (t ++ CallOnModelCall (uuid4_hex request) agent model ""
                 (visible_prompt b) []
            :: CallGenerateContent model b k :: t')%list, c, d.
  rewrite Hf in *. repeat split; auto.
  - now rewrite <- app_assoc.
  - destruct c; try discriminate. cbn [decision_of] in Hd.
    injection Hd as <-. subst sm. rewrite default_on_tool_call in *.
    now apply debug_tool_call_details.
  - rewrite forallb_app. cbn [forallb is_model_response_call negb andb].
    apply andb_true_iff. split.
    + clear -Ht. induction t as [|x t IH]; [reflexivity|]. simpl in *.
      apply andb_true_iff in Ht as [Hx Ht]. rewrite (IH Ht). now destruct x.
    + clear -Hkinds. induction (t' ++ [c])%list as [|x l IH]; [reflexivity|].
      simpl in *. apply andb_true_iff in Hkinds as [Hx Hl].
      rewrite (IH Hl). now destruct x.
Qed.

Lemma C5_witness :
  let sm := Integration.default_manager py_str in
  let r :=
    Gemini.generate_content sm Examples.uid
      (Examples.answering Examples.response_trigger_call) Examples.model
      Examples.request_weather in
  exists t c d,
    trace r = (t ++ [c])%list /\ is_tool_call c = true /\
    decision_of sm c = Some d /\ verdict d = BLOCK /\
    outcome r = inl (mkHTTPException 403 (request_blocked ++ details d)) /\
    contains DebugPolicy.DEBUG_TRIGGER (details d) = true /\
    forallb (fun c => negb (is_model_response_call c)) (trace r) = true.
Proof.
  refine (C5_trigger_tool_call_blocked py_str Examples.uid
            (Examples.answering Examples.response_trigger_call) Examples.model
            Examples.request_weather Examples.model
            (mkBody
               (Some [Examples.turn "user"
                        [Examples.text_part "what is the weather in paris?"]])
               (Some []))
            "key-123" Examples.response_trigger_call
            (Examples.call_part "weather_capsem_block_function"
               [("location", PyStr "paris")])
            (mkFunctionCall "weather_capsem_block_function"
               (Some [("location", PyStr "paris")]))
            _ _ _ _ _).
  - vm_compute. right. left. reflexivity.
  - reflexivity.
  - vm_compute. left. reflexivity.
  - reflexivity.
  - reflexivity.
Defined.

(** ** C9 *)

(** C9: when the provider's response to a non-streaming request has no
    candidates (the list is absent or empty), the handler returns that
    response at once: the call to the provider is the last call made, and
    neither on_tool_call nor on_model_response is evaluated. *)
Theorem C9_no_candidates_returned
  (sm : SecurityManager.t) (uid : string -> string)
  (provider : GeminiProvider.t) (model : string) (request : Request)
  (m : string) (b : Body) (k : string) (response : GenerateContentResponse) :
  let r := Gemini.generate_content sm uid provider model request in
  In (CallGenerateContent m b k) (trace r) ->
  GeminiProvider.generate_content provider m b k = inr (Some response) ->
  candidates response = None \/ candidates response = Some [] ->
  outcome r = inr response /\
  (exists t, trace r = (t ++ [CallGenerateContent m b k])%list) /\
  forallb (fun c => negb (is_tool_call c || is_model_response_call c))
    (trace r) = true.
Proof.
  intros r Hcall Hresp Hnone. subst r.
  destruct (provider_called sm uid provider model request m b k Hcall)
    as (-> & Hj & Hk & H).
  cbv zeta in H. destruct H as (t & Ht & _ & Htry).
  rewrite generate_content_trace, generate_content_outcome, Htry.
  rewrite (forward_returns sm provider model (uuid4_hex request) _ b k
             response Hresp).
  cbv zeta. rewrite (check_response_no_candidates _ _ _ _ Hnone).
  cbn [fst snd ret]. split; [reflexivity|]. split.
  - eexists (t ++ [_])%list. now rewrite <- app_assoc.
  - rewrite forallb_app. cbn. rewrite andb_true_r.
    clear -Ht. induction t as [|x t IH]; [reflexivity|]. simpl in *.
    apply andb_true_iff in Ht as [Hx Ht]. rewrite (IH Ht). now destruct x.
Qed.

Lemma C9_witness :
  let r :=
    Gemini.generate_content (Integration.default_manager py_str) Examples.uid
      (Examples.answering Examples.response_empty) Examples.model
      Examples.request_weather in
  outcome r = inr Examples.response_empty /\
  forallb (fun c => negb (is_tool_call c || is_model_response_call c))
    (trace r) = true.
Proof.
  pose proof (C9_no_candidates_returned (Integration.default_manager py_str)
                Examples.uid (Examples.answering Examples.response_empty)
                Examples.model Examples.request_weather Examples.model
                (mkBody
                   (Some [Examples.turn "user"
                            [Examples.text_part
                               "what is the weather in paris?"]])
                   (Some []))
                "key-123" Examples.response_empty) as H.
  cbv zeta in H. destruct H as (Hout & _ & Hcalls).
  - vm_compute. right. left. reflexivity.
  - reflexivity.
  - right. reflexivity.
  - split; [exact Hout | exact Hcalls].
Defined.

(** ** C10 *)

(** C10: DebugPolicy.on_model_response returns BLOCK exactly when the
    trigger token occurs in the lower-cased response text; the thoughts
    argument plays no part, so a response whose text is free of the trigger
    is allowed whatever its thoughts hold. *)
Theorem C10_model_response_text_only
  (i : string) (a : Agent) (response thoughts : string) (md : list Media) :
  (verdict (DebugPolicy.on_model_response i a response thoughts md) = BLOCK
   <-> contains "capsem_block" (lower response) = true) /\
  (forall thoughts',
     DebugPolicy.on_model_response i a response thoughts' md
     = DebugPolicy.on_model_response i a response thoughts md) /\
  (contains "capsem_block" (lower response) = false ->
   verdict (DebugPolicy.on_model_response i a response thoughts md) = ALLOW).
Proof.
  unfold DebugPolicy.on_model_response.
  destruct (contains "capsem_block" (lower response)); cbn.
  - repeat split; auto; discriminate.
  - repeat split; auto; discriminate.
Qed.

Lemma C10_witness :
  contains "capsem_block" (lower "all good") = false /\
  verdict
    (DebugPolicy.on_model_response "id" (mkAgent "proxy-user-x" "" [])
       "all good" "capsem_block" []) = ALLOW.
Proof.
  split; [reflexivity|].
  apply (C10_model_response_text_only "id" (mkAgent "proxy-user-x" "" [])
           "all good" "capsem_block" []).
  reflexivity.
Defined.

(** The same through the handler: the thought of the response goes to the
    thoughts argument and the response is returned. *)
Example thought_trigger_is_returned :
  let r :=
    Gemini.generate_content (Integration.default_manager py_str) Examples.uid
      (Examples.answering Examples.response_thought_trigger) Examples.model
      Examples.request_weather in
  outcome r = inr Examples.response_thought_trigger /\
  exists t i a,
    trace r = (t ++ [CallOnModelResponse i a "all good" "capsem_block" []])%list.
Proof.
  split; [reflexivity|].
  eexists [_; _], _, _. reflexivity.
Qed.

(** ** C7 *)

(** C7: when the configuration directory is unset, or names a path that
    does not exist, or loading from it raises, the security manager holds
    exactly one policy, the default DebugPolicy, whose verdict at each gate
    is BLOCK when the trigger token occurs in the lower-cased input and
    ALLOW otherwise. *)
Theorem C7_default_policy_fallback
  (str : pyval -> string) (config_dir : option string)
  (path_exists : string -> bool)
  (load : string -> exn + SecurityManager.t) :
  config_dir = None
  \/ (exists d, config_dir = Some d /\ path_exists d = false)
  \/ (exists d e, config_dir = Some d /\ load d = inl e) ->
  let sm := Integration.security_manager str config_dir path_exists load in
  SecurityManager.policies sm = [DebugPolicy.new str] /\
  map Policy.name (SecurityManager.policies sm) = ["Debug"] /\
  (forall i a m s p md,
     verdict (SecurityManager.on_model_call sm i a m s p md) =
     if contains DebugPolicy.DEBUG_TRIGGER (lower p) then BLOCK else ALLOW) /\
  (forall i a r th md,
     verdict (SecurityManager.on_model_response sm i a r th md) =
     if contains DebugPolicy.DEBUG_TRIGGER (lower r) then BLOCK else ALLOW) /\
  (forall i a t r,
     verdict (SecurityManager.on_tool_response sm i a t r) =
     if contains DebugPolicy.DEBUG_TRIGGER (lower (str (PyDict r)))
     then BLOCK else ALLOW) /\
  (forall i a t args,
     verdict (SecurityManager.on_tool_call sm i a t args) =
     if contains DebugPolicy.DEBUG_TRIGGER (lower (tool_name t))
        || contains DebugPolicy.DEBUG_TRIGGER
             (lower (DebugPolicy.args_str str args))
     then BLOCK else ALLOW).
Proof.
  intros H sm.
  assert (Hsm : sm = Integration.default_manager str).
  { subst sm. unfold Integration.security_manager.
    destruct H as [->|[(d & -> & Hd)|(d & e & -> & Hd)]]; [reflexivity| |].
    - destruct d; [reflexivity|]. now rewrite Hd.
    - destruct d; [reflexivity|]. rewrite Hd. now destruct (path_exists _). }
  rewrite Hsm. split; [reflexivity|]. split; [reflexivity|].
  split; [|split; [|split]]; intros.
  - rewrite default_on_model_call. unfold DebugPolicy.on_model_call.
    change "capsem_block" with DebugPolicy.DEBUG_TRIGGER at 1.
    now destruct (contains _ _).
  - rewrite default_on_model_response. unfold DebugPolicy.on_model_response.
    change "capsem_block" with DebugPolicy.DEBUG_TRIGGER at 1.
    now destruct (contains _ _).
  - rewrite default_on_tool_response. unfold DebugPolicy.on_tool_response.
    change "capsem_block" with DebugPolicy.DEBUG_TRIGGER at 1.
    now destruct (contains _ _).
  - rewrite default_on_tool_call. unfold DebugPolicy.on_tool_call.
    destruct (contains _ (lower (tool_name t))); [reflexivity|].
    now destruct (contains _ _).
Qed.

Lemma C7_witness :
  SecurityManager.policies
    (Integration.security_manager py_str (Some "/nonexistent/directory")
       (fun _ => false) Examples.failing_loader)
  = [DebugPolicy.new py_str].
Proof.
  apply (C7_default_policy_fallback py_str (Some "/nonexistent/directory")
           (fun _ => false) Examples.failing_loader).
  right. left. exists "/nonexistent/directory". split; reflexivity.
Defined.

(** ** A property of every call of a run *)

Section TraceAll.

Variable P : call -> bool.

Lemma bind_trace_all {A B : Type} (m : M A) (f : A -> M B) :
  forallb P (fst m) = true ->
  (forall a, forallb P (fst (f a)) = true) ->
  forallb P (fst (bind m f)) = true.
Proof.
  intros Hm Hf. destruct m as [t [e|a]]; [exact Hm|].
  rewrite bind_val. cbn [fst] in *. now rewrite forallb_app, Hm, Hf.
Qed.

Lemma for_each_trace_all {A S : Type} (body : S -> A -> M S) (l : list A) :
  (forall s x, forallb P (fst (body s x)) = true) ->
  forall s, forallb P (fst (for_each body l s)) = true.
Proof.
  intros Hbody. induction l as [|x l IH]; intros s; [reflexivity|].
  cbn [for_each]. apply bind_trace_all; [apply Hbody | exact IH].
Qed.

Lemma decide_trace_all step d rid :
  forallb P (fst (Gemini._decide step d rid)) = true.
Proof. unfold Gemini._decide. now destruct (Verdict_eqb _ _). Qed.

End TraceAll.

Ltac trace_all :=
  repeat first
    [ reflexivity
    | apply decide_trace_all
    | apply bind_trace_all; [|intros]
    | apply for_each_trace_all; intros ].

(** ** C8 *)

Lemma str_or_has_description (s : option string) (t : Tool) :
  description t = str_or s "No description provided" ->
  has_description t = true.
Proof.
  unfold has_description. intros ->. now destruct s as [[|c s]|].
Qed.

Lemma create_agent_descriptions (user_id : string) (tds : list ToolDef) :
  forallb has_description (tools (Integration.create_agent user_id tds)) = true.
Proof.
  unfold Integration.create_agent. cbn [tools].
  assert (H : forall acc, forallb has_description acc = true ->
            forallb has_description
              (fold_left Integration.convert_tool tds acc) = true).
  { induction tds as [|td tds IH]; intros acc Hacc; [exact Hacc|].
    cbn [fold_left]. apply IH. unfold Integration.convert_tool.
    destruct (td_type td) as [ty|]; [|exact Hacc].
    destruct (string_dec ty "function") as [->|Hne].
    - rewrite forallb_snoc, Hacc. cbn [andb].
      eapply str_or_has_description. reflexivity.
    - destruct ty as [|[[] [] [] [] [] [] [] []] ty]; try exact Hacc.
      repeat (destruct ty as [|[[] [] [] [] [] [] [] []] ty]; try exact Hacc).
      now elim Hne. }
  now apply H.
Qed.

Lemma stream_generate_content_trace sm uid provider model request :
  trace (Gemini.stream_generate_content sm uid provider model request) =
  fst (Gemini.stream_generate_content_try sm uid provider model request).
Proof.
  unfold Gemini.stream_generate_content.
  now destruct (Gemini.stream_generate_content_try _ _ _ _ _) as [t [e|r]].
Qed.

Lemma stream_generate_content_outcome sm uid provider model request :
  outcome (Gemini.stream_generate_content sm uid provider model request) =
  match snd (Gemini.stream_generate_content_try sm uid provider model request)
  with
  | inl e => inl (Gemini.stream_generate_content_except e)
  | inr r => inr r
  end.
Proof.
  unfold Gemini.stream_generate_content.
  now destruct (Gemini.stream_generate_content_try _ _ _ _ _) as [t [e|r]].
Qed.

(** The calls either handler can make for a request: a property that holds
    of each of them holds of every call of the run. *)
Section CallsOf.

Variable P : call -> bool.
Variable sm : SecurityManager.t.
Variable request_id : string.
Variable agent : Agent.

Hypothesis P_tool_response :
  forall fr,
    P (CallOnToolResponse request_id agent
         (mkTool (fr_name fr) "Function response from model" [])
         (dict_or_empty (fr_response fr))) = true.
Hypothesis P_tool_call :
  forall fc, P (tool_call_gate request_id agent fc) = true.
Hypothesis P_stream_tool_call :
  forall fd,
    P (CallOnToolCall request_id agent (Gemini.stream_tool fd) []) = true.

Lemma scan_content_all (l : Gemini.locals) (c : ContentEntry) :
  forallb P (fst (Gemini.scan_content sm request_id agent l c)) = true.
Proof.
  unfold Gemini.scan_content.
  destruct (validates c); [|reflexivity]. cbn [negb].
  destruct (parts (entry c)) as [[|p ps]|]; try reflexivity.
  destruct (Gemini.part _) as [q|]; [|reflexivity].
  destruct (function_response q) as [fr|]; [|reflexivity].
  trace_all. cbn. now rewrite P_tool_response.
Qed.

Lemma scan_response_part_all (st : list string * list string) (p : Part) :
  forallb P (fst (Gemini.scan_response_part sm request_id agent st p)) = true.
Proof.
  unfold Gemini.scan_response_part.
  destruct (function_call p) as [fc|]; [|reflexivity].
  trace_all. cbn. fold (tool_call_gate request_id agent fc).
  now rewrite P_tool_call.
Qed.

Lemma scan_candidate_all (st : list string * list string) (c : Candidate) :
  forallb P (fst (Gemini.scan_candidate sm request_id agent st c)) = true.
Proof.
  rewrite scan_candidate_eq. apply for_each_trace_all. intros.
  apply scan_response_part_all.
Qed.

Lemma stream_check_decl_all (u : unit) (fd : FunctionDecl) :
  forallb P (fst (Gemini.stream_check_decl sm request_id agent u fd)) = true.
Proof.
  unfold Gemini.stream_check_decl. trace_all.
  - cbn. now rewrite P_stream_tool_call.
  - now destruct (Verdict_eqb _ _).
Qed.

Lemma stream_check_tool_all (u : unit) (td : ToolDef) :
  forallb P (fst (Gemini.stream_check_tool sm request_id agent u td)) = true.
Proof.
  unfold Gemini.stream_check_tool.
  destruct (td_functionDeclarations td) as [decls|]; [|reflexivity].
  apply for_each_trace_all. intros. apply stream_check_decl_all.
Qed.

End CallsOf.

Lemma generate_content_calls
  (P : call -> bool) (sm : SecurityManager.t) (uid : string -> string)
  (provider : GeminiProvider.t) (model : string) (request : Request) :
  (forall body,
     json request = inr body ->
     let rid := uuid4_hex request in
     let key := x_goog_api_key request in
     let agent := request_agent uid key body in
     (forall fr,
        P (CallOnToolResponse rid agent
             (mkTool (fr_name fr) "Function response from model" [])
             (dict_or_empty (fr_response fr))) = true) /\
     (forall p, P (CallOnModelCall rid agent model "" p []) = true) /\
     P (CallGenerateContent model body key) = true /\
     (forall fc, P (tool_call_gate rid agent fc) = true) /\
     (forall r th, P (CallOnModelResponse rid agent r th []) = true)) ->
  forallb P (trace (Gemini.generate_content sm uid provider model request))
  = true.
Proof.
  intros H. rewrite generate_content_trace.
  unfold Gemini.generate_content_try, Gemini.extract_gemini_api_key.
  destruct (x_goog_api_key request) as [|k0 k]; [reflexivity|].
  rewrite bind_ret.
  destruct (json request) as [e|body]; [reflexivity|]. rewrite bind_ret.
  specialize (H body eq_refl). cbv zeta in H. unfold request_agent in H.
  destruct H as (H1 & H2 & H3 & H4 & H5).
  set (agent := Integration.create_agent _ _) in *. clearbody agent.
  apply bind_trace_all;
    [apply for_each_trace_all; intros; now apply scan_content_all|].
  intros l. apply bind_trace_all; [cbn; now rewrite H2|].
  intros d. apply bind_trace_all; [apply decide_trace_all|].
  intros _. apply bind_trace_all; [cbn; now rewrite H3|].
  intros _. apply bind_trace_all;
    [destruct (GeminiProvider.generate_content _ _ _ _); reflexivity|].
  intros raw. apply bind_trace_all; [destruct raw; reflexivity|].
  intros response.
  destruct (candidates response) as [[|c cs]|]; try reflexivity.
  apply bind_trace_all;
    [apply for_each_trace_all; intros; now apply scan_candidate_all|].
  intros st. apply bind_trace_all; [cbn; now rewrite H5|].
  intros d'. trace_all.
Qed.

Lemma stream_generate_content_calls
  (P : call -> bool) (sm : SecurityManager.t) (uid : string -> string)
  (provider : GeminiProvider.t) (model : string) (request : Request) :
  (forall body,
     json request = inr body ->
     let rid := uuid4_hex request in
     let key := x_goog_api_key request in
     let agent := request_agent uid key body in
     (forall p, P (CallOnModelCall rid agent model "" p []) = true) /\
     (forall fd,
        P (CallOnToolCall rid agent (Gemini.stream_tool fd) []) = true) /\
     P (CallGenerateContentStream model body key) = true) ->
  forallb P
    (trace (Gemini.stream_generate_content sm uid provider model request))
  = true.
Proof.
  intros H. rewrite stream_generate_content_trace.
  unfold Gemini.stream_generate_content_try, Gemini.extract_gemini_api_key.
  destruct (x_goog_api_key request) as [|k0 k]; [reflexivity|].
  rewrite bind_ret.
  destruct (json request) as [e|body]; [reflexivity|]. rewrite bind_ret.
  specialize (H body eq_refl). cbv zeta in H. unfold request_agent in H.
  destruct H as (H1 & H2 & H3).
  set (agent := Integration.create_agent _ _) in *. clearbody agent.
  apply bind_trace_all; [cbn; now rewrite H1|].
  intros d. apply bind_trace_all; [now destruct (Verdict_eqb _ _)|].
  intros _. apply bind_trace_all;
    [apply for_each_trace_all; intros; now apply stream_check_tool_all|].
  intros _. cbn. now rewrite H3.
Qed.

(** C8: every Tool handed to a policy evaluation, as the tool argument of a
    gate or among the tools of the agent, by either handler, has a non-empty
    description; where the caller's definition gives none (absent or empty)
    the placeholder "No description provided" is used. *)
Theorem C8_tools_have_descriptions
  (sm : SecurityManager.t) (uid : string -> string)
  (provider : GeminiProvider.t) (model : string) (request : Request) :
  forallb described
    (trace (Gemini.generate_content sm uid provider model request)) = true /\
  forallb described
    (trace (Gemini.stream_generate_content sm uid provider model request))
  = true /\
  (forall user_id tds,
     forallb has_description (tools (Integration.create_agent user_id tds))
     = true) /\
  (forall fd,
     fd_description fd = None \/ fd_description fd = Some "" ->
     description (Gemini.stream_tool fd) = "No description provided") /\
  (forall acc td f,
     td_type td = Some "function" -> td_function td = Some f ->
     fd_description f = None \/ fd_description f = Some "" ->
     exists t,
       Integration.convert_tool acc td = (acc ++ [t])%list /\
       description t = "No description provided").
Proof.
  split; [|split; [|split; [|split]]].
  - apply generate_content_calls. intros body _ rid key agent.
    assert (Ha : forallb has_description (tools agent) = true)
      by apply create_agent_descriptions.
    unfold described, tool_call_gate. cbn [tools_of forallb has_description
                                             description].
    now rewrite Ha.
  - apply stream_generate_content_calls. intros body _ rid key agent.
    assert (Ha : forallb has_description (tools agent) = true)
      by apply create_agent_descriptions.
    unfold described. cbn [tools_of forallb]. rewrite Ha.
    repeat split. intros fd. unfold Gemini.stream_tool.
    erewrite str_or_has_description by reflexivity. reflexivity.
  - intros. apply create_agent_descriptions.
  - intros fd H. unfold Gemini.stream_tool. cbn [description].
    now destruct H as [-> | ->].
  - intros acc td f Hty Hf H. unfold Integration.convert_tool.
    rewrite Hty, Hf. eexists. split; [reflexivity|]. cbn [description get].
    now destruct H as [-> | ->].
Qed.

Lemma C8_witness :
  description
    (Gemini.stream_tool (mkFunctionDecl (Some "get_weather") (Some "") None))
  = "No description provided".
Proof.
  apply (C8_tools_have_descriptions (Integration.default_manager py_str)
           Examples.uid (Examples.answering Examples.response_empty)
           Examples.model Examples.request_weather).
  right. reflexivity.
Defined.

(** ** The discipline of the gates *)

Section Gated.

Variable sm : SecurityManager.t.
Variable pre : call -> string.

Lemma gated_silent {A : Type} (m : M A) : fst m = [] -> gated sm pre m.
Proof.
  intros H t1 c t2 d Ht. rewrite H in Ht. now destruct t1.
Qed.

Lemma gated_bind {A B : Type} (m : M A) (f : A -> M B) :
  gated sm pre m -> (forall a, gated sm pre (f a)) -> gated sm pre (bind m f).
Proof.
  intros Hm Hf. destruct m as [t [e|a]].
  - rewrite bind_err. intros t1 c t2 d Ht Hd Hv.
    destruct (Hm t1 c t2 d Ht Hd Hv) as (-> & Hs). split; [reflexivity|].
    cbn [snd] in *. congruence.
  - rewrite bind_val. intros t1 c t2 d Ht Hd Hv. cbn [fst snd] in *.
    apply app_eq_app in Ht as (l & [(H1 & H2)|(H1 & H2)]).
    + destruct l as [|x l].
      * rewrite app_nil_r in H1. subst t1. cbn [app] in H2.
        now apply (Hf a [] c t2 d).
      * cbn [app] in H2. injection H2 as <- H2.
        destruct (Hm t1 c l d H1 Hd Hv) as (_ & Hs). discriminate.
    + now apply (Hf a l c t2 d).
Qed.

Lemma gated_for_each {A S : Type} (body : S -> A -> M S) (l : list A) :
  (forall s x, gated sm pre (body s x)) ->
  forall s, gated sm pre (for_each body l s).
Proof.
  intros Hbody. induction l as [|x l IH]; intros s.
  - now apply gated_silent.
  - cbn [for_each]. apply gated_bind; [apply Hbody | exact IH].
Qed.

(** A gate followed by the test of its verdict. *)
Lemma gated_gate {B : Type} (c : call) (d : Decision) (k : M B) :
  decision_of sm c = Some d ->
  gated sm pre k ->
  gated sm pre
    (bind ([c], inr d)
       (fun decision =>
          bind (if Verdict_eqb (verdict decision) BLOCK then
                  raise (RaiseHTTP (mkHTTPException 403
                           (pre c ++ details decision)))
                else ret tt)
            (fun _ => k))).
Proof.
  intros Hc Hk. rewrite bind_val. cbv beta.
  destruct (Verdict_eqb (verdict d) BLOCK) eqn:Hb.
  - rewrite bind_raise. cbn [fst snd raise app].
    intros t1 c' t2 d' Ht Hd' Hv.
    destruct t1 as [|x t1]; [|now destruct t1].
    injection Ht as <- <-. split; [reflexivity|].
    rewrite Hc in Hd'. now injection Hd' as <-.
  - rewrite bind_ret. cbn [fst snd app].
    intros t1 c' t2 d' Ht Hd' Hv.
    destruct t1 as [|x t1].
    + injection Ht as <- _. rewrite Hc in Hd'. injection Hd' as <-.
      apply Verdict_eqb_eq in Hv. congruence.
    + injection Ht as _ Ht. now apply (Hk t1 c' t2 d').
Qed.

(** A gate whose test ends the computation. *)
Lemma gated_gate_last (c : call) (d : Decision) :
  decision_of sm c = Some d ->
  gated sm pre
    (bind ([c], inr d)
       (fun decision =>
          if Verdict_eqb (verdict decision) BLOCK then
            raise (RaiseHTTP (mkHTTPException 403
                     (pre c ++ details decision)))
          else ret tt)).
Proof.
  intros Hc. rewrite bind_val. cbv beta.
  intros t1 c' t2 d' Ht Hd' Hv.
  destruct (Verdict_eqb (verdict d) BLOCK) eqn:Hb;
    cbn [fst snd raise ret app] in *;
    (destruct t1 as [|x t1]; [|now destruct t1]);
    injection Ht as <- <-; rewrite Hc in Hd'; injection Hd' as <-.
  - now split.
  - apply Verdict_eqb_eq in Hv. congruence.
Qed.

End Gated.

Lemma gated_emit (sm : SecurityManager.t) (pre : call -> string) (c : call) :
  decision_of sm c = None -> gated sm pre (emit c).
Proof.
  intros Hc t1 c' t2 d Ht Hd. cbn [emit fst] in Ht.
  destruct t1 as [|x t1]; [|now destruct t1].
  injection Ht as <- _. congruence.
Qed.

Section GatedHandlers.

Variable sm : SecurityManager.t.
Variable uid : string -> string.
Variable provider : GeminiProvider.t.
Variable model : string.

Let pre (c : call) : string := request_blocked.

Lemma scan_content_gated rid agent l c :
  gated sm pre (Gemini.scan_content sm rid agent l c).
Proof.
  unfold Gemini.scan_content.
  destruct (validates c); [|now apply gated_silent]. cbn [negb].
  destruct (parts (entry c)) as [[|p ps]|]; try now apply gated_silent.
  destruct (Gemini.part _) as [q|]; [|now apply gated_silent].
  destruct (function_response q) as [fr|]; [|now apply gated_silent].
  rewrite call_on_tool_response_eq. unfold Gemini._decide.
  apply (gated_gate sm pre); [reflexivity | now apply gated_silent].
Qed.

Lemma scan_response_part_gated rid agent st p :
  gated sm pre (Gemini.scan_response_part sm rid agent st p).
Proof.
  unfold Gemini.scan_response_part.
  destruct (function_call p) as [fc|]; [|now apply gated_silent].
  rewrite call_on_tool_call_eq. unfold Gemini._decide.
  apply (gated_gate sm pre); [reflexivity | now apply gated_silent].
Qed.

Lemma scan_candidate_gated rid agent st c :
  gated sm pre (Gemini.scan_candidate sm rid agent st c).
Proof.
  rewrite scan_candidate_eq. apply gated_for_each. intros.
  apply scan_response_part_gated.
Qed.

Lemma generate_content_try_gated request :
  gated sm pre (Gemini.generate_content_try sm uid provider model request).
Proof.
  unfold Gemini.generate_content_try, Gemini.extract_gemini_api_key.
  destruct (x_goog_api_key request) as [|k0 k]; [now apply gated_silent|].
  rewrite bind_ret.
  destruct (json request) as [e|body]; [now apply gated_silent|].
  rewrite bind_ret.
  apply gated_bind;
    [apply gated_for_each; intros; apply scan_content_gated|].
  intros l. rewrite call_on_model_call_eq. unfold Gemini._decide at 1.
  apply (gated_gate sm pre); [reflexivity|].
  apply gated_bind; [now apply gated_emit|]. intros _.
  apply gated_bind;
    [destruct (GeminiProvider.generate_content _ _ _ _);
     now apply gated_silent|].
  intros raw. apply gated_bind; [destruct raw; now apply gated_silent|].
  intros response.
  destruct (candidates response) as [[|c cs]|]; try now apply gated_silent.
  apply gated_bind;
    [apply gated_for_each; intros; apply scan_candidate_gated|].
  intros st. rewrite call_on_model_response_eq. unfold Gemini._decide.
  apply (gated_gate sm pre); [reflexivity | now apply gated_silent].
Qed.

Lemma stream_check_decl_gated rid agent u fd :
  gated sm stream_block_prefix (Gemini.stream_check_decl sm rid agent u fd).
Proof.
  unfold Gemini.stream_check_decl. rewrite call_on_tool_call_eq.
  apply (gated_gate_last sm stream_block_prefix). reflexivity.
Qed.

Lemma stream_check_tool_gated rid agent u td :
  gated sm stream_block_prefix (Gemini.stream_check_tool sm rid agent u td).
Proof.
  unfold Gemini.stream_check_tool.
  destruct (td_functionDeclarations td) as [decls|]; [|now apply gated_silent].
  apply gated_for_each. intros. apply stream_check_decl_gated.
Qed.

Lemma stream_generate_content_try_gated request :
  gated sm stream_block_prefix
    (Gemini.stream_generate_content_try sm uid provider model request).
Proof.
  unfold Gemini.stream_generate_content_try, Gemini.extract_gemini_api_key.
  destruct (x_goog_api_key request) as [|k0 k]; [now apply gated_silent|].
  rewrite bind_ret.
  destruct (json request) as [e|body]; [now apply gated_silent|].
  rewrite bind_ret. rewrite call_on_model_call_eq.
  apply (gated_gate sm stream_block_prefix); [reflexivity|].
  apply gated_bind;
    [apply gated_for_each; intros; apply stream_check_tool_gated|].
  intros _. apply gated_bind; [now apply gated_emit|].
  intros _. now apply gated_silent.
Qed.

End GatedHandlers.

(** ** The pre-flight gates of [stream_generate_content] *)

Section StreamGates.

Variable sm : SecurityManager.t.
Variable request_id : string.
Variable agent : Agent.

Let tool_gate (fd : FunctionDecl) : call :=
  CallOnToolCall request_id agent (Gemini.stream_tool fd) [].

Lemma gate_run_app (g1 g2 : list call) (m1 : M unit) (f : unit -> M unit) :
  gate_run sm stream_block_prefix g1 m1 ->
  gate_run sm stream_block_prefix g2 (f tt) ->
  gate_run sm stream_block_prefix (g1 ++ g2) (bind m1 f).
Proof.
  intros [(Hp & ->)|(a & c & b & d & -> & Hp & Hd & Hv & ->)] H2.
  - rewrite bind_val.
    destruct H2 as [(Hp2 & ->)|(a & c & b & d & -> & Hp2 & Hd & Hv & ->)].
    + left. cbn [fst snd]. now rewrite forallb_app, Hp, Hp2.
    + right. exists (g1 ++ a)%list, c, b, d. cbn [fst snd].
      rewrite forallb_app, Hp, Hp2, !app_assoc. auto.
  - right. rewrite bind_err. exists a, c, (b ++ g2)%list, d.
    rewrite <- app_assoc. auto.
Qed.

Lemma stream_check_decl_run (fd : FunctionDecl) :
  gate_run sm stream_block_prefix [tool_gate fd]
    (Gemini.stream_check_decl sm request_id agent tt fd).
Proof.
  unfold Gemini.stream_check_decl. rewrite call_on_tool_call_eq, bind_val.
  cbv beta. fold (tool_gate fd).
  destruct (Verdict_eqb _ BLOCK) eqn:Hb.
  - right. exists [], (tool_gate fd), []. eexists.
    repeat split. now apply Verdict_eqb_eq.
  - left. split; [|reflexivity]. cbn. unfold passes, blocks. cbn.
    now rewrite Hb.
Qed.

Lemma stream_check_decls_run (decls : list FunctionDecl) :
  gate_run sm stream_block_prefix (map tool_gate decls)
    (for_each (Gemini.stream_check_decl sm request_id agent) decls tt).
Proof.
  induction decls as [|fd decls IH]; [now left|].
  cbn [for_each map].
  apply (gate_run_app [tool_gate fd]); [apply stream_check_decl_run|].
  exact IH.
Qed.

Lemma stream_check_tools_run (tds : list ToolDef) :
  gate_run sm stream_block_prefix (map tool_gate (declared tds))
    (for_each (Gemini.stream_check_tool sm request_id agent) tds tt).
Proof.
  induction tds as [|td tds IH]; [now left|].
  cbn [for_each]. unfold declared. cbn [flat_map]. rewrite map_app.
  apply gate_run_app; [|exact IH].
  unfold Gemini.stream_check_tool.
  destruct (td_functionDeclarations td) as [decls|]; [|now left].
  apply stream_check_decls_run.
Qed.

End StreamGates.

(** Once the key and the body are read, a run of the streaming handler goes
    through its gates and then opens the stream, or stops at the first gate
    that blocks. *)
Lemma stream_cases
  (sm : SecurityManager.t) (uid : string -> string)
  (provider : GeminiProvider.t) (model : string) (request : Request)
  (body : Body) :
  x_goog_api_key request <> "" ->
  json request = inr body ->
  let key := x_goog_api_key request in
  let gates := stream_gates uid model request body in
  let m := Gemini.stream_generate_content_try sm uid provider model request in
  (forallb (passes sm) gates = true /\
   m = ((gates ++ [CallGenerateContentStream model body key])%list,
        inr (mkStreamingResponse
               (GeminiProvider.generate_content_stream provider model body key)
               "text/event-stream")))
  \/ (exists g1 c g2 d,
        gates = (g1 ++ c :: g2)%list /\ forallb (passes sm) g1 = true /\
        decision_of sm c = Some d /\ verdict d = BLOCK /\
        m = ((g1 ++ [c])%list,
             inl (RaiseHTTP
                    (mkHTTPException 403
                       (stream_block_prefix c ++ details d))))).
Proof.
  intros Hkey Hjson key gates m. subst m key gates.
  unfold Gemini.stream_generate_content_try, Gemini.extract_gemini_api_key.
  unfold stream_gates, stream_gates_with, request_agent.
  destruct (x_goog_api_key request) as [|k0 k] eqn:Ek; [congruence|].
  rewrite bind_ret, Hjson, bind_ret.
  set (agent := Integration.create_agent _ _).
  fold (stream_prompt body).
  set (mc := CallOnModelCall _ agent model "" (stream_prompt body) []).
  rewrite call_on_model_call_eq, bind_val. cbv beta. fold mc.
  destruct (Verdict_eqb _ BLOCK) eqn:Hb.
  - right. rewrite bind_raise. eexists [], mc, _, _.
    repeat split. now apply Verdict_eqb_eq.
  - rewrite bind_ret. cbn [app].
    assert (Hmc : passes sm mc = true).
    { unfold passes, blocks. cbn. now rewrite Hb. }
    destruct (stream_check_tools_run sm (uuid4_hex request) agent
                (get (body_tools body) []))
      as [(Hp & ->)|(a & c & b & d & Hg & Hp & Hd & Hv & ->)].
    + left. rewrite bind_val, bind_emit. cbn [fst snd ret forallb].
      rewrite Hmc, Hp. split; reflexivity.
    + right. rewrite bind_err. exists (mc :: a), c, b, d.
      cbn [fst snd forallb app]. rewrite Hmc, Hp, Hg. auto.
Qed.

(** ** What a run of each handler can hold *)

Lemma split_last {A : Type} (t1 t2 g : list A) (x y : A) :
  (t1 ++ x :: t2 = g ++ [y])%list ->
  In x g \/ (t1 = g /\ x = y /\ t2 = []).
Proof.
  revert g; induction t1 as [|a t1 IH]; intros g H.
  - destruct g as [|b g]; cbn in H.
    + injection H as -> ->. auto.
    + injection H as -> _. left. now left.
  - destruct g as [|b g]; cbn in H.
    + injection H as _ H. now destruct t1.
    + injection H as -> H. destruct (IH g H) as [Hin|(-> & -> & ->)].
      * left. now right.
      * auto.
Qed.

Lemma generate_content_no_stream sm uid provider model request :
  forallb (fun c => negb (is_stream_call c))
    (trace (Gemini.generate_content sm uid provider model request)) = true.
Proof. apply generate_content_calls. intros. now repeat split. Qed.

Lemma stream_gates_kinds uid model request body :
  forallb (fun c => is_model_call c || is_tool_call c)
    (stream_gates uid model request body) = true.
Proof.
  unfold stream_gates, stream_gates_with. cbn [forallb is_model_call orb].
  induction (declared _) as [|fd l IH]; [reflexivity|]. exact IH.
Qed.

Lemma blocked_not_passes sm c d :
  decision_of sm c = Some d -> verdict d = BLOCK -> passes sm c = false.
Proof.
  intros Hd Hv. unfold passes, blocks. rewrite Hd, Hv. reflexivity.
Qed.

(** ** C4 *)

(** C4 as stated fails: the 403 raised for a BLOCK decision carries the
    details but not the reason.  For the decision the default policy gives
    on a prompt with the trigger, the error holds no mention of the reason,
    and a decision with another reason and the same details raises the very
    same error. *)
Lemma C4_reason_not_in_error :
  let d := Examples.block_in_prompt in
  let d' := mkDecision BLOCK SAFE (details d) in
  exists e,
    Gemini._decide "on_model_call" d "id" = ([], inl (RaiseHTTP e)) /\
    status_code e = 403%Z /\
    contains (details d) (detail e) = true /\
    names_reason e d = false /\
    reason d <> reason d' /\
    Gemini._decide "on_model_call" d' "id" = ([], inl (RaiseHTTP e)).
Proof.
  eexists. split; [reflexivity|]. repeat split; discriminate.
Qed.

(** C4, amended: when the decision of a gate is BLOCK, that gate is the
    last call of the run and the handler raises an HTTP 403 whose detail is
    "Request blocked by security policy: " (for the tool pre-check of the
    streaming handler, "Tool blocked by security policy: ") followed by the
    details of the decision; the reason is not part of the error.  When the
    blocking gate is on_model_call the provider is never called. *)
Theorem C4_block_is_403_with_details
  (sm : SecurityManager.t) (uid : string -> string)
  (provider : GeminiProvider.t) (model : string) (request : Request) :
  (forall step d rid,
     verdict d = BLOCK ->
     let e := mkHTTPException 403 (request_blocked ++ details d) in
     Gemini._decide step d rid = ([], inl (RaiseHTTP e)) /\
     Utils.decide step d rid = ([], inl (RaiseHTTP e))) /\
  (let r := Gemini.generate_content sm uid provider model request in
   forall t1 c t2 d,
     trace r = (t1 ++ c :: t2)%list ->
     decision_of sm c = Some d -> verdict d = BLOCK ->
     t2 = [] /\
     outcome r = inl (mkHTTPException 403 (request_blocked ++ details d)) /\
     (is_model_call c = true ->
      forallb (fun x => negb (is_provider_call x)) (trace r) = true)) /\
  (let r := Gemini.stream_generate_content sm uid provider model request in
   forall t1 c t2 d,
     trace r = (t1 ++ c :: t2)%list ->
     decision_of sm c = Some d -> verdict d = BLOCK ->
     t2 = [] /\
     outcome r
     = inl (mkHTTPException 403 (stream_block_prefix c ++ details d)) /\
     forallb (fun x => negb (is_provider_call x)) (trace r) = true).
Proof.
  split; [|split].
  - intros step d rid Hv e. unfold Gemini._decide, Utils.decide.
    now rewrite Hv.
  - intros r t1 c t2 d Ht Hd Hv. subst r.
    rewrite generate_content_trace in Ht.
    destruct (generate_content_try_gated sm uid provider model request
                t1 c t2 d Ht Hd Hv) as (-> & Hs).
    split; [reflexivity|]. split.
    { rewrite generate_content_outcome, Hs. reflexivity. }
    intros Hmc. apply forallb_forall. intros x Hx.
    destruct (is_provider_call x) eqn:Hp; [exfalso|reflexivity].
    pose proof (generate_content_no_stream sm uid provider model request)
      as Hns.
    rewrite forallb_forall in Hns. specialize (Hns x Hx).
    destruct x as [| | | |m b k|]; try discriminate. clear Hp Hns.
    destruct (provider_called sm uid provider model request m b k Hx)
      as (-> & Hj & Hk & H).
    cbv zeta in H. destruct H as (t & Htr & Hb & Htry).
    rewrite Htry in Ht. cbn [fst] in Ht.
    destruct (forward_trace sm provider model (uuid4_hex request)
                (request_agent uid k b) b k) as (t' & Hfw & Hkinds).
    rewrite Hfw in Ht.
    assert (Hin : In c (t ++ CallOnModelCall (uuid4_hex request)
                                (request_agent uid k b) model ""
                                (visible_prompt b) []
                          :: CallGenerateContent model b k :: t')).
    { rewrite Ht. apply in_or_app. right. now left. }
    apply in_app_or in Hin as [Hin|[Hin|[Hin|Hin]]].
    + rewrite forallb_forall in Htr. apply Htr in Hin. now destruct c.
    + subst c. unfold blocks in Hb. rewrite Hd, Hv in Hb. discriminate.
    + subst c. discriminate.
    + rewrite forallb_forall in Hkinds. apply Hkinds in Hin. now destruct c.
  - intros r t1 c t2 d Ht Hd Hv. subst r.
    rewrite stream_generate_content_trace in Ht.
    destruct (stream_generate_content_try_gated sm uid provider model request
                t1 c t2 d Ht Hd Hv) as (-> & Hs).
    split; [reflexivity|]. split.
    { rewrite stream_generate_content_outcome, Hs. reflexivity. }
    rewrite stream_generate_content_trace.
    destruct (x_goog_api_key request) as [|k0 k] eqn:Ek.
    { unfold Gemini.stream_generate_content_try, Gemini.extract_gemini_api_key.
      now rewrite Ek. }
    destruct (json request) as [e|body] eqn:Ej.
    { unfold Gemini.stream_generate_content_try, Gemini.extract_gemini_api_key.
      now rewrite Ek, bind_ret, Ej. }
    assert (Hkey : x_goog_api_key request <> "") by (rewrite Ek; discriminate).
    pose proof (stream_cases sm uid provider model request body Hkey Ej) as H.
    cbv zeta in H.
    pose proof (stream_gates_kinds uid model request body) as Hk.
    destruct H as [(Hp & Hm)|(g1 & c0 & g2 & d0 & Hg & Hp & Hd0 & Hv0 & Hm)];
      rewrite Hm in *; cbn [fst snd] in *.
    + discriminate.
    + rewrite Hg, forallb_app in Hk. cbn [forallb] in Hk.
      apply andb_true_iff in Hk as (Hk1 & (Hk2 & _)%andb_true_iff).
      rewrite forallb_snoc. apply andb_true_iff. split.
      * clear -Hk1. induction g1 as [|x g1 IH]; [reflexivity|]. simpl in *.
        apply andb_true_iff in Hk1 as [Hx Hk1]. rewrite (IH Hk1).
        now destruct x.
      * now destruct c0.
Qed.

Lemma C4_witness :
  let r :=
    Gemini.generate_content (Integration.default_manager py_str) Examples.uid
      (Examples.answering Examples.response_empty) Examples.model
      Examples.request_A in
  outcome r
  = inl (mkHTTPException 403
           "Request blocked by security policy: Detected 'capsem_block' in prompt")
  /\ forallb (fun x => negb (is_provider_call x)) (trace r) = true.
Proof.
  pose proof (C4_block_is_403_with_details
                (Integration.default_manager py_str) Examples.uid
                (Examples.answering Examples.response_empty) Examples.model
                Examples.request_A) as (_ & H & _).
  cbv zeta in H.
  destruct (H []
              (CallOnModelCall (uuid4_hex Examples.request_A)
                 (request_agent Examples.uid "key-123"
                    (mkBody
                       (Some [Examples.turn "user"
                                [Examples.text_part
                                   "what's the weather? capsem_block"]])
                       (Some [])))
                 Examples.model "" "what's the weather? capsem_block" [])
              [] Examples.block_in_prompt)
    as (_ & Hout & Hprov); [reflexivity | reflexivity | reflexivity |].
  split; [exact Hout | now apply Hprov].
Defined.

(** ** C6 *)

(** C6 as stated fails on "the same inbound parsing": for one and the same
    request the streaming handler hands on_model_call the text of each part
    behind its role, the non-streaming handler the bare text. *)
Lemma C6_parsing_differs :
  let sm := Integration.default_manager py_str in
  let provider := Examples.answering Examples.response_empty in
  model_call_prompts
    (trace (Gemini.generate_content sm Examples.uid provider Examples.model
              Examples.request_hello)) = ["hello"] /\
  model_call_prompts
    (trace (Gemini.stream_generate_content sm Examples.uid provider
              Examples.model Examples.request_hello)) = ["user: hello"] /\
  model_call_prompts
    (trace (Gemini.generate_content sm Examples.uid provider Examples.model
              Examples.request_hello))
  <> model_call_prompts
       (trace (Gemini.stream_generate_content sm Examples.uid provider
                 Examples.model Examples.request_hello)).
Proof. repeat split. discriminate. Qed.

Lemma model_call_prompts_app (a b : list call) :
  model_call_prompts (a ++ b) = (model_call_prompts a ++ model_call_prompts b)%list.
Proof. apply flat_map_app. Qed.

Lemma model_call_prompts_none (t : list call) :
  forallb (fun c => negb (is_model_call c)) t = true ->
  model_call_prompts t = [].
Proof.
  induction t as [|c t IH]; [reflexivity|]. cbn [forallb].
  intros [Hc Ht]%andb_true_iff.
  change (model_call_prompts (c :: t))
    with (match prompt_of c with Some p => [p] | None => [] end
          ++ model_call_prompts t)%list.
  rewrite (IH Ht). now destruct c.
Qed.

(** On a plain body the loop of the streaming handler collects the visible
    texts of the non-streaming path, each behind the role of its entry. *)
Lemma stream_scan_parts_plain (r : string) (ps : list Part) (acc : list string) :
  forallb plain_part ps = true ->
  fold_left (Gemini.stream_scan_part r) ps acc
  = (acc ++ map (role_line r) (flat_map visible_text ps))%list.
Proof.
  revert acc; induction ps as [|p ps IH]; intros acc Hps.
  - cbn. now rewrite app_nil_r.
  - cbn [forallb] in Hps. apply andb_true_iff in Hps as (Hp & Hps).
    cbn [fold_left flat_map]. rewrite (IH _ Hps), map_app, app_assoc.
    f_equal. unfold plain_part in Hp.
    apply andb_true_iff in Hp as (Hth & Htx). apply negb_true_iff in Hth.
    unfold Gemini.stream_scan_part, visible_text. rewrite Hth.
    destruct (text p) as [[|c t]|]; [discriminate | reflexivity |].
    cbn. now rewrite app_nil_r.
Qed.

Lemma stream_scan_contents_plain (cs : list ContentEntry) (acc : list string) :
  forallb
    (fun c => validates c && forallb plain_part (get (parts (entry c)) []))
    cs = true ->
  fold_left Gemini.stream_scan_content cs acc
  = (acc
     ++ flat_map
          (fun c =>
             map (role_line (entry_role c))
               (flat_map visible_text (entry_parts c))) cs)%list.
Proof.
  revert acc; induction cs as [|c cs IH]; intros acc Hcs.
  - cbn. now rewrite app_nil_r.
  - cbn [forallb] in Hcs.
    apply andb_true_iff in Hcs as ((Hv & Hc)%andb_true_iff & Hcs).
    cbn [fold_left flat_map]. rewrite (IH _ Hcs), app_assoc. f_equal.
    unfold Gemini.stream_scan_content, entry_parts, entry_role.
    rewrite Hv. cbv zeta. now apply stream_scan_parts_plain.
Qed.

Lemma stream_prompt_plain (body : Body) :
  plain_body body = true ->
  stream_prompt body = join newline (role_lines body).
Proof.
  intros H. unfold stream_prompt, role_lines.
  now rewrite (stream_scan_contents_plain _ [] H).
Qed.

(** Once the key and the body are read, the first call of the streaming
    handler is on_model_call on its prompt, and it is the only one. *)
Lemma stream_model_call_first
  (sm : SecurityManager.t) (uid : string -> string)
  (provider : GeminiProvider.t) (model : string) (request : Request)
  (body : Body) :
  x_goog_api_key request <> "" ->
  json request = inr body ->
  exists t,
    trace (Gemini.stream_generate_content sm uid provider model request)
    = CallOnModelCall (uuid4_hex request)
        (request_agent uid (x_goog_api_key request) body) model ""
        (stream_prompt body) [] :: t /\
    model_call_prompts t = [].
Proof.
  intros Hkey Hj. rewrite stream_generate_content_trace.
  pose proof (stream_cases sm uid provider model request body Hkey Hj) as H.
  cbv zeta in H.
  unfold stream_gates, stream_gates_with in H. cbv zeta in H.
  set (agent := request_agent uid (x_goog_api_key request) body) in *.
  set (mc := CallOnModelCall (uuid4_hex request) agent model ""
               (stream_prompt body) []) in *.
  set (tl := map _ (declared _)) in *.
  assert (Htools : forallb is_tool_call tl = true).
  { unfold tl. generalize (declared (get (body_tools body) [])).
    intros l. induction l as [|fd l IH]; [reflexivity | exact IH]. }
  assert (Hnone : forall l, forallb is_tool_call l = true ->
                            forallb (fun c => negb (is_model_call c)) l = true).
  { induction l as [|c l IH]; [reflexivity|]. cbn.
    intros [Hc Hl]%andb_true_iff. rewrite (IH Hl). now destruct c. }
  destruct H as [(Hp & Hm)|(g1 & c0 & g2 & d0 & Hg & Hp & Hd0 & Hv0 & Hm)];
    rewrite Hm; cbn [fst].
  - exists (tl ++ [CallGenerateContentStream model body
                     (x_goog_api_key request)])%list.
    split; [reflexivity|].
    rewrite model_call_prompts_app, (model_call_prompts_none _ (Hnone _ Htools)).
    reflexivity.
  - destruct g1 as [|x g1]; cbn [app] in Hg; injection Hg as <- Hg.
    + exists []. split; reflexivity.
    + exists (g1 ++ [c0])%list. split; [reflexivity|].
      apply model_call_prompts_none, Hnone.
      rewrite Hg, forallb_app in Htools. cbn [forallb] in Htools.
      apply andb_true_iff in Htools as (H1 & (H2 & _)%andb_true_iff).
      now rewrite forallb_snoc, H1, H2.
Qed.

(** C6, amended: once the key and the body of a streaming request are
    read, the handler evaluates on_model_call first, and only once, on its
    prompt; when every entry of the body is valid content and no part is
    flagged as a thought or has an empty text, that prompt is the visible
    texts of the non-streaming path, each behind the role of its entry (the
    role "user" when the entry names none), one per line.  It runs every
    pre-flight gate, on_model_call and then on_tool_call for every function
    declaration of the request, before the upstream stream is opened.  The
    stream is opened only after all these gates have passed, and it is
    opened when none blocks; opening it is the last call of the run, with
    no gate after it, and its chunks are returned as the provider gives
    them.  A gate that blocks ends the run in a 403 and the stream is never
    opened. *)
Theorem C6_stream_preflight
  (sm : SecurityManager.t) (uid : string -> string)
  (provider : GeminiProvider.t) (model : string) (request : Request) :
  let r := Gemini.stream_generate_content sm uid provider model request in
  (forall b,
     x_goog_api_key request <> "" -> json request = inr b ->
     exists p,
       model_call_prompts (trace r) = [p] /\
       (exists t,
          trace r
          = CallOnModelCall (uuid4_hex request)
              (request_agent uid (x_goog_api_key request) b) model "" p []
            :: t) /\
       (plain_body b = true -> p = join newline (role_lines b))) /\
  (forall t1 m b k t2,
     trace r = (t1 ++ CallGenerateContentStream m b k :: t2)%list ->
     json request = inr b /\
     (exists p,
        t1 = stream_gates_with uid model request b p /\
        (plain_body b = true -> p = join newline (role_lines b))) /\
     forallb (passes sm) t1 = true /\
     t2 = [] /\
     outcome r
     = inr (mkStreamingResponse
              (GeminiProvider.generate_content_stream provider m b k)
              "text/event-stream")) /\
  (forall c d,
     In c (trace r) -> decision_of sm c = Some d -> verdict d = BLOCK ->
     outcome r
     = inl (mkHTTPException 403 (stream_block_prefix c ++ details d)) /\
     forallb (fun x => negb (is_provider_call x)) (trace r) = true) /\
  (forall b,
     x_goog_api_key request <> "" -> json request = inr b ->
     forallb (passes sm) (trace r) = true ->
     exists t1,
       trace r
       = (t1 ++ [CallGenerateContentStream model b (x_goog_api_key request)])%list).
Proof.
  intros r. subst r. split.
  { intros b Hkey Hj.
    destruct (stream_model_call_first sm uid provider model request b Hkey Hj)
      as (t & Ht & Hn).
    exists (stream_prompt b). rewrite Ht. split; [|split].
    - change (model_call_prompts (?c :: t))
        with (match prompt_of c with Some p => [p] | None => [] end
              ++ model_call_prompts t)%list.
      now rewrite Hn.
    - now exists t.
    - apply stream_prompt_plain. }
  rewrite stream_generate_content_trace, stream_generate_content_outcome.
  destruct (x_goog_api_key request) as [|k0 k1] eqn:Ek.
  { unfold Gemini.stream_generate_content_try, Gemini.extract_gemini_api_key.
    rewrite Ek. cbn [bind raise fst snd].
    repeat split; try contradiction; now destruct t1. }
  destruct (json request) as [e|body] eqn:Ej.
  { unfold Gemini.stream_generate_content_try, Gemini.extract_gemini_api_key.
    rewrite Ek, bind_ret, Ej. cbn [bind raise fst snd].
    repeat split; try contradiction; try discriminate; now destruct t1. }
  assert (Hkey : x_goog_api_key request <> "") by (rewrite Ek; discriminate).
  pose proof (stream_cases sm uid provider model request body Hkey Ej) as H.
  cbv zeta in H. rewrite Ek in H.
  pose proof (stream_gates_kinds uid model request body) as Hkinds.
  assert (Hgate : forall x g, forallb (fun c => is_model_call c || is_tool_call c)
                                g = true -> In x g -> is_provider_call x = false).
  { intros x g Hg Hx. rewrite forallb_forall in Hg. apply Hg in Hx.
    now destruct x. }
  destruct H as [(Hp & Hm)|(g1 & c0 & g2 & d0 & Hg & Hp & Hd0 & Hv0 & Hm)];
    rewrite Hm; cbn [fst snd].
  - split; [|split].
    + intros t1 m b k t2 Ht. symmetry in Ht.
      apply split_last in Ht as [Hin|(-> & Hc & ->)].
      * apply (Hgate _ _ Hkinds) in Hin. discriminate.
      * injection Hc as -> -> ->. repeat split; auto.
        exists (stream_prompt body). split; [reflexivity|].
        apply stream_prompt_plain.
    + intros c d Hin Hd Hv. exfalso.
      apply in_app_or in Hin as [Hin|[<-|[]]]; [|discriminate].
      rewrite forallb_forall in Hp. apply Hp in Hin.
      rewrite (blocked_not_passes sm c d Hd Hv) in Hin. discriminate.
    + intros b _ Hb _. injection Hb as <-. now eexists.
  - assert (Hk1 : forallb (fun c => is_model_call c || is_tool_call c)
                    (g1 ++ [c0]) = true).
    { rewrite Hg, forallb_app in Hkinds. cbn [forallb] in Hkinds.
      apply andb_true_iff in Hkinds as (Hk1 & (Hk2 & _)%andb_true_iff).
      now rewrite forallb_snoc, Hk1, Hk2. }
    split; [|split].
    + intros t1 m b k t2 Ht. exfalso.
      assert (Hin : In (CallGenerateContentStream m b k) (g1 ++ [c0])).
      { rewrite Ht. apply in_or_app. right. now left. }
      apply (Hgate _ _ Hk1) in Hin. discriminate.
    + intros c d Hin Hd Hv. split.
      * apply in_app_or in Hin as [Hin|[<-|[]]].
        -- rewrite forallb_forall in Hp. apply Hp in Hin.
           rewrite (blocked_not_passes sm c d Hd Hv) in Hin. discriminate.
        -- rewrite Hd0 in Hd. now injection Hd as <-.
      * apply forallb_forall. intros x Hx.
        now rewrite (Hgate _ _ Hk1 Hx).
    + intros b _ Hb Hpass. exfalso.
      rewrite forallb_snoc in Hpass.
      apply andb_true_iff in Hpass as (_ & Hc).
      rewrite (blocked_not_passes sm c0 d0 Hd0 Hv0) in Hc. discriminate.
Qed.

Lemma C6_witness :
  let sm := Integration.default_manager py_str in
  let provider := Examples.answering Examples.response_empty in
  let r :=
    Gemini.stream_generate_content sm Examples.uid provider Examples.model
      Examples.request_with_tool in
  let rA :=
    Gemini.stream_generate_content sm Examples.uid provider Examples.model
      Examples.request_A in
  (model_call_prompts (trace r) = ["user: what is the weather in paris?"] /\
   forallb (passes sm) (trace r) = true /\
   exists b t1,
     json Examples.request_with_tool = inr b /\
     trace r
     = (t1 ++ [CallGenerateContentStream Examples.model b "key-123"])%list) /\
  (model_call_prompts (trace rA) = ["user: what's the weather? capsem_block"] /\
   outcome rA
   = inl (mkHTTPException 403
            "Request blocked by security policy: Detected 'capsem_block' in prompt") /\
   forallb (fun x => negb (is_provider_call x)) (trace rA) = true).
Proof.
  split.
  - destruct (C6_stream_preflight (Integration.default_manager py_str)
                Examples.uid (Examples.answering Examples.response_empty)
                Examples.model Examples.request_with_tool) as (H0 & _ & _ & H).
    destruct (H0 _ ltac:(discriminate) eq_refl) as (p & Hp & _ & Hplain).
    split; [|split; [reflexivity|]].
    + rewrite Hp, (Hplain eq_refl). reflexivity.
    + eexists.
      destruct (H _ ltac:(discriminate) eq_refl eq_refl) as (t1 & Ht).
      exists t1. split; [reflexivity | exact Ht].
  - destruct (C6_stream_preflight (Integration.default_manager py_str)
                Examples.uid (Examples.answering Examples.response_empty)
                Examples.model Examples.request_A) as (H0 & _ & H & _).
    destruct (H0 _ ltac:(discriminate) eq_refl) as (p & Hp & (t & Ht) & Hplain).
    split.
    + rewrite Hp, (Hplain eq_refl). reflexivity.
    + apply (H _ Examples.block_in_prompt
               ltac:(rewrite Ht; left; reflexivity)).
      * rewrite (Hplain eq_refl). reflexivity.
      * reflexivity.
Defined.

(** ** C2 *)

(** What the inbound loop does check: per valid entry, the function
    response of its last part, if that part carries one. *)
Lemma scan_content_checks_last_part sm rid agent l c :
  tool_response_payloads (fst (Gemini.scan_content sm rid agent l c)) =
  match function_response
          (last (entry_parts c) (mkPart None None None None)) with
  | Some fr => [dict_or_empty (fr_response fr)]
  | None => []
  end.
Proof.
  unfold Gemini.scan_content, entry_parts.
  destruct (validates c); [|reflexivity]. cbn [negb].
  destruct (parts (entry c)) as [[|p ps]|]; try reflexivity.
  cbn [get].
  change (fold_left Gemini.scan_part ps (Gemini.scan_part l p))
    with (fold_left Gemini.scan_part (p :: ps) l).
  rewrite scan_part_fold. cbn [Gemini.part].
  assert (Hlast : forall (qs : list Part) o d,
            qs <> [] -> last (map Some qs) o = Some (last qs d)).
  { induction qs as [|q qs IH]; [congruence|]. intros o d _.
    destruct qs as [|q' qs]; [reflexivity|].
    change (last (map Some (q :: q' :: qs)) o)
      with (last (map Some (q' :: qs)) o).
    change (last (q :: q' :: qs) d) with (last (q' :: qs) d).
    now apply IH. }
  rewrite (Hlast (p :: ps) _ (mkPart None None None None)) by discriminate.
  destruct (function_response (last (p :: ps) _)) as [fr|]; [|reflexivity].
  rewrite call_on_tool_response_eq, bind_val. cbv beta.
  unfold Gemini._decide. now destruct (Verdict_eqb _ BLOCK).
Qed.

(** C2 at a failing input: a turn carries two function responses; only the
    second is handed to on_tool_response.  The first, which the default
    policy would block, is never checked, and the request reaches the
    provider. *)
Theorem C2_only_last_part_checked :
  let sm := Integration.default_manager py_str in
  let r :=
    Gemini.generate_content sm Examples.uid
      (Examples.answering Examples.response_empty) Examples.model
      Examples.request_two_results in
  (exists b,
     json Examples.request_two_results = inr b /\
     carried_payloads b
     = [[("location", PyStr "capsem_block")]; [("time", PyStr "12:00")]]) /\
  tool_response_payloads (trace r) = [[("time", PyStr "12:00")]] /\
  (forall i a t,
     verdict (SecurityManager.on_tool_response sm i a t
                [("location", PyStr "capsem_block")]) = BLOCK) /\
  existsb is_provider_call (trace r) = true /\
  outcome r = inr Examples.response_empty.
Proof.
  split; [eexists; split; reflexivity|]. repeat split.
Qed.

(** ** C3 *)

(** The non-streaming half of C3 holds: the only prompt the non-streaming
    handler hands to on_model_call is the visible prompt of the body, in
    which no text of a thought part appears. *)
Lemma generate_content_prompt_is_visible
  (sm : SecurityManager.t) (uid : string -> string)
  (provider : GeminiProvider.t) (model : string) (request : Request)
  (body : Body) :
  json request = inr body ->
  forall p,
    In p (model_call_prompts
            (trace (Gemini.generate_content sm uid provider model request))) ->
    p = visible_prompt body.
Proof.
  intros Hj p. rewrite generate_content_trace.
  pose proof model_call_prompts_none as Hnone.
  assert (Hresp : forall t, forallb is_tool_response_call t = true ->
            forallb (fun c => negb (is_model_call c)) t = true).
  { induction t as [|c t IH]; [reflexivity|]. cbn.
    intros [Hc Ht]%andb_true_iff. rewrite (IH Ht). now destruct c. }
  destruct (x_goog_api_key request) as [|k0 k1] eqn:Ek.
  { unfold Gemini.generate_content_try, Gemini.extract_gemini_api_key.
    rewrite Ek. contradiction. }
  assert (Hkey : x_goog_api_key request <> "") by (rewrite Ek; discriminate).
  pose proof (preflight_cases sm uid provider model request body Hkey Hj) as H.
  cbv zeta in H.
  destruct H as (t & Ht & [(Hf & _) | [(_ & d & _ & Hm) | (_ & Hm)]]).
  - rewrite Hf, (Hnone _ (Hresp _ Ht)). contradiction.
  - rewrite Hm. cbn [fst].
    rewrite model_call_prompts_app, (Hnone _ (Hresp _ Ht)).
    cbn. now intros [<-|[]].
  - rewrite Hm. cbn [fst].
    rewrite model_call_prompts_app, (Hnone _ (Hresp _ Ht)).
    match goal with
    | |- context [forward ?a ?b ?c ?d ?e ?f ?g] =>
        destruct (forward_trace a b c d e f g) as (t' & -> & Hk)
    end.
    change (?a :: ?b :: t') with ([a; b] ++ t')%list.
    rewrite model_call_prompts_app, (Hnone t').
    + cbn. now intros [<-|[]].
    + clear -Hk. induction t' as [|c t' IH]; [reflexivity|]. cbn in *.
      apply andb_true_iff in Hk as [Hc Hk]. rewrite (IH Hk). now destruct c.
Qed.

Lemma visible_text_no_thought (p : Part) :
  thought p = Some true -> visible_text p = [].
Proof.
  unfold visible_text. intros ->. now destruct (text p) as [[|c t]|].
Qed.

(** C3 at a failing input: the only text of the request is a thought.  The
    streaming handler puts it in the prompt it hands to on_model_call (and
    the default policy blocks the request on it); the non-streaming handler
    hands an empty prompt and returns the response. *)
Theorem C3_stream_prompt_holds_thought :
  let sm := Integration.default_manager py_str in
  let provider := Examples.answering Examples.response_empty in
  let s :=
    Gemini.stream_generate_content sm Examples.uid provider Examples.model
      Examples.request_thought in
  let r :=
    Gemini.generate_content sm Examples.uid provider Examples.model
      Examples.request_thought in
  model_call_prompts (trace s) = ["model: capsem_block"] /\
  outcome s
  = inl (mkHTTPException 403
           "Request blocked by security policy: Detected 'capsem_block' in prompt")
  /\ model_call_prompts (trace r) = [""] /\
  outcome r = inr Examples.response_empty.
Proof. repeat split. Qed.

(** * Further properties of the sources *)

(** ** Requests that are refused before any gate *)

(** X1: a request whose x-goog-api-key header is empty is refused with a
    400 "Missing x-goog-api-key header" by both handlers, before the body is
    read: no policy is evaluated and the provider is not called. *)
Theorem missing_key_is_400
  (sm : SecurityManager.t) (uid : string -> string)
  (provider : GeminiProvider.t) (model : string) (request : Request) :
  x_goog_api_key request = "" ->
  Gemini.generate_content sm uid provider model request
  = ([], inl (mkHTTPException 400 "Missing x-goog-api-key header")) /\
  Gemini.stream_generate_content sm uid provider model request
  = ([], inl (mkHTTPException 400 "Missing x-goog-api-key header")).
Proof.
  intros Hk.
  unfold Gemini.generate_content, Gemini.generate_content_try,
    Gemini.stream_generate_content, Gemini.stream_generate_content_try,
    Gemini.extract_gemini_api_key.
  rewrite Hk. split; reflexivity.
Qed.

Lemma missing_key_is_400_witness :
  Gemini.generate_content (Integration.default_manager py_str) Examples.uid
    (Examples.answering Examples.response_empty) Examples.model
    (mkRequest "" (json Examples.request_A) "id")
  = ([], inl (mkHTTPException 400 "Missing x-goog-api-key header")).
Proof.
  apply (missing_key_is_400 (Integration.default_manager py_str) Examples.uid
           (Examples.answering Examples.response_empty) Examples.model
           (mkRequest "" (json Examples.request_A) "id")).
  reflexivity.
Defined.

(** X2: a request with a key whose body is not JSON is refused with a 400
    and nothing is evaluated; the non-streaming handler puts
    "Invalid JSON in request body: " in front of the decoder's message, the
    streaming handler returns the decoder's message as it is. *)
Theorem invalid_json_is_400
  (sm : SecurityManager.t) (uid : string -> string)
  (provider : GeminiProvider.t) (model : string) (request : Request)
  (e : string) :
  x_goog_api_key request <> "" ->
  json request = inl e ->
  Gemini.generate_content sm uid provider model request
  = ([], inl (mkHTTPException 400 ("Invalid JSON in request body: " ++ e))) /\
  Gemini.stream_generate_content sm uid provider model request
  = ([], inl (mkHTTPException 400 e)).
Proof.
  intros Hk Hj.
  unfold Gemini.generate_content, Gemini.generate_content_try,
    Gemini.stream_generate_content, Gemini.stream_generate_content_try,
    Gemini.extract_gemini_api_key.
  destruct (x_goog_api_key request) as [|k0 k]; [congruence|].
  rewrite !bind_ret, Hj. split; reflexivity.
Qed.

Lemma invalid_json_is_400_witness :
  Gemini.stream_generate_content (Integration.default_manager py_str)
    Examples.uid (Examples.answering Examples.response_empty) Examples.model
    (mkRequest "key-123" (inl "Expecting value: line 1 column 1 (char 0)") "id")
  = ([], inl (mkHTTPException 400 "Expecting value: line 1 column 1 (char 0)")).
Proof.
  apply (invalid_json_is_400 (Integration.default_manager py_str)
           Examples.uid (Examples.answering Examples.response_empty)
           Examples.model
           (mkRequest "key-123"
              (inl "Expecting value: line 1 column 1 (char 0)") "id")
           "Expecting value: line 1 column 1 (char 0)");
    [discriminate | reflexivity].
Defined.

(** ** Runs through gates *)

Section GateRunTo.

Variable sm : SecurityManager.t.
Variable pre : call -> string.

Lemma gate_run_to_ret {A : Type} (a : A) : gate_run_to sm pre [] (ret a) a.
Proof. now left. Qed.

Lemma gate_run_to_bind {A B : Type} (g1 g2 : list call) (m1 : M A)
  (f : A -> M B) (a : A) (b : B) :
  gate_run_to sm pre g1 m1 a ->
  gate_run_to sm pre g2 (f a) b ->
  gate_run_to sm pre (g1 ++ g2) (bind m1 f) b.
Proof.
  intros [(Hp & ->)|(x & c & y & d & -> & Hp & Hd & Hv & ->)] H2.
  - rewrite bind_val.
    destruct H2 as [(Hp2 & ->)|(x & c & y & d & -> & Hp2 & Hd & Hv & ->)].
    + left. cbn [fst snd]. now rewrite forallb_app, Hp, Hp2.
    + right. exists (g1 ++ x)%list, c, y, d. cbn [fst snd].
      rewrite forallb_app, Hp, Hp2, !app_assoc. auto.
  - right. rewrite bind_err. exists x, c, (y ++ g2)%list, d.
    rewrite <- app_assoc. auto.
Qed.

(** A gate, the test of its verdict, and what follows. *)
Lemma gate_run_to_gate {B : Type} (c : call) (d : Decision) (g : list call)
  (k : M B) (b : B) :
  decision_of sm c = Some d ->
  gate_run_to sm pre g k b ->
  gate_run_to sm pre (c :: g)
    (bind ([c], inr d)
       (fun decision =>
          bind (if Verdict_eqb (verdict decision) BLOCK then
                  raise (RaiseHTTP (mkHTTPException 403
                           (pre c ++ details decision)))
                else ret tt)
            (fun _ => k))) b.
Proof.
  intros Hc Hk. rewrite bind_val. cbv beta.
  destruct (Verdict_eqb (verdict d) BLOCK) eqn:Hb.
  - right. rewrite bind_raise. exists [], c, g, d.
    repeat split; auto. now apply Verdict_eqb_eq.
  - rewrite bind_ret. cbn [app].
    assert (Hpass : passes sm c = true).
    { unfold passes, blocks. now rewrite Hc, Hb. }
    destruct Hk as [(Hp & ->)|(x & c' & y & d' & -> & Hp & Hd & Hv & ->)].
    + left. cbn [fst snd forallb]. now rewrite Hpass, Hp.
    + right. exists (c :: x), c', y, d'. cbn [fst snd forallb app].
      rewrite Hpass, Hp. auto.
Qed.

(** What a run through gates tells about its calls and its end. *)
Lemma gate_run_to_passes {A : Type} (g : list call) (m : M A) (a : A) :
  gate_run_to sm pre g m a ->
  forallb (passes sm) (fst m) = true ->
  m = (g, inr a).
Proof.
  intros [(Hp & ->)|(x & c & y & d & -> & Hp & Hd & Hv & ->)] H; [reflexivity|].
  cbn [fst] in H. rewrite forallb_snoc in H.
  apply andb_true_iff in H as (_ & H).
  rewrite (blocked_not_passes sm c d Hd Hv) in H. discriminate.
Qed.

Lemma gate_run_to_returns {A : Type} (g : list call) (m : M A) (a a' : A) :
  gate_run_to sm pre g m a ->
  snd m = inr a' ->
  a' = a /\ fst m = g /\ forallb (passes sm) g = true.
Proof.
  intros [(Hp & ->)|(x & c & y & d & -> & Hp & Hd & Hv & ->)] H;
    cbn [fst snd] in *; [|discriminate].
  injection H as ->. auto.
Qed.

End GateRunTo.

(** ** The gates of the outbound loop *)

Section OutboundGates.

Variable sm : SecurityManager.t.
Variable request_id : string.
Variable agent : Agent.

Lemma scan_response_part_gates (st : list string * list string) (p : Part) :
  gate_run_to sm request_prefix (part_gates request_id agent p)
    (Gemini.scan_response_part sm request_id agent st p)
    ((fst st ++ visible_text p)%list, (snd st ++ thought_text p)%list).
Proof.
  unfold Gemini.scan_response_part, part_gates.
  assert (Hst : match text p with
                | Some (String _ _ as t) =>
                    if truthy_bool (thought p)
                    then (fst st, (snd st ++ [t])%list)
                    else ((fst st ++ [t])%list, snd st)
                | _ => st
                end
                = ((fst st ++ visible_text p)%list,
                   (snd st ++ thought_text p)%list)).
  { unfold visible_text, thought_text.
    destruct (text p) as [[|c t]|]; [| destruct (truthy_bool (thought p)) |];
      rewrite ?app_nil_r; now destruct st. }
  rewrite Hst. clear Hst.
  destruct (function_call p) as [fc|]; [|apply gate_run_to_ret].
  rewrite call_on_tool_call_eq. unfold Gemini._decide.
  apply (gate_run_to_gate sm request_prefix); [reflexivity|].
  apply gate_run_to_ret.
Qed.

Lemma scan_response_parts_gates (ps : list Part)
  (st : list string * list string) :
  gate_run_to sm request_prefix (flat_map (part_gates request_id agent) ps)
    (for_each (Gemini.scan_response_part sm request_id agent) ps st)
    ((fst st ++ flat_map visible_text ps)%list,
     (snd st ++ flat_map thought_text ps)%list).
Proof.
  revert st; induction ps as [|p ps IH]; intros st.
  - cbn [flat_map for_each]. rewrite !app_nil_r.
    destruct st. apply gate_run_to_ret.
  - cbn [flat_map for_each].
    eapply gate_run_to_bind; [apply scan_response_part_gates|].
    specialize (IH ((fst st ++ visible_text p)%list,
                    (snd st ++ thought_text p)%list)).
    cbn [fst snd] in IH. now rewrite <- !app_assoc in IH.
Qed.

Lemma scan_candidates_gates (cs : list Candidate)
  (st : list string * list string) :
  gate_run_to sm request_prefix
    (flat_map (part_gates request_id agent) (flat_map candidate_parts cs))
    (for_each (Gemini.scan_candidate sm request_id agent) cs st)
    ((fst st ++ flat_map visible_text (flat_map candidate_parts cs))%list,
     (snd st ++ flat_map thought_text (flat_map candidate_parts cs))%list).
Proof.
  revert st; induction cs as [|c cs IH]; intros st.
  - cbn [flat_map for_each]. rewrite !app_nil_r.
    destruct st. apply gate_run_to_ret.
  - cbn [flat_map for_each]. rewrite !flat_map_app, scan_candidate_eq.
    eapply gate_run_to_bind; [apply scan_response_parts_gates|].
    specialize (IH ((fst st ++ flat_map visible_text (candidate_parts c))%list,
                    (snd st ++ flat_map thought_text (candidate_parts c))%list)).
    cbn [fst snd] in IH. now rewrite <- !app_assoc in IH.
Qed.

Lemma check_response_gates (r : GenerateContentResponse) :
  gate_run_to sm request_prefix (outbound_gates request_id agent r)
    (check_response sm request_id agent r) r.
Proof.
  unfold check_response, outbound_gates, response_text, response_thoughts,
    response_parts.
  destruct (candidates r) as [[|c cs]|];
    [apply gate_run_to_ret | | apply gate_run_to_ret].
  cbn [get].
  eapply gate_run_to_bind; [apply scan_candidates_gates|].
  cbn [fst snd app].
  rewrite call_on_model_response_eq. unfold Gemini._decide.
  apply (gate_run_to_gate sm request_prefix); [reflexivity|].
  apply gate_run_to_ret.
Qed.

End OutboundGates.

(** ** The gates of the inbound loop *)

Section InboundGates.

Variable sm : SecurityManager.t.
Variable request_id : string.
Variable agent : Agent.

Lemma scan_content_gates (l : Gemini.locals) (c : ContentEntry) :
  exists g,
    Forall (carried_by request_id agent (entry_parts c)) g /\
    gate_run_to sm request_prefix g
      (Gemini.scan_content sm request_id agent l c) (scan_content_locals l c).
Proof.
  unfold Gemini.scan_content, scan_content_locals, entry_parts.
  destruct (validates c); cbn [negb];
    [|exists []; split; [constructor | apply gate_run_to_ret]].
  destruct (parts (entry c)) as [[|p ps]|]; cbn [get];
    try (exists []; split; [constructor | apply gate_run_to_ret]).
  change (fold_left Gemini.scan_part ps (Gemini.scan_part l p))
    with (fold_left Gemini.scan_part (p :: ps) l).
  rewrite scan_part_fold. cbn [Gemini.part].
  destruct (last_map_Some (p :: ps) (Gemini.part l)) as (q & -> & Hq);
    [discriminate|].
  destruct (function_response q) as [fr|] eqn:Hfr;
    [|exists []; split; [constructor | apply gate_run_to_ret]].
  exists [response_gate request_id agent fr]. split.
  - constructor; [|constructor]. now exists q, fr.
  - rewrite call_on_tool_response_eq. unfold Gemini._decide.
    apply (gate_run_to_gate sm request_prefix); [reflexivity|].
    apply gate_run_to_ret.
Qed.

Lemma scan_contents_gates (cs : list ContentEntry) (l : Gemini.locals) :
  exists g,
    Forall (carried_by request_id agent (flat_map entry_parts cs)) g /\
    gate_run_to sm request_prefix g
      (for_each (Gemini.scan_content sm request_id agent) cs l)
      (fold_left scan_content_locals cs l).
Proof.
  revert l; induction cs as [|c cs IH]; intros l.
  - exists []. split; [constructor | apply gate_run_to_ret].
  - destruct (scan_content_gates l c) as (g1 & Hg1 & Hr1).
    destruct (IH (scan_content_locals l c)) as (g2 & Hg2 & Hr2).
    exists (g1 ++ g2)%list. split.
    + apply Forall_app. split.
      * eapply Forall_impl; [|exact Hg1].
        intros x (p & fr & Hp & Hfr & ->). exists p, fr.
        cbn [flat_map]. split; [apply in_or_app; now left | auto].
      * eapply Forall_impl; [|exact Hg2].
        intros x (p & fr & Hp & Hfr & ->). exists p, fr.
        cbn [flat_map]. split; [apply in_or_app; now right | auto].
    + cbn [for_each fold_left]. eapply gate_run_to_bind; eassumption.
Qed.

End InboundGates.

Lemma carried_not_provider rid agent ps (g : list call) :
  Forall (carried_by rid agent ps) g -> filter is_provider_call g = [].
Proof.
  induction 1 as [|c g (p & fr & _ & _ & ->) _ IH]; [reflexivity|].
  cbn. exact IH.
Qed.

Lemma outbound_not_provider rid agent r :
  filter is_provider_call (outbound_gates rid agent r) = [].
Proof.
  unfold outbound_gates.
  assert (H : forall ps,
            filter is_provider_call (flat_map (part_gates rid agent) ps) = []).
  { induction ps as [|p ps IH]; [reflexivity|]. cbn [flat_map].
    rewrite filter_app, IH, app_nil_r. unfold part_gates.
    now destruct (function_call p). }
  destruct (candidates r) as [[|c cs]|]; try reflexivity.
  now rewrite filter_app, H.
Qed.

(** ** A run of [generate_content], from the body to the response *)

(** Once the key and the body are read, the handler runs the inbound gates
    and the on_model_call gate in order and stops at the first that blocks;
    if all pass it goes on to the provider. *)
Lemma preflight_run
  (sm : SecurityManager.t) (uid : string -> string)
  (provider : GeminiProvider.t) (model : string) (request : Request)
  (body : Body) :
  x_goog_api_key request <> "" ->
  json request = inr body ->
  let rid := uuid4_hex request in
  let key := x_goog_api_key request in
  let agent := request_agent uid key body in
  let m := Gemini.generate_content_try sm uid provider model request in
  exists g,
    Forall (carried_by rid agent (body_parts body)) g /\
    let gates := (g ++ [model_gate uid model request body])%list in
    ((exists g1 c g2 d,
        gates = (g1 ++ c :: g2)%list /\ forallb (passes sm) g1 = true /\
        decision_of sm c = Some d /\ verdict d = BLOCK /\
        m = ((g1 ++ [c])%list,
             inl (RaiseHTTP
                    (mkHTTPException 403 (request_blocked ++ details d)))))
     \/ (forallb (passes sm) gates = true /\
         let k := forward sm provider model rid agent body key in
         m = ((gates ++ fst k)%list, snd k))).
Proof.
  intros Hkey Hjson rid key agent m. subst m key.
  unfold Gemini.generate_content_try, Gemini.extract_gemini_api_key.
  unfold model_gate. fold rid.
  destruct (x_goog_api_key request) as [|k0 k] eqn:Ek; [congruence|].
  rewrite bind_ret, Hjson, bind_ret.
  fold (request_agent uid (String k0 k) body). fold agent.
  destruct (scan_contents_gates sm rid agent (get (body_contents body) [])
              Gemini.no_locals) as (g & Hg & Hrun).
  exists g. split; [exact Hg|]. cbv zeta.
  set (gate := CallOnModelCall rid agent model "" (visible_prompt body) []).
  destruct Hrun as [(Hp & ->)|(x & c & y & d & -> & Hp & Hd & Hv & ->)].
  - rewrite bind_val. cbv beta.
    rewrite scan_content_locals_prompt.
    cbn [Gemini.prompt_parts Gemini.no_locals app]. fold (visible_prompt body).
    rewrite call_on_model_call_eq, bind_val. cbv beta. fold gate.
    destruct (blocks sm gate) eqn:Hb'; pose proof Hb' as Hb;
      unfold blocks in Hb; cbn in Hb.
    + left. exists g, gate, []. eexists. split; [reflexivity|].
      split; [exact Hp|]. split; [reflexivity|].
      split; [now apply Verdict_eqb_eq|].
      rewrite (decide_block _ _ _ Hb), bind_err. reflexivity.
    + right. rewrite forallb_snoc, Hp. split.
      * unfold passes. now rewrite Hb'.
      * rewrite (decide_pass _ _ _ Hb), bind_ret. cbn [fst snd app].
        now rewrite <- app_assoc.
  - left. rewrite bind_err. exists x, c, (y ++ [gate])%list, d.
    rewrite <- app_assoc. auto.
Qed.

(** What [forward] does with each answer of the provider. *)
Lemma forward_run
  (sm : SecurityManager.t) (provider : GeminiProvider.t)
  (model rid : string) (agent : Agent) (body : Body) (key : string) :
  let k := forward sm provider model rid agent body key in
  let call := CallGenerateContent model body key in
  match GeminiProvider.generate_content provider model body key with
  | inl e => k = ([call], inl e)
  | inr None =>
      k = ([call],
           inl (RaiseHTTP
                  (mkHTTPException 502 "Invalid response from provider")))
  | inr (Some r) =>
      let chk := check_response sm rid agent r in
      k = (call :: fst chk, snd chk)
  end.
Proof.
  unfold forward. rewrite bind_emit.
  destruct (GeminiProvider.generate_content provider model body key)
    as [e|[r|]]; try reflexivity.
  now rewrite !bind_ret.
Qed.

(** X3: once the key and the body are read, the non-streaming handler
    returns a response exactly when no gate it evaluated blocks and the
    provider answered with that (valid) response; a CONFIRM verdict lets the
    request through like ALLOW.  Then the provider was called exactly once,
    after the inbound gates and on_model_call and before the gates of the
    response. *)
Theorem response_returned_iff
  (sm : SecurityManager.t) (uid : string -> string)
  (provider : GeminiProvider.t) (model : string) (request : Request)
  (body : Body) (response : GenerateContentResponse) :
  x_goog_api_key request <> "" ->
  json request = inr body ->
  let r := Gemini.generate_content sm uid provider model request in
  let key := x_goog_api_key request in
  let agent := request_agent uid key body in
  let call := CallGenerateContent model body key in
  (outcome r = inr response <->
   forallb (passes sm) (trace r) = true /\
   GeminiProvider.generate_content provider model body key
   = inr (Some response)) /\
  (outcome r = inr response ->
   provider_calls (trace r) = [call] /\
   exists g,
     Forall (carried_by (uuid4_hex request) agent (body_parts body)) g /\
     trace r
     = (g ++ model_gate uid model request body :: call
          :: outbound_gates (uuid4_hex request) agent response)%list).
Proof.
  intros Hkey Hjson r key agent call. subst r.
  rewrite generate_content_trace, generate_content_outcome.
  pose proof (preflight_run sm uid provider model request body Hkey Hjson) as H.
  cbv zeta in H. fold key agent in H.
  destruct H as (g & Hg & [(g1 & c & g2 & d & _ & Hp & Hd & Hv & Hm)
                          |(Hp & Hm)]); rewrite Hm; cbn [fst snd].
  { split; [split|]; try discriminate.
    intros (Hpass & _). rewrite forallb_snoc in Hpass.
    apply andb_true_iff in Hpass as (_ & Hc).
    rewrite (blocked_not_passes sm c d Hd Hv) in Hc. discriminate. }
  pose proof (forward_run sm provider model (uuid4_hex request) agent body key)
    as Hfw.
  cbv zeta in Hfw. fold call in Hfw.
  destruct (GeminiProvider.generate_content provider model body key)
    as [e|[resp|]] eqn:Hprov; rewrite Hfw; cbn [fst snd].
  - split; [split|]; try discriminate. intros (_ & H). discriminate.
  - pose proof (check_response_gates sm (uuid4_hex request) agent resp)
      as Hchk.
    destruct (check_response sm (uuid4_hex request) agent resp)
      as [t res] eqn:Echk.
    cbn [fst snd].
    assert (Hret : res = inr response ->
                   resp = response /\
                   t = outbound_gates (uuid4_hex request) agent response /\
                   forallb (passes sm) t = true).
    { intros ->.
      destruct (gate_run_to_returns _ _ _ _ _ _ Hchk eq_refl)
        as (-> & Ht & Hpass).
      cbn [fst] in Ht. subst t. auto. }
    split; [split|].
    + intros Hres. destruct res as [e|x]; [discriminate|].
      injection Hres as ->. destruct (Hret eq_refl) as (-> & -> & Hpass).
      split; [|reflexivity].
      rewrite forallb_app, Hp. cbn [forallb andb].
      replace (passes sm call) with true by reflexivity. exact Hpass.
    + intros (Hpass & Heq). injection Heq as ->.
      rewrite !forallb_app in Hpass. cbn [forallb] in Hpass.
      apply andb_true_iff in Hpass as (_ & (_ & Hpass)%andb_true_iff).
      pose proof (gate_run_to_passes _ _ _ _ _ Hchk Hpass) as Hm'.
      now injection Hm' as _ ->.
    + intros Hres. destruct res as [e|x]; [discriminate|].
      injection Hres as ->. destruct (Hret eq_refl) as (-> & -> & Hpass).
      split.
      * unfold provider_calls. rewrite !filter_app.
        rewrite (carried_not_provider _ _ _ _ Hg).
        cbn [filter is_provider_call model_gate app].
        now rewrite outbound_not_provider.
      * exists g. split; [exact Hg|]. now rewrite <- app_assoc.
  - split; [split|]; try discriminate. intros (_ & H). discriminate.
Qed.

Lemma response_returned_iff_witness :
  let sm := Integration.default_manager py_str in
  let r :=
    Gemini.generate_content sm Examples.uid
      (Examples.answering response_mixed) Examples.model
      Examples.request_weather in
  outcome r = inr response_mixed /\
  forallb (passes sm) (trace r) = true /\
  length (provider_calls (trace r)) = 1.
Proof.
  pose proof (response_returned_iff (Integration.default_manager py_str)
                Examples.uid (Examples.answering response_mixed)
                Examples.model Examples.request_weather
                (mkBody
                   (Some [Examples.turn "user"
                            [Examples.text_part
                               "what is the weather in paris?"]])
                   (Some []))
                response_mixed ltac:(discriminate) eq_refl) as (Hiff & Hcalls).
  cbv zeta in Hiff, Hcalls.
  assert (Hout : outcome
                   (Gemini.generate_content
                      (Integration.default_manager py_str) Examples.uid
                      (Examples.answering response_mixed) Examples.model
                      Examples.request_weather) = inr response_mixed).
  { apply Hiff. split; reflexivity. }
  split; [exact Hout|]. split; [reflexivity|].
  destruct (Hcalls Hout) as (-> & _). reflexivity.
Defined.

(** X4: when the provider is called and does not answer with a valid
    response, the non-streaming handler stops there, the call to the
    provider being its last call: an HTTPStatusError gives the provider's
    status with "Upstream provider error", any other HTTPError a 502
    "Bad gateway", a ValueError a 400 with its message, any other exception
    a 500 "Internal server error", an HTTPException is passed on, and an
    answer that is not a valid response gives a 502
    "Invalid response from provider". *)
Theorem provider_failure_is_mapped
  (sm : SecurityManager.t) (uid : string -> string)
  (provider : GeminiProvider.t) (model : string) (request : Request)
  (m : string) (b : Body) (k : string) :
  let r := Gemini.generate_content sm uid provider model request in
  In (CallGenerateContent m b k) (trace r) ->
  (forall resp,
     GeminiProvider.generate_content provider m b k <> inr (Some resp)) ->
  (exists t, trace r = (t ++ [CallGenerateContent m b k])%list) /\
  outcome r
  = inl match GeminiProvider.generate_content provider m b k with
        | inl (RaiseHTTP h) => h
        | inl (ValueError msg) => mkHTTPException 400 msg
        | inl (HTTPStatusError code) =>
            mkHTTPException code "Upstream provider error"
        | inl HTTPError => mkHTTPException 502 "Bad gateway"
        | inl OtherException => mkHTTPException 500 "Internal server error"
        | inr _ => mkHTTPException 502 "Invalid response from provider"
        end.
Proof.
  intros r Hcall Hbad. subst r.
  destruct (provider_called sm uid provider model request m b k Hcall)
    as (-> & Hj & Hk & H).
  cbv zeta in H. destruct H as (t & _ & _ & Htry).
  rewrite generate_content_trace, generate_content_outcome, Htry.
  pose proof (forward_run sm provider model (uuid4_hex request)
                (request_agent uid k b) b k) as Hfw.
  cbv zeta in Hfw.
  destruct (GeminiProvider.generate_content provider model b k)
    as [e|[resp|]] eqn:Hprov; rewrite Hfw; cbn [fst snd].
  - split; [eexists (t ++ [_])%list; now rewrite <- app_assoc|].
    now destruct e.
  - now elim (Hbad resp).
  - split; [eexists (t ++ [_])%list; now rewrite <- app_assoc|].
    reflexivity.
Qed.

Lemma provider_failure_is_mapped_witness :
  let r :=
    Gemini.generate_content (Integration.default_manager py_str) Examples.uid
      (failing (HTTPStatusError 429)) Examples.model Examples.request_weather in
  outcome r = inl (mkHTTPException 429 "Upstream provider error").
Proof.
  apply (provider_failure_is_mapped (Integration.default_manager py_str)
           Examples.uid (failing (HTTPStatusError 429)) Examples.model
           Examples.request_weather Examples.model
           (mkBody
              (Some [Examples.turn "user"
                       [Examples.text_part "what is the weather in paris?"]])
              (Some []))
           "key-123").
  - vm_compute. right. left. reflexivity.
  - discriminate.
Defined.

(** X5: the checks on a response run in a fixed order: on_tool_call for
    each function-call part, in the order of the candidates and their parts,
    then on_model_response on the visible texts and on the thoughts of the
    response, each joined by new lines.  The run stops at the first of
    these gates that blocks, with its 403; if none blocks the response is
    returned. *)
Theorem response_checks_in_order
  (sm : SecurityManager.t) (uid : string -> string)
  (provider : GeminiProvider.t) (model : string) (request : Request)
  (m : string) (b : Body) (k : string) (response : GenerateContentResponse) :
  let r := Gemini.generate_content sm uid provider model request in
  let gates :=
    outbound_gates (uuid4_hex request) (request_agent uid k b) response in
  In (CallGenerateContent m b k) (trace r) ->
  GeminiProvider.generate_content provider m b k = inr (Some response) ->
  exists t,
    forallb (passes sm) t = true /\
    ((forallb (passes sm) gates = true /\
      trace r = (t ++ CallGenerateContent m b k :: gates)%list /\
      outcome r = inr response)
     \/ (exists g1 c g2 d,
           gates = (g1 ++ c :: g2)%list /\ forallb (passes sm) g1 = true /\
           decision_of sm c = Some d /\ verdict d = BLOCK /\
           trace r = (t ++ CallGenerateContent m b k :: g1 ++ [c])%list /\
           outcome r
           = inl (mkHTTPException 403 (request_blocked ++ details d)))).
Proof.
  intros r gates Hcall Hresp. subst r gates.
  destruct (provider_called sm uid provider model request m b k Hcall)
    as (-> & Hj & Hk & H).
  cbv zeta in H. destruct H as (t0 & _ & _ & _).
  assert (Hkey : x_goog_api_key request <> "").
  { intros He. rewrite generate_content_trace in Hcall.
    unfold Gemini.generate_content_try, Gemini.extract_gemini_api_key in Hcall.
    now rewrite He in Hcall. }
  pose proof (preflight_run sm uid provider model request b Hkey Hj) as H.
  cbv zeta in H. rewrite <- Hk in H.
  rewrite generate_content_trace, generate_content_outcome.
  rewrite generate_content_trace in Hcall.
  destruct H as (g & Hg & [(g1 & c & g2 & d & Heq & Hp & Hd & Hv & Hm)
                          |(Hp & Hm)]); rewrite Hm in *; cbn [fst snd] in *.
  { exfalso.
    assert (Hin : In (CallGenerateContent model b k)
                    (g ++ [model_gate uid model request b])).
    { rewrite Heq. apply in_app_or in Hcall as [Hc|[<-|[]]].
      - apply in_or_app. now left.
      - apply in_or_app. right. now left. }
    apply in_app_or in Hin as [Hin|[Hin|[]]]; [|discriminate].
    rewrite Forall_forall in Hg. destruct (Hg _ Hin) as (? & ? & _ & _ & He).
    discriminate. }
  pose proof (forward_run sm provider model (uuid4_hex request)
                (request_agent uid k b) b k) as Hfw.
  cbv zeta in Hfw. rewrite Hresp in Hfw. rewrite Hfw. cbn [fst snd].
  exists (g ++ [model_gate uid model request b])%list.
  split; [exact Hp|].
  destruct (check_response_gates sm (uuid4_hex request)
              (request_agent uid k b) response)
    as [(Hpass & ->)|(g1 & c & g2 & d & Heq & Hp1 & Hd & Hv & ->)];
    cbn [fst snd].
  - left. auto.
  - right. exists g1, c, g2, d. auto 10.
Qed.

Lemma response_checks_in_order_witness :
  let sm := Integration.default_manager py_str in
  let r :=
    Gemini.generate_content sm Examples.uid
      (Examples.answering response_mixed) Examples.model
      Examples.request_weather in
  exists t i a,
    trace r
    = (t ++ [CallOnModelResponse i a "let me check"
               "the user wants the weather" []])%list.
Proof.
  destruct (response_checks_in_order (Integration.default_manager py_str)
              Examples.uid (Examples.answering response_mixed)
              Examples.model Examples.request_weather Examples.model
              (mkBody
                 (Some [Examples.turn "user"
                          [Examples.text_part
                             "what is the weather in paris?"]])
                 (Some []))
              "key-123" response_mixed)
    as (t & _ & [(_ & Ht & _)|(g1 & c & g2 & d & _ & _ & Hd & Hv & Ht & Hout)]).
  - vm_compute. right. left. reflexivity.
  - reflexivity.
  - eexists (t ++ [_; _])%list, _, _. rewrite Ht. cbn.
    rewrite <- app_assoc. reflexivity.
  - exfalso. vm_compute in Hout. discriminate.
Defined.

(** ** Searching a joined text *)

Lemma prefix_sep (c : ascii) (n a s : string) :
  occurs c n = false -> prefix n (a ++ String c s) = prefix n a.
Proof.
  revert a; induction n as [|d n IH]; intros a Hc.
  - now destruct a.
  - cbn [occurs] in Hc. apply orb_false_iff in Hc as (Hd & Hn).
    destruct a as [|x a]; cbn [append prefix].
    + destruct (ascii_dec d c) as [->|]; [|reflexivity].
      now rewrite Ascii.eqb_refl in Hd.
    + destruct (ascii_dec d x); [now apply IH | reflexivity].
Qed.

Lemma contains_empty (n : string) : n <> "" -> contains n "" = false.
Proof. destruct n; [congruence | reflexivity]. Qed.

Lemma contains_sep (c : ascii) (n a s : string) :
  occurs c n = false ->
  contains n (a ++ String c s) = contains n a || contains n s.
Proof.
  intros Hc. induction a as [|x a IH].
  - cbn [append]. pose proof (prefix_sep c n "" s Hc) as H.
    cbn [append] in H.
    rewrite (contains_unfold n (String c s)), (contains_unfold n ""), H.
    now destruct (prefix n "").
  - change (String x a ++ String c s) with (String x (a ++ String c s)).
    rewrite (contains_unfold n (String x (a ++ String c s))).
    rewrite (contains_unfold n (String x a)).
    change (String x (a ++ String c s)) with (String x a ++ String c s).
    rewrite (prefix_sep c n (String x a) s Hc), IH.
    now destruct (prefix n (String x a)).
Qed.

Lemma contains_seps (sep n a b : string) :
  apart sep n = true -> n <> "" -> sep <> "" ->
  contains n (a ++ sep ++ b) = contains n a || contains n b.
Proof.
  intros Hsep Hn Hne.
  assert (Htail : forall s, apart s n = true ->
                            contains n (s ++ b) = contains n b).
  { induction s as [|c s IH]; [reflexivity|]. cbn [apart].
    intros (Hc & Hs)%andb_true_iff. apply negb_true_iff in Hc.
    change (String c s ++ b) with ("" ++ String c (s ++ b)).
    rewrite (contains_sep c n "" (s ++ b) Hc), (contains_empty n Hn).
    now apply IH. }
  destruct sep as [|c sep]; [congruence|]. cbn [apart] in Hsep.
  apply andb_true_iff in Hsep as (Hc & Hs). apply negb_true_iff in Hc.
  change (a ++ String c sep ++ b) with (a ++ String c (sep ++ b)).
  now rewrite (contains_sep c n a (sep ++ b) Hc), (Htail sep Hs).
Qed.

(** A needle that shares no character with the separator is in the joined
    text exactly when it is in one of the pieces. *)
Lemma contains_join (sep n : string) (l : list string) :
  apart sep n = true -> n <> "" -> sep <> "" ->
  contains n (join sep l) = existsb (contains n) l.
Proof.
  intros Hsep Hn Hne. unfold join. induction l as [|x l IH].
  - now apply contains_empty.
  - destruct l as [|y l].
    + cbn. now rewrite orb_false_r.
    + change (String.concat sep (x :: y :: l))
        with (x ++ sep ++ String.concat sep (y :: l)).
      rewrite (contains_seps sep n x _ Hsep Hn Hne), IH. reflexivity.
Qed.

Lemma lower_join (sep : string) (l : list string) :
  lower (join sep l) = join (lower sep) (map lower l).
Proof.
  unfold join. induction l as [|x l IH]; [reflexivity|].
  destruct l as [|y l]; [reflexivity|].
  change (String.concat sep (x :: y :: l)) with (x ++ sep ++ String.concat sep (y :: l)).
  change (String.concat (lower sep) (map lower (x :: y :: l)))
    with (lower x ++ lower sep ++ String.concat (lower sep) (map lower (y :: l))).
  now rewrite !lower_app, IH.
Qed.

(** The trigger is in a text of several lines exactly when it is in one
    of the lines. *)
Lemma holds_trigger_lines (l : list string) :
  holds_trigger (join newline l) = existsb holds_trigger l.
Proof.
  unfold holds_trigger. rewrite lower_join.
  rewrite contains_join; [|reflexivity|discriminate|discriminate].
  induction l as [|x l IH]; [reflexivity|]. cbn [map existsb].
  now rewrite IH.
Qed.

(** ** What the default policy blocks *)

Lemma default_blocks_prompt str i a m s p md :
  blocks (Integration.default_manager str) (CallOnModelCall i a m s p md)
  = holds_trigger p.
Proof.
  unfold blocks. cbn [decision_of]. rewrite default_on_model_call.
  unfold DebugPolicy.on_model_call, holds_trigger.
  change "capsem_block" with DebugPolicy.DEBUG_TRIGGER at 1.
  now destruct (contains _ _).
Qed.

Lemma default_prompt_details str i a m s p md d :
  decision_of (Integration.default_manager str) (CallOnModelCall i a m s p md)
  = Some d ->
  verdict d = BLOCK -> details d = "Detected 'capsem_block' in prompt".
Proof.
  cbn [decision_of]. rewrite default_on_model_call.
  unfold DebugPolicy.on_model_call.
  destruct (contains _ _); intros [= <-] Hv; [reflexivity | discriminate Hv].
Qed.

Lemma holds_trigger_visible (body : Body) :
  holds_trigger (visible_prompt body)
  = existsb holds_trigger (flat_map visible_text (body_parts body)).
Proof. unfold visible_prompt. fold (body_parts body). apply holds_trigger_lines. Qed.

Lemma carried_are_responses rid agent ps (g : list call) :
  Forall (carried_by rid agent ps) g -> forallb is_tool_response_call g = true.
Proof.
  induction 1 as [|c g (p & fr & _ & _ & ->) _ IH]; [reflexivity | exact IH].
Qed.

Lemma clean_carried_pass str rid agent ps (g : list call) :
  responses_clean str ps = true ->
  Forall (carried_by rid agent ps) g ->
  forallb (passes (Integration.default_manager str)) g = true.
Proof.
  intros Hr Hg. apply forallb_forall. intros c Hin.
  rewrite Forall_forall in Hg.
  destruct (Hg c Hin) as (p & fr & Hp & Hfr & ->).
  unfold responses_clean in Hr. rewrite forallb_forall in Hr.
  specialize (Hr p Hp). rewrite Hfr in Hr.
  unfold passes, blocks, response_gate. cbn [decision_of].
  rewrite default_on_tool_response. unfold DebugPolicy.on_tool_response.
  change "capsem_block" with DebugPolicy.DEBUG_TRIGGER at 1.
  unfold holds_trigger in Hr. apply negb_true_iff in Hr.
  now rewrite Hr.
Qed.

(** X6: with the default policy, once the key and the body are read, the
    only on_model_call the non-streaming handler evaluates in a run is the
    one on the visible prompt of the request, and it blocks exactly when
    one of the visible texts of the request holds the trigger, in any letter
    case: the trigger is never found across two texts.  When no function
    response carried by the request holds the trigger, the handler gets to
    that gate after the on_tool_response gates: if a visible text holds the
    trigger the run ends there, in the 403 that says so, and if none does
    the next call is the one to the provider. *)
Theorem prompt_blocked_iff_some_text
  (str : pyval -> string) (uid : string -> string)
  (provider : GeminiProvider.t) (model : string) (request : Request)
  (body : Body) :
  x_goog_api_key request <> "" ->
  json request = inr body ->
  let sm := Integration.default_manager str in
  let r := Gemini.generate_content sm uid provider model request in
  let gate := model_gate uid model request body in
  let hit := existsb holds_trigger (flat_map visible_text (body_parts body)) in
  (forall c,
     In c (trace r) -> is_model_call c = true ->
     c = gate /\ blocks sm c = hit) /\
  (responses_clean str (body_parts body) = true ->
   exists t,
     forallb is_tool_response_call t = true /\
     (hit = true ->
      trace r = (t ++ [gate])%list /\
      outcome r
      = inl (mkHTTPException 403
               "Request blocked by security policy: Detected 'capsem_block' in prompt")) /\
     (hit = false ->
      exists t',
        trace r
        = (t ++ gate
             :: CallGenerateContent model body (x_goog_api_key request)
             :: t')%list)).
Proof.
  intros Hkey Hj sm r gate hit. subst r.
  rewrite generate_content_trace, generate_content_outcome.
  assert (Hgate : blocks sm gate = hit).
  { unfold gate, model_gate, sm. rewrite default_blocks_prompt.
    apply holds_trigger_visible. }
  pose proof (preflight_run sm uid provider model request body Hkey Hj) as H.
  cbv zeta in H. destruct H as (g & Hg & H). fold gate in H.
  pose proof (carried_are_responses _ _ _ _ Hg) as Hresp.
  assert (Hnot : forall c, In c g -> is_model_call c = true -> False).
  { intros c Hin Hc. rewrite forallb_forall in Hresp. apply Hresp in Hin.
    destruct c; discriminate. }
  destruct (forward_trace sm provider model (uuid4_hex request)
              (request_agent uid (x_goog_api_key request) body) body
              (x_goog_api_key request)) as (t' & Hfw & Hkinds).
  destruct H as [(g1 & c0 & g2 & d & Hs & Hp & Hd & Hv & Hm)|(Hp & Hm)];
    rewrite Hm; cbn [fst snd].
  - split.
    + intros c Hin Hc.
      assert (Hin' : In c (g ++ [gate])).
      { rewrite Hs. apply in_app_or in Hin as [Hin|[<-|[]]];
          apply in_or_app; [now left | right; now left]. }
      apply in_app_or in Hin' as [Hin'|[<-|[]]].
      * destruct (Hnot c Hin' Hc).
      * now split.
    + intros Hclean. exists g. split; [exact Hresp|].
      pose proof (clean_carried_pass str _ _ _ _ Hclean Hg) as Hpass.
      symmetry in Hs. apply split_last in Hs as [Hin|(-> & -> & ->)].
      { rewrite forallb_forall in Hpass. apply Hpass in Hin.
        fold sm in Hin.
        rewrite (blocked_not_passes sm c0 d Hd Hv) in Hin. discriminate. }
      assert (Hhit : hit = true).
      { rewrite <- Hgate. unfold blocks. now rewrite Hd, Hv. }
      split; [|rewrite Hhit; discriminate].
      intros _. split; [reflexivity|].
      unfold gate, model_gate in Hd.
      now rewrite (default_prompt_details _ _ _ _ _ _ _ _ Hd Hv).
  - rewrite Hfw. split.
    + intros c Hin Hc.
      apply in_app_or in Hin as [Hin|[<-|Hin]].
      * apply in_app_or in Hin as [Hin|[<-|[]]].
        -- destruct (Hnot c Hin Hc).
        -- now split.
      * discriminate.
      * rewrite forallb_forall in Hkinds. apply Hkinds in Hin.
        destruct c; discriminate.
    + intros _. exists g. split; [exact Hresp|].
      rewrite forallb_snoc in Hp. apply andb_true_iff in Hp as (_ & Hp).
      assert (Hhit : hit = false).
      { rewrite <- Hgate. unfold passes in Hp. now apply negb_true_iff. }
      split; [rewrite Hhit; discriminate|].
      intros _. exists t'. now rewrite <- app_assoc.
Qed.

Lemma prompt_blocked_iff_some_text_witness :
  let sm := Integration.default_manager py_str in
  let provider := Examples.answering Examples.response_empty in
  let rA :=
    Gemini.generate_content sm Examples.uid provider Examples.model
      Examples.request_A in
  let rH :=
    Gemini.generate_content sm Examples.uid provider Examples.model
      Examples.request_hello in
  (model_call_prompts (trace rA) = ["what's the weather? capsem_block"] /\
   forallb (blocks sm) (filter is_model_call (trace rA)) = true /\
   forallb (fun x => negb (is_provider_call x)) (trace rA) = true /\
   outcome rA
   = inl (mkHTTPException 403
            "Request blocked by security policy: Detected 'capsem_block' in prompt")) /\
  (exists t t',
     forallb is_tool_response_call t = true /\
     trace rH
     = (t ++ CallOnModelCall (uuid4_hex Examples.request_hello)
               (request_agent Examples.uid "key-123"
                  (mkBody
                     (Some [Examples.turn "user" [Examples.text_part "hello"]])
                     (Some [])))
               Examples.model "" "hello" []
          :: CallGenerateContent Examples.model
               (mkBody
                  (Some [Examples.turn "user" [Examples.text_part "hello"]])
                  (Some []))
               "key-123"
          :: t')%list).
Proof.
  split.
  - destruct (prompt_blocked_iff_some_text py_str Examples.uid
                (Examples.answering Examples.response_empty) Examples.model
                Examples.request_A
                (mkBody
                   (Some [Examples.turn "user"
                            [Examples.text_part
                               "what's the weather? capsem_block"]])
                   (Some []))
                ltac:(discriminate) eq_refl) as (_ & H).
    destruct (H eq_refl) as (t & Ht & Hhit & _).
    destruct (Hhit eq_refl) as (Htr & Hout).
    rewrite Hout, Htr. repeat split.
    + rewrite model_call_prompts_app.
      rewrite (model_call_prompts_none t); [reflexivity|].
      clear -Ht. induction t as [|c t IH]; [reflexivity|]. cbn in *.
      apply andb_true_iff in Ht as [Hc Ht]. rewrite (IH Ht). now destruct c.
    + rewrite filter_app. cbn. rewrite forallb_app. cbn.
      rewrite andb_true_r.
      clear -Ht. induction t as [|c t IH]; [reflexivity|]. cbn in *.
      apply andb_true_iff in Ht as [Hc Ht]. destruct c; try discriminate.
      cbn. exact (IH Ht).
    + rewrite forallb_app. cbn. rewrite andb_true_r.
      clear -Ht. induction t as [|c t IH]; [reflexivity|]. cbn in *.
      apply andb_true_iff in Ht as [Hc Ht]. rewrite (IH Ht). now destruct c.
  - destruct (prompt_blocked_iff_some_text py_str Examples.uid
                (Examples.answering Examples.response_empty) Examples.model
                Examples.request_hello
                (mkBody
                   (Some [Examples.turn "user" [Examples.text_part "hello"]])
                   (Some []))
                ltac:(discriminate) eq_refl) as (_ & H).
    destruct (H eq_refl) as (t & Ht & _ & Hpass).
    destruct (Hpass eq_refl) as (t' & Htr).
    exists t, t'. split; [exact Ht | exact Htr].
Defined.

Lemma holds_trigger_pair (k v : string) :
  holds_trigger (k ++ "=" ++ v) = holds_trigger k || holds_trigger v.
Proof.
  unfold holds_trigger. rewrite !lower_app.
  change (lower "=") with "=".
  apply contains_seps; [reflexivity | discriminate | discriminate].
Qed.

(** X7: DebugPolicy.on_tool_call blocks exactly when the name of the tool,
    the key of an argument, or the printed value of an argument holds the
    trigger, in any letter case; when the name holds it the details name
    the tool name, otherwise the arguments. *)
Theorem tool_call_blocked_iff
  (str : pyval -> string) (i : string) (a : Agent) (t : Tool)
  (args : pydict) :
  let in_args :=
    existsb (fun kv => holds_trigger (fst kv) || holds_trigger (str (snd kv)))
      args in
  DebugPolicy.on_tool_call str i a t args =
  if holds_trigger (tool_name t) then
    mkDecision BLOCK POLICY_VIOLATION "Detected 'capsem_block' in tool name"
  else if in_args then
    mkDecision BLOCK POLICY_VIOLATION
      "Detected 'capsem_block' in tool arguments"
  else DEFAULT_SAFE_DECISION.
Proof.
  intros in_args. subst in_args. unfold DebugPolicy.on_tool_call.
  fold (holds_trigger (tool_name t)).
  fold (holds_trigger (DebugPolicy.args_str str args)).
  assert (Hargs : holds_trigger (DebugPolicy.args_str str args)
                  = existsb (fun kv => holds_trigger (fst kv)
                                       || holds_trigger (str (snd kv))) args).
  { unfold DebugPolicy.args_str, holds_trigger at 1.
    rewrite lower_join.
    rewrite contains_join; [|reflexivity|discriminate|discriminate].
    induction args as [|kv args IH]; [reflexivity|].
    cbn [map existsb]. rewrite IH. f_equal.
    apply holds_trigger_pair. }
  rewrite Hargs. reflexivity.
Qed.

(** X8: the match is blind to letter case: a text that holds the trigger
    in any mix of upper and lower case is blocked as a prompt, as a model
    response and as a tool name. *)
Theorem any_case_trigger_blocks
  (str : pyval -> string) (i : string) (ag : Agent) (t a b : string) :
  lower t = DebugPolicy.DEBUG_TRIGGER ->
  (forall m s md,
     verdict (DebugPolicy.on_model_call i ag m s (a ++ t ++ b) md) = BLOCK) /\
  (forall th md,
     verdict (DebugPolicy.on_model_response i ag (a ++ t ++ b) th md) = BLOCK)
  /\ (forall d ps args,
        verdict (DebugPolicy.on_tool_call str i ag
                   (mkTool (a ++ t ++ b) d ps) args) = BLOCK).
Proof.
  intros Ht.
  assert (H : contains DebugPolicy.DEBUG_TRIGGER (lower (a ++ t ++ b)) = true).
  { rewrite !lower_app, Ht. apply contains_app. }
  repeat split; intros.
  - unfold DebugPolicy.on_model_call.
    change "capsem_block" with DebugPolicy.DEBUG_TRIGGER at 1. now rewrite H.
  - unfold DebugPolicy.on_model_response.
    change "capsem_block" with DebugPolicy.DEBUG_TRIGGER at 1. now rewrite H.
  - unfold DebugPolicy.on_tool_call. cbn [tool_name]. now rewrite H.
Qed.

Lemma any_case_trigger_blocks_witness :
  verdict
    (DebugPolicy.on_model_call "id" (mkAgent "proxy-user-x" "" [])
       "gemini-2.5-flash" "" "please CapSem_BLOCK this" []) = BLOCK.
Proof.
  apply (any_case_trigger_blocks py_str "id" (mkAgent "proxy-user-x" "" [])
           "CapSem_BLOCK" "please " " this").
  reflexivity.
Defined.

(** ** Requests that go through *)

Lemma passes_all_split sm (g1 g2 : list call) (c : call) (d : Decision) :
  forallb (passes sm) (g1 ++ c :: g2) = true ->
  decision_of sm c = Some d -> verdict d = BLOCK -> False.
Proof.
  rewrite forallb_app. cbn [forallb].
  intros (_ & (Hc & _)%andb_true_iff)%andb_true_iff Hd Hv.
  rewrite (blocked_not_passes sm c d Hd Hv) in Hc. discriminate.
Qed.

(** When every gate of the request and of the response passes, the
    response is returned. *)
Lemma passing_gates_return
  (sm : SecurityManager.t) (uid : string -> string)
  (provider : GeminiProvider.t) (model : string) (request : Request)
  (body : Body) (response : GenerateContentResponse) :
  x_goog_api_key request <> "" ->
  json request = inr body ->
  GeminiProvider.generate_content provider model body (x_goog_api_key request)
  = inr (Some response) ->
  let rid := uuid4_hex request in
  let agent := request_agent uid (x_goog_api_key request) body in
  (forall g,
     Forall (carried_by rid agent (body_parts body)) g ->
     forallb (passes sm) (g ++ [model_gate uid model request body]) = true) ->
  forallb (passes sm) (outbound_gates rid agent response) = true ->
  outcome (Gemini.generate_content sm uid provider model request)
  = inr response.
Proof.
  intros Hkey Hjson Hprov rid agent Hin Hout.
  rewrite generate_content_outcome.
  pose proof (preflight_run sm uid provider model request body Hkey Hjson) as H.
  cbv zeta in H. fold rid agent in H.
  destruct H as (g & Hg & [(g1 & c & g2 & d & Heq & _ & Hd & Hv & _)
                          |(_ & Hm)]).
  { exfalso. specialize (Hin g Hg). rewrite Heq in Hin.
    exact (passes_all_split sm g1 g2 c d Hin Hd Hv). }
  rewrite Hm. cbn [snd].
  pose proof (forward_run sm provider model rid agent body
                (x_goog_api_key request)) as Hfw.
  cbv zeta in Hfw. rewrite Hprov in Hfw. rewrite Hfw. cbn [snd].
  destruct (check_response_gates sm rid agent response)
    as [(_ & ->)|(g1 & c & g2 & d & Heq & _ & Hd & Hv & _)]; [reflexivity|].
  exfalso. rewrite Heq in Hout.
  exact (passes_all_split sm g1 g2 c d Hout Hd Hv).
Qed.

(** X9: policies that never answer BLOCK never change what the client
    gets: whatever their verdicts (ALLOW or CONFIRM), a request with a key
    and a JSON body gets the valid response of the provider. *)
Theorem non_blocking_policies_return
  (sm : SecurityManager.t) (uid : string -> string)
  (provider : GeminiProvider.t) (model : string) (request : Request)
  (body : Body) (response : GenerateContentResponse) :
  (forall c d, decision_of sm c = Some d -> verdict d <> BLOCK) ->
  x_goog_api_key request <> "" ->
  json request = inr body ->
  GeminiProvider.generate_content provider model body (x_goog_api_key request)
  = inr (Some response) ->
  outcome (Gemini.generate_content sm uid provider model request)
  = inr response.
Proof.
  intros Hsm Hkey Hjson Hprov.
  assert (Hall : forall t, forallb (passes sm) t = true).
  { induction t as [|c t IH]; [reflexivity|]. cbn [forallb]. rewrite IH.
    unfold passes, blocks.
    destruct (decision_of sm c) as [d|] eqn:Hd; [|reflexivity].
    specialize (Hsm c d Hd). now destruct (verdict d). }
  apply (passing_gates_return sm uid provider model request body response
           Hkey Hjson Hprov); intros; apply Hall.
Qed.

Lemma non_blocking_policies_return_witness :
  outcome
    (Gemini.generate_content confirming_manager Examples.uid
       (Examples.answering Examples.response_trigger_call) Examples.model
       Examples.request_A)
  = inr Examples.response_trigger_call.
Proof.
  apply (non_blocking_policies_return confirming_manager Examples.uid
           (Examples.answering Examples.response_trigger_call) Examples.model
           Examples.request_A
           (mkBody
              (Some [Examples.turn "user"
                       [Examples.text_part
                          "what's the weather? capsem_block"]])
              (Some []))
           Examples.response_trigger_call).
  - intros c d Hd. destruct c; cbn in Hd; try discriminate;
      injection Hd as <-; discriminate.
  - discriminate.
  - reflexivity.
  - reflexivity.
Defined.

(** X10: with the default policy, a request and a response that hold the
    trigger nowhere (no visible text, no printed function response of the
    request, no name and no printed arguments of a function call of the
    response, no visible text of the response) go through: the client gets
    the response of the provider. *)
Theorem benign_request_passes
  (str : pyval -> string) (uid : string -> string)
  (provider : GeminiProvider.t) (model : string) (request : Request)
  (body : Body) (response : GenerateContentResponse) :
  x_goog_api_key request <> "" ->
  json request = inr body ->
  GeminiProvider.generate_content provider model body (x_goog_api_key request)
  = inr (Some response) ->
  texts_clean (body_parts body) = true ->
  responses_clean str (body_parts body) = true ->
  calls_clean str (response_parts response) = true ->
  texts_clean (response_parts response) = true ->
  outcome
    (Gemini.generate_content (Integration.default_manager str) uid provider
       model request)
  = inr response.
Proof.
  intros Hkey Hjson Hprov Ht Hr Hc Hrt.
  apply (passing_gates_return _ uid provider model request body response
           Hkey Hjson Hprov).
  - intros g Hg. rewrite forallb_snoc. apply andb_true_iff. split.
    + apply forallb_forall. intros c Hin.
      rewrite Forall_forall in Hg.
      destruct (Hg c Hin) as (p & fr & Hp & Hfr & ->).
      unfold responses_clean in Hr. rewrite forallb_forall in Hr.
      specialize (Hr p Hp). rewrite Hfr in Hr.
      unfold passes, blocks, response_gate. cbn [decision_of].
      rewrite default_on_tool_response. unfold DebugPolicy.on_tool_response.
      change "capsem_block" with DebugPolicy.DEBUG_TRIGGER at 1.
      unfold holds_trigger in Hr. apply negb_true_iff in Hr.
      now rewrite Hr.
    + unfold passes, blocks, model_gate. cbn [decision_of].
      rewrite default_on_model_call. unfold DebugPolicy.on_model_call.
      change "capsem_block" with DebugPolicy.DEBUG_TRIGGER at 1.
      fold (holds_trigger (visible_prompt body)).
      unfold visible_prompt. fold (body_parts body).
      rewrite holds_trigger_lines.
      unfold texts_clean in Ht. apply negb_true_iff in Ht. now rewrite Ht.
  - unfold outbound_gates.
    destruct (candidates response) as [[|cd cs]|] eqn:Hcs; try reflexivity.
    rewrite forallb_snoc. apply andb_true_iff. split.
    + unfold calls_clean in Hc. clear -Hc.
      induction (response_parts response) as [|p ps IH]; [reflexivity|].
      cbn [forallb flat_map] in *. apply andb_true_iff in Hc as (Hp & Hps).
      rewrite forallb_app, (IH Hps), andb_true_r.
      unfold part_gates. destruct (function_call p) as [fc|]; [|reflexivity].
      apply andb_true_iff in Hp as (Hn & Ha).
      apply negb_true_iff in Hn, Ha. unfold holds_trigger in Hn, Ha.
      cbn [forallb]. rewrite andb_true_r.
      unfold passes, blocks, tool_call_gate. cbn [decision_of].
      rewrite default_on_tool_call. unfold DebugPolicy.on_tool_call.
      cbn [tool_name]. now rewrite Hn, Ha.
    + unfold passes, blocks. cbn [decision_of].
      rewrite default_on_model_response. unfold DebugPolicy.on_model_response.
      change "capsem_block" with DebugPolicy.DEBUG_TRIGGER at 1.
      fold (holds_trigger (response_text response)).
      unfold response_text. rewrite holds_trigger_lines.
      unfold texts_clean in Hrt. apply negb_true_iff in Hrt. now rewrite Hrt.
Qed.

Lemma benign_request_passes_witness :
  outcome
    (Gemini.generate_content (Integration.default_manager py_str) Examples.uid
       (Examples.answering response_mixed) Examples.model
       Examples.request_weather)
  = inr response_mixed.
Proof.
  apply (benign_request_passes py_str Examples.uid
           (Examples.answering response_mixed) Examples.model
           Examples.request_weather
           (mkBody
              (Some [Examples.turn "user"
                       [Examples.text_part "what is the weather in paris?"]])
              (Some []))
           response_mixed); [discriminate | reflexivity ..].
Defined.

(** ** What the handlers never do *)

(** X11: the non-streaming handler never opens a stream, and the streaming
    handler evaluates no gate but on_model_call and on_tool_call: it never
    evaluates on_tool_response on the function responses of the request nor
    on_model_response on what is streamed, and never calls the provider's
    generate_content. *)
Theorem handlers_never
  (sm : SecurityManager.t) (uid : string -> string)
  (provider : GeminiProvider.t) (model : string) (request : Request) :
  forallb (fun c => negb (is_stream_call c))
    (trace (Gemini.generate_content sm uid provider model request)) = true /\
  forallb (fun c => is_model_call c || is_tool_call c || is_stream_call c)
    (trace (Gemini.stream_generate_content sm uid provider model request))
  = true.
Proof.
  split.
  - apply generate_content_calls. intros. now repeat split.
  - apply stream_generate_content_calls. intros. now repeat split.
Qed.

(** ** The agent of a request *)

Lemma convert_tool_eq (acc : list Tool) (td : ToolDef) :
  Integration.convert_tool acc td =
  if is_function_tool td then (acc ++ [function_tool td])%list else acc.
Proof.
  unfold Integration.convert_tool, is_function_tool, function_tool.
  destruct (td_type td) as [ty|]; [|reflexivity].
  destruct (String.eqb ty "function") eqn:E.
  - apply String.eqb_eq in E. subst ty. cbn [get].
    now destruct (fd_description (get (td_function td) _)) as [[|c d]|].
  - apply String.eqb_neq in E.
    destruct ty as [|[[] [] [] [] [] [] [] []] ty]; try reflexivity.
    repeat (destruct ty as [|[[] [] [] [] [] [] [] []] ty]; try reflexivity).
    now elim E.
Qed.

(** X12: [create_agent] names the agent after the user and gives it one
    tool for each tool definition of type "function", in the order of the
    request, with "unknown" for a missing name, the placeholder for a
    missing or empty description and an empty object schema for missing
    parameters; every other definition is left out, so a request that
    declares its tools the Gemini way gets an agent without tools. *)
Theorem create_agent_tools (user_id : string) (tds : list ToolDef) :
  Integration.create_agent user_id tds
  = mkAgent ("proxy-user-" ++ user_id) "OpenAI API proxy user"
      (map function_tool (filter is_function_tool tds)) /\
  (forallb (fun td => negb (is_function_tool td)) tds = true ->
   tools (Integration.create_agent user_id tds) = []).
Proof.
  assert (H : forall acc,
            fold_left Integration.convert_tool tds acc
            = (acc ++ map function_tool (filter is_function_tool tds))%list).
  { induction tds as [|td tds IH]; intros acc; cbn [fold_left filter map].
    - now rewrite app_nil_r.
    - rewrite IH, convert_tool_eq.
      destruct (is_function_tool td); [|reflexivity].
      cbn [map]. now rewrite <- app_assoc. }
  unfold Integration.create_agent. rewrite H. cbn [app].
  split; [reflexivity|]. cbn [tools]. intros Hnone.
  induction tds as [|td tds IH]; [reflexivity|].
  cbn [forallb] in Hnone. apply andb_true_iff in Hnone as (Htd & Hnone).
  cbn [filter]. apply negb_true_iff in Htd. rewrite Htd.
  apply IH; [|exact Hnone]. intros acc.
  specialize (H acc). cbn [fold_left filter map] in H.
  rewrite convert_tool_eq, Htd in H. exact H.
Qed.

Lemma create_agent_tools_witness :
  tools
    (Integration.create_agent "3f2a9c0e51b7d488"
       [mkToolDef None None
          (Some [mkFunctionDecl (Some "get_time") (Some "Tells the time")
                   None])])
  = [].
Proof.
  apply (create_agent_tools "3f2a9c0e51b7d488"
           [mkToolDef None None
              (Some [mkFunctionDecl (Some "get_time") (Some "Tells the time")
                       None])]).
  reflexivity.
Defined.

(** ** The streaming handler under the default policy *)

Lemma stream_gates_default_pass (str : pyval -> string)
  (uid : string -> string) (model : string) (request : Request)
  (body : Body) :
  forallb (passes (Integration.default_manager str))
    (stream_gates uid model request body)
  = negb (holds_trigger (stream_prompt body))
    && forallb (fun fd => negb (holds_trigger (declared_name fd)))
         (declared (get (body_tools body) [])).
Proof.
  unfold stream_gates, stream_gates_with. cbn [forallb]. f_equal.
  - unfold passes, blocks. cbn [decision_of].
    rewrite default_on_model_call. unfold DebugPolicy.on_model_call.
    change "capsem_block" with DebugPolicy.DEBUG_TRIGGER at 1.
    fold (holds_trigger (stream_prompt body)).
    now destruct (holds_trigger _).
  - induction (declared _) as [|fd l IH]; [reflexivity|].
    cbn [map forallb]. rewrite IH. f_equal.
    unfold passes, blocks. cbn [decision_of].
    rewrite default_on_tool_call. unfold DebugPolicy.on_tool_call.
    cbn [tool_name Gemini.stream_tool]. fold (declared_name fd).
    fold (holds_trigger (declared_name fd)).
    now destruct (holds_trigger _).
Qed.

(** X13: with the default policy, once the key and the body are read, the
    streaming handler opens the stream exactly when neither its prompt nor
    the name of a declared function ("unknown" when it has none) holds the
    trigger; descriptions and parameters of the declarations are not
    looked at.  The client then gets the chunks of the provider as a
    text/event-stream; otherwise it gets a 403. *)
Theorem stream_opened_iff
  (str : pyval -> string) (uid : string -> string)
  (provider : GeminiProvider.t) (model : string) (request : Request)
  (body : Body) :
  x_goog_api_key request <> "" ->
  json request = inr body ->
  let r :=
    Gemini.stream_generate_content (Integration.default_manager str) uid
      provider model request in
  let clean :=
    negb (holds_trigger (stream_prompt body))
    && forallb (fun fd => negb (holds_trigger (declared_name fd)))
         (declared (get (body_tools body) [])) in
  (clean = true ->
   outcome r
   = inr (mkStreamingResponse
            (GeminiProvider.generate_content_stream provider model body
               (x_goog_api_key request))
            "text/event-stream")) /\
  (clean = false ->
   exists d, outcome r = inl (mkHTTPException 403 d) /\
             forallb (fun c => negb (is_provider_call c)) (trace r) = true).
Proof.
  intros Hkey Hjson r clean. subst r clean.
  rewrite stream_generate_content_trace, stream_generate_content_outcome.
  rewrite <- (stream_gates_default_pass str uid model request body).
  pose proof (stream_cases (Integration.default_manager str) uid provider
                model request body Hkey Hjson) as H.
  cbv zeta in H.
  pose proof (stream_gates_kinds uid model request body) as Hk.
  destruct H as [(Hp & Hm)|(g1 & c & g2 & d & Hg & Hp & Hd & Hv & Hm)];
    rewrite Hm; cbn [fst snd].
  - split; [reflexivity|]. intros Hc. congruence.
  - split.
    + intros Hc. exfalso. rewrite Hg in Hc.
      exact (passes_all_split _ g1 g2 c d Hc Hd Hv).
    + intros _. eexists. split; [reflexivity|].
      rewrite Hg, forallb_app in Hk. cbn [forallb] in Hk.
      apply andb_true_iff in Hk as (Hk1 & (Hk2 & _)%andb_true_iff).
      rewrite forallb_snoc. apply andb_true_iff. split.
      * clear -Hk1. induction g1 as [|x g1 IH]; [reflexivity|]. cbn in *.
        apply andb_true_iff in Hk1 as (Hx & Hk1). rewrite (IH Hk1).
        now destruct x.
      * now destruct c.
Qed.

Lemma stream_opened_iff_witness :
  exists d,
    outcome
      (Gemini.stream_generate_content (Integration.default_manager py_str)
         Examples.uid (Examples.answering Examples.response_empty)
         Examples.model request_trigger_tool)
    = inl (mkHTTPException 403 d).
Proof.
  destruct (stream_opened_iff py_str Examples.uid
              (Examples.answering Examples.response_empty) Examples.model
              request_trigger_tool
              (mkBody
                 (Some [Examples.turn "user"
                          [Examples.text_part "what is the weather?"]])
                 (Some [mkToolDef None None
                          (Some [mkFunctionDecl (Some "get_weather") None None;
                                 mkFunctionDecl (Some "weather_Capsem_Block")
                                   None None])]))
              ltac:(discriminate) eq_refl) as (_ & H).
  destruct (H eq_refl) as (d & Hd & _). now exists d.
Defined.

(** ** The prompt of the non-streaming handler *)

(** X18: the non-streaming handler evaluates on_model_call at most once,
    and the prompt it hands over is made of the non-empty texts of the
    parts of the valid entries that are not flagged as thoughts, in the
    order of the request, one per line. *)
Theorem model_call_prompt_texts
  (sm : SecurityManager.t) (uid : string -> string)
  (provider : GeminiProvider.t) (model : string) (request : Request)
  (body : Body) :
  json request = inr body ->
  let prompts :=
    model_call_prompts
      (trace (Gemini.generate_content sm uid provider model request)) in
  prompts = []
  \/ prompts = [join newline (flat_map visible_text (body_parts body))].
Proof.
  intros Hj prompts. subst prompts. rewrite generate_content_trace.
  assert (Hresp : forall t, forallb is_tool_response_call t = true ->
            model_call_prompts t = []).
  { intros t Ht. apply model_call_prompts_none.
    induction t as [|c t IH]; [reflexivity|]. cbn in *.
    apply andb_true_iff in Ht as (Hc & Ht). rewrite (IH Ht). now destruct c. }
  destruct (x_goog_api_key request) as [|k0 k1] eqn:Ek.
  { unfold Gemini.generate_content_try, Gemini.extract_gemini_api_key.
    rewrite Ek. now left. }
  assert (Hkey : x_goog_api_key request <> "") by (rewrite Ek; discriminate).
  pose proof (preflight_cases sm uid provider model request body Hkey Hj) as H.
  cbv zeta in H.
  destruct H as (t & Ht & [(Hf & _) | [(_ & d & _ & Hm) | (_ & Hm)]]).
  - left. now rewrite Hf, (Hresp _ Ht).
  - right. rewrite Hm. cbn [fst].
    now rewrite model_call_prompts_app, (Hresp _ Ht).
  - right. rewrite Hm. cbn [fst].
    rewrite model_call_prompts_app, (Hresp _ Ht).
    match goal with
    | |- context [forward ?a ?b ?c ?d ?e ?f ?g] =>
        destruct (forward_trace a b c d e f g) as (t' & -> & Hk)
    end.
    change (?a :: ?b :: t') with ([a; b] ++ t')%list.
    rewrite model_call_prompts_app, (model_call_prompts_none t');
      [reflexivity|].
    clear -Hk. induction t' as [|c t' IH]; [reflexivity|]. cbn in *.
    apply andb_true_iff in Hk as [Hc Hk]. rewrite (IH Hk). now destruct c.
Qed.

Lemma model_call_prompt_texts_witness :
  model_call_prompts
    (trace (Gemini.generate_content (Integration.default_manager py_str)
              Examples.uid (Examples.answering Examples.response_empty)
              Examples.model Examples.request_thought))
  = [] \/
  model_call_prompts
    (trace (Gemini.generate_content (Integration.default_manager py_str)
              Examples.uid (Examples.answering Examples.response_empty)
              Examples.model Examples.request_thought))
  = [""].
Proof.
  apply (model_call_prompt_texts (Integration.default_manager py_str)
           Examples.uid (Examples.answering Examples.response_empty)
           Examples.model Examples.request_thought
           (mkBody
              (Some [Examples.turn "model"
                       [Examples.thought_part "capsem_block"]])
              (Some []))).
  reflexivity.
Defined.

(** ** What the client is told when the default policy blocks *)

Lemma default_block_details (str : pyval -> string) (c : call) (d : Decision) :
  decision_of (Integration.default_manager str) c = Some d ->
  verdict d = BLOCK ->
  exists place, details d = "Detected 'capsem_block' in " ++ place.
Proof.
  destruct c; cbn [decision_of]; intros Hd Hv; try discriminate;
    injection Hd as <-.
  - rewrite default_on_tool_response in *.
    unfold DebugPolicy.on_tool_response in *.
    destruct (contains _ _); [now exists "tool response" | discriminate].
  - rewrite default_on_model_call in *.
    unfold DebugPolicy.on_model_call in *.
    destruct (contains _ _); [now exists "prompt" | discriminate].
  - rewrite default_on_tool_call in *. unfold DebugPolicy.on_tool_call in *.
    destruct (contains _ (lower (tool_name tool)));
      [now exists "tool name"|].
    destruct (contains _ _); [now exists "tool arguments" | discriminate].
  - rewrite default_on_model_response in *.
    unfold DebugPolicy.on_model_response in *.
    destruct (contains _ _); [now exists "model response" | discriminate].
Qed.

(** X14: with the default policy, whenever a gate blocks, in either
    handler, the client gets a 403 whose detail holds both "security policy"
    and the trigger, as the tests of the proxy expect. *)
Theorem default_block_detail
  (str : pyval -> string) (uid : string -> string)
  (provider : GeminiProvider.t) (model : string) (request : Request)
  (c : call) (d : Decision) :
  let sm := Integration.default_manager str in
  decision_of sm c = Some d -> verdict d = BLOCK ->
  (In c (trace (Gemini.generate_content sm uid provider model request)) ->
   exists e,
     outcome (Gemini.generate_content sm uid provider model request) = inl e /\
     status_code e = 403%Z /\
     contains "security policy" (detail e) = true /\
     contains "capsem_block" (detail e) = true) /\
  (In c (trace (Gemini.stream_generate_content sm uid provider model request))
   ->
   exists e,
     outcome (Gemini.stream_generate_content sm uid provider model request)
     = inl e /\
     status_code e = 403%Z /\
     contains "security policy" (detail e) = true /\
     contains "capsem_block" (detail e) = true).
Proof.
  intros sm Hd Hv.
  destruct (default_block_details str c d Hd Hv) as (place & Hplace).
  split; intros Hin; apply in_split in Hin as (t1 & t2 & Ht).
  - rewrite generate_content_trace in Ht.
    destruct (generate_content_try_gated sm uid provider model request
                t1 c t2 d Ht Hd Hv) as (_ & Hs).
    rewrite generate_content_outcome, Hs. eexists. split; [reflexivity|].
    cbn [status_code detail]. rewrite Hplace. split; [reflexivity|]. split.
    + apply (contains_app "security policy" "Request blocked by "
               (": Detected 'capsem_block' in " ++ place)).
    + apply (contains_app "capsem_block"
               "Request blocked by security policy: Detected '"
               ("' in " ++ place)).
  - rewrite stream_generate_content_trace in Ht.
    destruct (stream_generate_content_try_gated sm uid provider model request
                t1 c t2 d Ht Hd Hv) as (_ & Hs).
    rewrite stream_generate_content_outcome, Hs. eexists.
    split; [reflexivity|].
    cbn [status_code detail]. rewrite Hplace. split; [reflexivity|].
    unfold stream_block_prefix. destruct (is_tool_call c); split.
    + apply (contains_app "security policy" "Tool blocked by "
               (": Detected 'capsem_block' in " ++ place)).
    + apply (contains_app "capsem_block"
               "Tool blocked by security policy: Detected '"
               ("' in " ++ place)).
    + apply (contains_app "security policy" "Request blocked by "
               (": Detected 'capsem_block' in " ++ place)).
    + apply (contains_app "capsem_block"
               "Request blocked by security policy: Detected '"
               ("' in " ++ place)).
Qed.

Lemma default_block_detail_witness :
  exists e,
    outcome
      (Gemini.stream_generate_content (Integration.default_manager py_str)
         Examples.uid (Examples.answering Examples.response_empty)
         Examples.model request_trigger_tool) = inl e /\
    status_code e = 403%Z /\
    contains "security policy" (detail e) = true /\
    contains "capsem_block" (detail e) = true.
Proof.
  eapply (default_block_detail py_str Examples.uid
            (Examples.answering Examples.response_empty) Examples.model
            request_trigger_tool
            (CallOnToolCall (uuid4_hex request_trigger_tool)
               (mkAgent "proxy-user-3f2a9c0e51b7d488" "OpenAI API proxy user"
                  [])
               (Gemini.stream_tool
                  (mkFunctionDecl (Some "weather_Capsem_Block") None None))
               [])).
  - reflexivity.
  - reflexivity.
  - vm_compute. right. right. left. reflexivity.
Defined.

(** ** A response that holds the trigger *)

(** X15: with the default policy, a response of the provider whose
    visible text holds the trigger, in any letter case, is never returned:
    the client gets a 403 whose details name the trigger (from
    on_model_response, or from an on_tool_call gate that blocked before
    it). *)
Theorem trigger_response_not_returned
  (str : pyval -> string) (uid : string -> string)
  (provider : GeminiProvider.t) (model : string) (request : Request)
  (m : string) (b : Body) (k : string) (response : GenerateContentResponse) :
  let sm := Integration.default_manager str in
  let r := Gemini.generate_content sm uid provider model request in
  In (CallGenerateContent m b k) (trace r) ->
  GeminiProvider.generate_content provider m b k = inr (Some response) ->
  candidates response <> None -> candidates response <> Some [] ->
  texts_clean (response_parts response) = false ->
  exists d,
    verdict d = BLOCK /\
    outcome r = inl (mkHTTPException 403 (request_blocked ++ details d)) /\
    contains DebugPolicy.DEBUG_TRIGGER (details d) = true.
Proof.
  intros sm r Hcall Hresp Hc1 Hc2 Hdirty. subst r.
  destruct (provider_called sm uid provider model request m b k Hcall)
    as (-> & Hj & Hk & H).
  cbv zeta in H. destruct H as (t & _ & _ & Htry).
  rewrite generate_content_outcome, Htry.
  rewrite (forward_returns sm provider model (uuid4_hex request) _ b k
             response Hresp).
  cbv zeta. cbn [snd].
  destruct (check_response_gates sm (uuid4_hex request)
              (request_agent uid k b) response)
    as [(Hpass & _)|(g1 & c & g2 & d & _ & _ & Hd & Hv & ->)].
  - exfalso. unfold outbound_gates in Hpass.
    destruct (candidates response) as [[|cd cs]|]; try congruence.
    rewrite forallb_snoc in Hpass.
    apply andb_true_iff in Hpass as (_ & Hp).
    unfold passes, blocks in Hp. cbn [decision_of] in Hp. subst sm.
    rewrite default_on_model_response in Hp.
    unfold DebugPolicy.on_model_response in Hp.
    change "capsem_block" with DebugPolicy.DEBUG_TRIGGER in Hp at 1.
    fold (holds_trigger (response_text response)) in Hp.
    unfold response_text in Hp. rewrite holds_trigger_lines in Hp.
    unfold texts_clean in Hdirty. apply negb_false_iff in Hdirty.
    rewrite Hdirty in Hp. discriminate.
  - exists d. cbn [snd]. repeat split; auto.
    destruct (default_block_details str c d Hd Hv) as (place & ->).
    apply (contains_app DebugPolicy.DEBUG_TRIGGER "Detected '"
             ("' in " ++ place)).
Qed.

Lemma trigger_response_not_returned_witness :
  exists d,
    outcome
      (Gemini.generate_content (Integration.default_manager py_str)
         Examples.uid (Examples.answering response_text_trigger)
         Examples.model Examples.request_weather)
    = inl (mkHTTPException 403 (request_blocked ++ details d)).
Proof.
  destruct (trigger_response_not_returned py_str Examples.uid
              (Examples.answering response_text_trigger) Examples.model
              Examples.request_weather Examples.model
              (mkBody
                 (Some [Examples.turn "user"
                          [Examples.text_part
                             "what is the weather in paris?"]])
                 (Some []))
              "key-123" response_text_trigger) as (d & _ & Hd & _).
  - vm_compute. right. left. reflexivity.
  - reflexivity.
  - discriminate.
  - discriminate.
  - reflexivity.
  - now exists d.
Defined.

(** ** Entries that are not valid content *)

Lemma scan_contents_valid sm rid agent (cs : list ContentEntry)
  (l : Gemini.locals) :
  for_each (Gemini.scan_content sm rid agent) cs l
  = for_each (Gemini.scan_content sm rid agent) (filter validates cs) l.
Proof.
  revert l; induction cs as [|c cs IH]; intros l; [reflexivity|].
  cbn [for_each filter]. destruct (validates c) eqn:Hv.
  - cbn [for_each]. destruct (Gemini.scan_content sm rid agent l c)
      as [t [e|l']]; [reflexivity|].
    now rewrite !bind_val, IH.
  - unfold Gemini.scan_content at 1. rewrite Hv. cbn [negb].
    rewrite bind_ret. apply IH.
Qed.

(** X16: an entry of the request that is not valid content is skipped and
    the request goes on: the non-streaming handler evaluates the same gates,
    with the same arguments, as for the request without that entry, and
    when the provider answers both bodies alike the client gets the same
    result. *)
Theorem malformed_entries_are_skipped
  (sm : SecurityManager.t) (uid : string -> string)
  (provider : GeminiProvider.t) (model : string) (request : Request)
  (body : Body) :
  json request = inr body ->
  GeminiProvider.generate_content provider model (valid_entries body)
    (x_goog_api_key request)
  = GeminiProvider.generate_content provider model body
      (x_goog_api_key request) ->
  let r := Gemini.generate_content sm uid provider model request in
  let r' :=
    Gemini.generate_content sm uid provider model
      (with_body request (valid_entries body)) in
  outcome r = outcome r' /\
  gate_calls (trace r) = gate_calls (trace r').
Proof.
  intros Hjson Hprov r r'. subst r r'.
  rewrite !generate_content_outcome, !generate_content_trace.
  unfold Gemini.generate_content_try, Gemini.extract_gemini_api_key.
  cbn [with_body x_goog_api_key json uuid4_hex].
  destruct (x_goog_api_key request) as [|k0 k]; [split; reflexivity|].
  rewrite !bind_ret, Hjson, !bind_ret.
  cbn [valid_entries body_tools body_contents get].
  rewrite <- scan_contents_valid.
  destruct (for_each _ (get (body_contents body) []) Gemini.no_locals)
    as [t [e|l]]; [split; reflexivity|].
  rewrite !bind_val. cbv beta.
  rewrite !call_on_model_call_eq, !bind_val. cbv beta.
  destruct (Gemini._decide _ _ _) as [td [e|u]]; [split; reflexivity|].
  rewrite !bind_val, !bind_emit. cbv beta.
  change (mkBody (Some (filter validates (get (body_contents body) [])))
            (body_tools body)) with (valid_entries body).
  rewrite Hprov. cbn [fst snd].
  split; [reflexivity|].
  unfold gate_calls. rewrite !filter_app. cbn [filter is_provider_call negb].
  reflexivity.
Qed.

Lemma malformed_entries_are_skipped_witness :
  outcome
    (Gemini.generate_content (Integration.default_manager py_str) Examples.uid
       (Examples.answering Examples.response_empty) Examples.model
       request_malformed)
  = inr Examples.response_empty.
Proof.
  destruct (malformed_entries_are_skipped
              (Integration.default_manager py_str) Examples.uid
              (Examples.answering Examples.response_empty) Examples.model
              request_malformed
              (mkBody
                 (Some [mkContentEntry
                          (mkContent (Some "user")
                             (Some [Examples.text_part "capsem_block"])) false;
                        Examples.turn "user"
                          [Examples.text_part "what is the weather?"]])
                 (Some []))
              eq_refl eq_refl) as (Hout & _).
  rewrite Hout. reflexivity.
Defined.

(** ** A function result that holds the trigger *)

Section ResultBlocks.

Variable sm : SecurityManager.t.
Variable request_id : string.
Variable agent : Agent.

Lemma last_map_Some_eq (ps : list Part) (o : option Part) :
  ps <> [] -> last (map Some ps) o = Some (last ps empty_part).
Proof.
  induction ps as [|q qs IH]; [congruence|]. intros _.
  destruct qs as [|q' qs]; [reflexivity|].
  change (last (map Some (q :: q' :: qs)) o)
    with (last (map Some (q' :: qs)) o).
  change (last (q :: q' :: qs) empty_part) with (last (q' :: qs) empty_part).
  now apply IH.
Qed.

Lemma scan_content_raises (l : Gemini.locals) (c : ContentEntry)
  (ps : list Part) (fr : FunctionResponse) :
  validates c = true ->
  parts (entry c) = Some ps ->
  function_response (last ps empty_part) = Some fr ->
  blocks sm (response_gate request_id agent fr) = true ->
  exists e, snd (Gemini.scan_content sm request_id agent l c) = inl e.
Proof.
  intros Hv Hps Hfr Hb. unfold Gemini.scan_content. rewrite Hv, Hps.
  cbn [negb]. destruct ps as [|p ps]; [discriminate|].
  change (fold_left Gemini.scan_part ps (Gemini.scan_part l p))
    with (fold_left Gemini.scan_part (p :: ps) l).
  rewrite scan_part_fold. cbn [Gemini.part].
  rewrite (last_map_Some_eq (p :: ps)) by discriminate. rewrite Hfr.
  rewrite call_on_tool_response_eq, bind_val. cbv beta.
  unfold blocks in Hb. cbn [response_gate decision_of] in Hb.
  rewrite (decide_block _ _ _ Hb), bind_err. cbn [snd]. now eexists.
Qed.

Lemma scan_contents_raise (cs : list ContentEntry) (l : Gemini.locals)
  (c : ContentEntry) (ps : list Part) (fr : FunctionResponse) :
  In c cs ->
  validates c = true ->
  parts (entry c) = Some ps ->
  function_response (last ps empty_part) = Some fr ->
  blocks sm (response_gate request_id agent fr) = true ->
  exists e,
    snd (for_each (Gemini.scan_content sm request_id agent) cs l) = inl e.
Proof.
  intros Hin Hv Hps Hfr Hb. revert l.
  induction cs as [|c0 cs IH]; intros l; [contradiction|].
  cbn [for_each].
  destruct (Gemini.scan_content sm request_id agent l c0)
    as [t [e|l']] eqn:E; [rewrite bind_err; now eexists|].
  rewrite bind_val. cbn [snd]. destruct Hin as [->|Hin].
  - destruct (scan_content_raises l c ps fr Hv Hps Hfr Hb) as (e & He).
    rewrite E in He. discriminate.
  - now apply IH.
Qed.

End ResultBlocks.

(** X17: with the default policy, a function result that is the last part
    of a valid entry of the request and whose printed payload holds the
    trigger stops the request before the model is called: the client gets
    the 403 of the tool-response gate, and neither on_model_call nor the
    provider is reached. *)
Theorem trigger_result_blocks_request
  (str : pyval -> string) (uid : string -> string)
  (provider : GeminiProvider.t) (model : string) (request : Request)
  (body : Body) (c : ContentEntry) (ps : list Part) (fr : FunctionResponse) :
  x_goog_api_key request <> "" ->
  json request = inr body ->
  In c (get (body_contents body) []) ->
  validates c = true ->
  parts (entry c) = Some ps ->
  function_response (last ps empty_part) = Some fr ->
  holds_trigger (str (PyDict (dict_or_empty (fr_response fr)))) = true ->
  let r :=
    Gemini.generate_content (Integration.default_manager str) uid provider
      model request in
  outcome r
  = inl (mkHTTPException 403
           "Request blocked by security policy: Detected 'capsem_block' in tool response")
  /\ forallb is_tool_response_call (trace r) = true.
Proof.
  intros Hkey Hjson Hin Hv Hps Hfr Htrig r. subst r.
  set (sm := Integration.default_manager str).
  rewrite generate_content_trace, generate_content_outcome.
  unfold Gemini.generate_content_try, Gemini.extract_gemini_api_key.
  destruct (x_goog_api_key request) as [|k0 k] eqn:Ek; [congruence|].
  rewrite bind_ret, Hjson, bind_ret.
  set (agent := Integration.create_agent _ _).
  assert (Hb : blocks sm (response_gate (uuid4_hex request) agent fr) = true).
  { unfold blocks, response_gate. cbn [decision_of]. subst sm.
    rewrite default_on_tool_response. unfold DebugPolicy.on_tool_response.
    change "capsem_block" with DebugPolicy.DEBUG_TRIGGER at 1.
    unfold holds_trigger in Htrig. now rewrite Htrig. }
  destruct (scan_contents_raise sm (uuid4_hex request) agent
              (get (body_contents body) []) Gemini.no_locals c ps fr
              Hin Hv Hps Hfr Hb) as (e & He).
  destruct (scan_contents_gates sm (uuid4_hex request) agent
              (get (body_contents body) []) Gemini.no_locals)
    as (g & Hg & [(_ & Hm)|(g1 & cl & g2 & d & Heq & _ & Hd & Hv' & Hm)]);
    rewrite Hm in *; [discriminate|].
  rewrite bind_err. cbn [fst snd Gemini.generate_content_except].
  assert (Hcl : carried_by (uuid4_hex request) agent
                  (flat_map entry_parts (get (body_contents body) [])) cl).
  { rewrite Forall_forall in Hg. apply Hg. rewrite Heq.
    apply in_or_app. right. now left. }
  destruct Hcl as (p & fr' & _ & _ & ->).
  split.
  - cbn [response_gate decision_of] in Hd. injection Hd as <-.
    subst sm. rewrite default_on_tool_response in *.
    unfold DebugPolicy.on_tool_response in *.
    destruct (contains _ _); [reflexivity | discriminate].
  - rewrite forallb_snoc. apply andb_true_iff. split; [|reflexivity].
    apply forallb_forall. intros x Hx. rewrite Forall_forall in Hg.
    destruct (Hg x) as (? & ? & _ & _ & ->); [|reflexivity].
    rewrite Heq. apply in_or_app. now left.
Qed.

Lemma trigger_result_blocks_request_witness :
  outcome
    (Gemini.generate_content (Integration.default_manager py_str) Examples.uid
       (Examples.answering Examples.response_empty) Examples.model
       request_result_trigger)
  = inl (mkHTTPException 403
           "Request blocked by security policy: Detected 'capsem_block' in tool response").
Proof.
  apply (trigger_result_blocks_request py_str Examples.uid
           (Examples.answering Examples.response_empty) Examples.model
           request_result_trigger
           (mkBody
              (Some [Examples.turn "user"
                       [Examples.text_part "what is the weather?"];
                     Examples.turn "user"
                       [Examples.response_part "get_weather"
                          [("location", PyStr "capsem_block")]]])
              (Some []))
           (Examples.turn "user"
              [Examples.response_part "get_weather"
                 [("location", PyStr "capsem_block")]])
           [Examples.response_part "get_weather"
              [("location", PyStr "capsem_block")]]
           (mkFunctionResponse "get_weather"
              (Some [("location", PyStr "capsem_block")]))).
  - discriminate.
  - reflexivity.
  - right. left. reflexivity.
  - reflexivity.
  - reflexivity.
  - reflexivity.
  - reflexivity.
Defined.
